(** * MPAS-Analysis: time-series and climatology analysis tasks

    A shallow embedding of the analysis tasks of [mpas_analysis]
    (ocean heat content, sea-surface temperature, meridional heat
    transport and sea-ice time series) and of the two cache engines they
    call, together with the properties stated about them.

    Python exceptions are values of [Exn]; a call that may raise returns a
    [Res].  Datasets are modelled along their [Time] dimension. *)

From Stdlib Require Import ZArith QArith List Bool Lia String Sorted.
From stdpp Require Import base option list gmap strings.
Import ListNotations.

Local Open Scope Z_scope.

(** ** Exceptions and results *)

Inductive Exn : Type :=
| IOError (msg : string)
| OSError (msg : string)
| ValueError (msg : string)
| IndexError (msg : string)
| KeyError (key : string)
| NoOptionError (section option : string)
| TypeError (msg : string)
| NoDataError.

Inductive Res (A : Type) : Type :=
| Ok (a : A)
| Raise (e : Exn).

Arguments Ok {A} a.
Arguments Raise {A} e.

Definition bindR {A B : Type} (r : Res A) (k : A -> Res B) : Res B :=
  match r with
  | Ok a => k a
  | Raise e => Raise e
  end.

Declare Scope res_scope.
Delimit Scope res_scope with res.
Notation "x <~ c ;; k" := (bindR c (fun x => k))
  (at level 100, c at next level, right associativity) : res_scope.

Definition is_ok {A : Type} (r : Res A) : Prop :=
  match r with Ok _ => True | Raise _ => False end.

(** [try: body except <filter>: handler]: the handler runs only for the
    exceptions the filter accepts, every other exception propagates. *)
Definition try_except {A : Type} (body : Res A) (catches : Exn -> bool)
    (handler : Res A) : Res A :=
  match body with
  | Ok a => Ok a
  | Raise e => if catches e then handler else Raise e
  end.

Definition isValueError (e : Exn) : bool :=
  match e with ValueError _ => true | _ => false end.

Definition isIOError (e : Exn) : bool :=
  match e with IOError _ => true | _ => false end.

(** Every index is a position of a sequence of length [len], counted from
    the start or, when negative, from the end. *)
Definition valid_indices (len : nat) (indices : list Z) : Prop :=
  Forall (fun i => - Z.of_nat len <= i < Z.of_nat len) indices.

(** [l[0]] on a Python list. *)
Definition item0 {A : Type} (l : list A) : Res A :=
  match l with
  | x :: _ => Ok x
  | [] => Raise (IndexError "index out of range")
  end.

(** [n] normalised as a Python index into a sequence of length [len]:
    negative offsets count from the end, anything else out of range raises. *)
Definition norm_index (len : nat) (i : Z) : Res nat :=
  if (0 <=? i) && (i <? Z.of_nat len) then Ok (Z.to_nat i)
  else if (- Z.of_nat len <=? i) && (i <? 0) then Ok (Z.to_nat (Z.of_nat len + i))
  else Raise (IndexError "index out of range").

(** [l[i]] for an integer [i]. *)
Definition py_index {A : Type} (l : list A) (i : Z) : Res A :=
  (n <~ norm_index (length l) i ;;
   match nth_error l n with
   | Some x => Ok x
   | None => Raise (IndexError "index out of range")
   end)%res.

(** [[l[i] for i in indices]], also the positional selection of [isel]. *)
Fixpoint take {A : Type} (l : list A) (indices : list Z) : Res (list A) :=
  match indices with
  | [] => Ok []
  | i :: rest =>
      (x <~ py_index l i ;;
       xs <~ take l rest ;;
       Ok (x :: xs))%res
  end.

(** ** Datasets along [Time]

    An [xarray] dataset as the reduction callbacks use it: the [Time]
    coordinate, the variables by name in insertion order, and the sizes of
    the other dimensions.  A variable with a [Time] dimension holds one slab
    per time (its values over the remaining dimensions). *)

Module XArray.

Section Data.

Variable Slab : Type.

Inductive DataArray : Type :=
| AlongTime (values : list Slab)
| Labels (dim : string) (names : list string).

Record Dataset : Type := {
  sizes : gmap string nat;
  Time : list Z;
  data_vars : list (string * DataArray)
}.

(** Every variable with a [Time] dimension has one slab per time. *)
Definition consistent (ds : Dataset) : Prop :=
  forall name values, In (name, AlongTime values) (data_vars ds) ->
    length values = length (Time ds).

(** [isel(Time=timeIndices)] on one variable. *)
Definition isel_var (v : DataArray) (timeIndices : list Z) : Res DataArray :=
  match v with
  | AlongTime values => (vs <~ take values timeIndices ;; Ok (AlongTime vs))%res
  | Labels dim names => Ok (Labels dim names)
  end.

Fixpoint isel_vars (vars : list (string * DataArray)) (timeIndices : list Z)
    : Res (list (string * DataArray)) :=
  match vars with
  | [] => Ok []
  | (name, v) :: rest =>
      (v' <~ isel_var v timeIndices ;;
       rest' <~ isel_vars rest timeIndices ;;
       Ok ((name, v') :: rest'))%res
  end.

(** [ds.isel(Time=timeIndices)] for a list of integer positions. *)
Definition isel (ds : Dataset) (timeIndices : list Z) : Res Dataset :=
  (times <~ take (Time ds) timeIndices ;;
   vars <~ isel_vars (data_vars ds) timeIndices ;;
   Ok {| sizes := sizes ds; Time := times; data_vars := vars |})%res.

(** [ds[name]] (and [ds.name]). *)
Fixpoint getitem_vars (vars : list (string * DataArray)) (name : string)
    : Res DataArray :=
  match vars with
  | [] => Raise (KeyError name)
  | (n, v) :: rest => if String.eqb n name then Ok v else getitem_vars rest name
  end.

Definition getitem (ds : Dataset) (name : string) : Res DataArray :=
  getitem_vars (data_vars ds) name.

(** The variable table after [ds[name] = v]: replaced in place, or added
    at the end. *)
Fixpoint set_var (vars : list (string * DataArray)) (name : string)
    (v : DataArray) : list (string * DataArray) :=
  match vars with
  | [] => [(name, v)]
  | (n, old) :: rest =>
      if String.eqb n name then (n, v) :: rest
      else (n, old) :: set_var rest name v
  end.

(** [ds[name] = v]; a size that conflicts with a dimension of the dataset
    raises. *)
Definition setitem (ds : Dataset) (name : string) (v : DataArray) : Res Dataset :=
  match v with
  | AlongTime values =>
      if (length values =? length (Time ds))%nat then
        Ok {| sizes := sizes ds; Time := Time ds;
              data_vars := set_var (data_vars ds) name v |}
      else Raise (ValueError "conflicting sizes for dimension 'Time'")
  | Labels dim names =>
      match sizes ds !! dim with
      | Some n =>
          if (n =? length names)%nat then
            Ok {| sizes := sizes ds; Time := Time ds;
                  data_vars := set_var (data_vars ds) name v |}
          else Raise (ValueError "conflicting sizes for dimension")
      | None =>
          Ok {| sizes := <[dim := length names]> (sizes ds); Time := Time ds;
                data_vars := set_var (data_vars ds) name v |}
      end
  end.

(** The product of two variables of the same dataset: slab by slab along
    [Time]; [mul] is the product over the remaining dimensions. *)
Definition times_array (mul : Slab -> Slab -> Slab) (a b : DataArray)
    : Res DataArray :=
  match a, b with
  | AlongTime xs, AlongTime ys => Ok (AlongTime (zip_with mul xs ys))
  | _, _ => Raise (TypeError "unsupported operand type(s) for *")
  end.

(** A scalar times a variable. *)
Definition scale_array (scale : Slab -> Slab) (a : DataArray) : Res DataArray :=
  match a with
  | AlongTime xs => Ok (AlongTime (map scale xs))
  | Labels _ _ => Raise (TypeError "unsupported operand type(s) for *")
  end.

End Data.

Arguments AlongTime {Slab} values.
Arguments Labels {Slab} dim names.
Arguments sizes {Slab} d.
Arguments Time {Slab} d.
Arguments data_vars {Slab} d.

End XArray.

(** ** Collaborators of the analysis tasks

    The configuration parser, the streams files, the namelist and the base
    class [AnalysisTask] are not part of the modelled files; what the tasks
    observe of them is held in records. *)

Module Shared.

(** [MpasAnalysisConfigParser]: [get] for plain options, [getExpression]
    for lists of names and lists of indices, [getboolean]. *)
Record Config : Type := {
  options : gmap (string * string) string;
  name_lists : gmap (string * string) (list string);
  index_lists : gmap (string * string) (list Z);
  booleans : gmap (string * string) bool;
  integers : gmap (string * string) Z
}.

Definition lookup_option {A : Type} (m : gmap (string * string) A)
    (section option : string) : Res A :=
  match m !! (section, option) with
  | Some v => Ok v
  | None => Raise (NoOptionError section option)
  end.

Definition get (c : Config) := lookup_option (options c).
Definition getNames (c : Config) := lookup_option (name_lists c).
Definition getIndices (c : Config) := lookup_option (index_lists c).
Definition getboolean (c : Config) := lookup_option (booleans c).
Definition getint (c : Config) := lookup_option (integers c).

(** A [StreamsFile]: [readpath(stream)] without dates, [readpath] between
    two dates under a calendar, [find_stream], and what
    [get_simulation_start_time] reads through it. *)
Record StreamsFile : Type := {
  readpath : string -> Res (list string);
  readpath_between : string -> string -> string -> string -> Res (list string);
  find_stream : list string -> Res string;
  get_simulation_start_time : Res string
}.

(** The state an [AnalysisTask] holds once the base class has set it up. *)
Record AnalysisTask : Type := {
  config : Config;
  base_setup_and_check : Res unit;
  check_analysis_enabled : string -> Res unit;
  check_path_exists : string -> Res unit;
  historyStreams : StreamsFile;
  runStreams : StreamsFile;
  calendar : string;
  plotsDirectory : string
}.

(** What [setup_and_check] stores on the task. *)
Record TaskSetup : Type := {
  startDate : string;
  endDate : string;
  inputFiles : list string;
  xmlFileNames : list string;
  filePrefixes : gmap string string
}.

(** ['No files were found in stream {} between {} and {}.'.format(...)]. *)
Definition no_files_message (streamName startDate endDate : string) : string :=
  ("No files were found in stream " ++ streamName ++ " between " ++
   startDate ++ " and " ++ endDate ++ ".")%string.

(** The loop over the regions that fills [xmlFileNames] and [filePrefixes];
    [tag] is ["ohc_"] or ["sst_"]. *)
Fixpoint region_files (tag mainRunName plotsDir : string) (regions : list string)
    (xml : list string) (prefixes : gmap string string)
    : list string * gmap string string :=
  match regions with
  | [] => (xml, prefixes)
  | region :: rest =>
      let filePrefix := (tag ++ region ++ "_" ++ mainRunName ++ ".png")%string in
      region_files tag mainRunName plotsDir rest
        (xml ++ [(plotsDir ++ "/" ++ filePrefix ++ ".xml")%string])
        (<[region := filePrefix]> prefixes)
  end.

(** The body shared, line for line, by [TimeSeriesOHC.setup_and_check] and
    [TimeSeriesSST.setup_and_check] after the two calls into the base class;
    they differ in the section that holds [regionIndicesToPlot] and in the
    file tag. *)
Definition time_series_setup (t : AnalysisTask) (taskSection tag : string)
    : Res TaskSetup :=
  (ref <~ get (config t) "runs" "preprocessedReferenceRunName" ;;
   _ <~ (if String.eqb ref "None" then Ok tt
         else (dir <~ get (config t) "oceanPreprocessedReference" "baseDirectory" ;;
               check_path_exists t dir)) ;;
   let streamName := "timeSeriesStatsMonthlyOutput"%string in
   startDate <~ get (config t) "timeSeries" "startDate" ;;
   endDate <~ get (config t) "timeSeries" "endDate" ;;
   inputFiles <~ readpath_between (historyStreams t) streamName startDate endDate
                   (calendar t) ;;
   if (length inputFiles =? 0)%nat then
     Raise (IOError (no_files_message streamName startDate endDate))
   else
     mainRunName <~ get (config t) "runs" "mainRunName" ;;
     regions <~ getNames (config t) "regions" "regions" ;;
     regionIndicesToPlot <~ getIndices (config t) taskSection "regionIndicesToPlot" ;;
     regions <~ take regions regionIndicesToPlot ;;
     let '(xml, prefixes) :=
       region_files tag mainRunName (plotsDirectory t) regions [] ∅ in
     Ok {| startDate := startDate; endDate := endDate;
           inputFiles := inputFiles;
           xmlFileNames := xml; filePrefixes := prefixes |})%res.

(** The steps of [time_series_setup] before the discovery of the input
    files all succeed, and leave [startDate] and [endDate]. *)
Definition reads_dates (t : AnalysisTask) (startDate endDate : string) : Prop :=
  (exists ref, get (config t) "runs" "preprocessedReferenceRunName" = Ok ref /\
     (if String.eqb ref "None" then Ok tt
      else (dir <~ get (config t) "oceanPreprocessedReference" "baseDirectory" ;;
            check_path_exists t dir)%res) = Ok tt) /\
  get (config t) "timeSeries" "startDate" = Ok startDate /\
  get (config t) "timeSeries" "endDate" = Ok endDate.

End Shared.

(** ** Ocean heat content: depth indices ([TimeSeriesOHC.run]) *)

Module OHC.

(** [TimeSeriesOHC.setup_and_check]. *)
Definition setup_and_check (t : Shared.AnalysisTask) : Res Shared.TaskSetup :=
  (_ <~ Shared.base_setup_and_check t ;;
   _ <~ Shared.check_analysis_enabled t "config_am_timeseriesstatsmonthly_enable" ;;
   Shared.time_series_setup t "timeSeriesOHC" "ohc_")%res.

(** [depth > thr] on one entry of [refBottomDepth]. *)
Definition Qgtb (x thr : Q) : bool := negb (Qle_bool x thr).

(** [np.where(depth > thr)[0]]: the positions, in increasing order, of the
    entries that exceed [thr]; [i] is the position of the head of [depth]. *)
Fixpoint where_gt (thr : Q) (depth : list Q) (i : nat) : list nat :=
  match depth with
  | [] => []
  | d :: rest =>
      if Qgtb d thr then i :: where_gt thr rest (S i)
      else where_gt thr rest (S i)
  end.

(** [np.where(depth > thr)[0][0] - 1]; element 0 of an empty match raises. *)
Definition depth_index (thr : Q) (depth : list Q) : Res Z :=
  match where_gt thr depth 0 with
  | i :: _ => Ok (Z.of_nat i - 1)
  | [] => Raise (IndexError "index 0 is out of bounds for axis 0 with size 0")
  end.

Record DepthIndices : Type := {
  k700m : Z;
  k2000m : Z;
  kbtm : Z
}.

(** Lines 178-181 of [time_series_ohc.py]. *)
Definition depth_indices (depth : list Q) : Res DepthIndices :=
  (k7 <~ depth_index 700 depth ;;
   k20 <~ depth_index 2000 depth ;;
   Ok {| k700m := k7; k2000m := k20;
         kbtm := Z.of_nat (length depth) - 1 |})%res.

Section Callback.

(** Floating-point values [F] with their product, slabs of values over
    [nOceanRegionsTmp] and [nVertLevels] with the product of two slabs and
    of a scalar and a slab. *)
Variable F : Type.
Variable Slab : Type.
Variable fmul : F -> F -> F.
Variable scale : F -> Slab -> Slab.
Variable mul : Slab -> Slab -> Slab.

(** What [_compute_ohc_part] reads on the task. *)
Record Task : Type := {
  namelist : gmap string F;
  ds : XArray.Dataset Slab;
  regionNames : list string
}.

(** [self.namelist.getfloat(key)]. *)
Definition getfloat (self : Task) (key : string) : Res F :=
  match namelist self !! key with
  | Some x => Ok x
  | None => Raise (KeyError key)
  end.

Definition sumMaskVarName : string :=
  "timeMonthly_avg_avgValueWithinOceanLayerRegion_sumLayerMaskValue".
Definition avgAreaVarName : string :=
  "timeMonthly_avg_avgValueWithinOceanLayerRegion_avgLayerArea".
Definition avgThickVarName : string :=
  "timeMonthly_avg_avgValueWithinOceanLayerRegion_avgLayerThickness".

(** [TimeSeriesOHC._compute_ohc_part]. *)
Definition _compute_ohc_part (self : Task) (timeIndices : list Z)
    (firstCall : bool) : Res (XArray.Dataset Slab) :=
  (cp <~ getfloat self "config_specific_heat_sea_water" ;;
   rho <~ getfloat self "config_density0" ;;
   dsLocal <~ XArray.isel Slab (ds self) timeIndices ;;
   sumMask <~ XArray.getitem Slab dsLocal sumMaskVarName ;;
   p1 <~ XArray.scale_array Slab (scale (fmul rho cp)) sumMask ;;
   avgArea <~ XArray.getitem Slab dsLocal avgAreaVarName ;;
   p2 <~ XArray.times_array Slab mul p1 avgArea ;;
   avgThick <~ XArray.getitem Slab dsLocal avgThickVarName ;;
   p3 <~ XArray.times_array Slab mul p2 avgThick ;;
   anomaly <~ XArray.getitem Slab dsLocal "avgLayTemperatureAnomaly" ;;
   ohc <~ XArray.times_array Slab mul p3 anomaly ;;
   dsLocal <~ XArray.setitem Slab dsLocal "ohc" ohc ;;
   dsLocal <~ XArray.setitem Slab dsLocal "regionNames"
                (XArray.Labels "nOceanRegionsTmp" (regionNames self)) ;;
   Ok dsLocal)%res.

(** The task state [run] leaves for the callback: both constants in the
    namelist, a consistent dataset that holds the four factors along
    [Time], and as many region names as the region dimension has entries. *)
Definition ready (self : Task) : Prop :=
  is_Some (namelist self !! "config_specific_heat_sea_water"%string) /\
  is_Some (namelist self !! "config_density0"%string) /\
  XArray.consistent Slab (ds self) /\
  (forall name,
     In name [sumMaskVarName; avgAreaVarName; avgThickVarName;
              "avgLayTemperatureAnomaly"%string] ->
     exists values, XArray.getitem Slab (ds self) name = Ok (XArray.AlongTime values)) /\
  match XArray.sizes (ds self) !! "nOceanRegionsTmp"%string with
  | Some n => n = length (regionNames self)
  | None => True
  end.

(** [self.ds[name].isel(Time=timeIndices)]: a variable of the task at the
    time indices of a call. *)
Definition selected (self : Task) (timeIndices : list Z) (name : string)
    : Res (XArray.DataArray Slab) :=
  (v <~ XArray.getitem Slab (ds self) name ;;
   XArray.isel_var Slab v timeIndices)%res.

End Callback.

Arguments namelist {F Slab} t.
Arguments ds {F Slab} t.
Arguments regionNames {F Slab} t.

(** The depth array holds an entry above [thr]. *)
Definition has_entry_above (thr : Q) (depth : list Q) : Prop :=
  exists d, In d depth /\ (thr < d)%Q.

(** [i] is the position of the first entry of [depth] that exceeds [thr]. *)
Definition first_above (thr : Q) (depth : list Q) (i : nat) : Prop :=
  (exists d, nth_error depth i = Some d /\ (thr < d)%Q) /\
  (forall j d, (j < i)%nat -> nth_error depth j = Some d -> (d <= thr)%Q).

End OHC.

(** ** Sea-surface temperature *)

Module SST.

(** [TimeSeriesSST.setup_and_check]. *)
Definition setup_and_check (t : Shared.AnalysisTask) : Res Shared.TaskSetup :=
  (_ <~ Shared.base_setup_and_check t ;;
   _ <~ Shared.check_analysis_enabled t "config_am_timeseriesstatsmonthly_enable" ;;
   Shared.time_series_setup t "timeSeriesSST" "sst_")%res.

(** [TimeSeriesSST._compute_sst_part]; [self_ds] is [self.ds]. *)
Definition _compute_sst_part {Slab : Type} (self_ds : XArray.Dataset Slab)
    (timeIndices : list Z) (firstCall : bool) : Res (XArray.Dataset Slab) :=
  (dsLocal <~ XArray.isel Slab self_ds timeIndices ;;
   Ok dsLocal)%res.

End SST.

(** ** Meridional heat transport *)

Module MHT.

(** The imports of [meridional_heat_transport.py] that its set-up calls. *)
Record Collaborators : Type := {
  update_climatology_bounds_from_file_names :
    list string -> Shared.Config -> Res (bool * Z * Z * string * string);
  build_config_full_path : Shared.Config -> string -> string -> Res string;
  path_exists : string -> bool;
  format_04d : Z -> string
}.

Record Setup : Type := {
  startDate : string;
  endDate : string;
  startYear : Z;
  endYear : Z;
  inputFiles : list string;
  mhtFile : string;
  simulationStartTime : string;
  observationsFile : option string;
  xmlFileNames : list string;
  filePrefixes : gmap string string
}.

(** The loop over [prefixes] at the end of the set-up. *)
Fixpoint prefix_files (co : Collaborators) (mainRunName plotsDir : string)
    (startYear endYear : Z) (prefixes : list string)
    (xml : list string) (table : gmap string string)
    : list string * gmap string string :=
  match prefixes with
  | [] => (xml, table)
  | prefix :: rest =>
      let filePrefix :=
        (prefix ++ "_" ++ mainRunName ++ "_years" ++ format_04d co startYear ++
         "-" ++ format_04d co endYear)%string in
      prefix_files co mainRunName plotsDir startYear endYear rest
        (xml ++ [(plotsDir ++ "/" ++ filePrefix ++ ".xml")%string])
        (<[prefix := filePrefix]> table)
  end.

(** [MeridionalHeatTransport.setup_and_check]. *)
Definition setup_and_check (co : Collaborators) (t : Shared.AnalysisTask)
    : Res Setup :=
  (_ <~ Shared.base_setup_and_check t ;;
   _ <~ Shared.check_analysis_enabled t "config_am_timeseriesstatsmonthly_enable" ;;
   _ <~ Shared.check_analysis_enabled t "config_am_meridionalheattransport_enable" ;;
   let streamName := "timeSeriesStatsMonthlyOutput"%string in
   startDate <~ Shared.get (Shared.config t) "climatology" "startDate" ;;
   endDate <~ Shared.get (Shared.config t) "climatology" "endDate" ;;
   inputFiles <~ Shared.readpath_between (Shared.historyStreams t) streamName
                   startDate endDate (Shared.calendar t) ;;
   if (length inputFiles =? 0)%nat then
     Raise (IOError (Shared.no_files_message streamName startDate endDate))
   else
     bounds <~ update_climatology_bounds_from_file_names co inputFiles
                 (Shared.config t) ;;
     let '(changed, startYear, endYear, startDate, endDate) := bounds in
     mhtFiles <~ Shared.readpath (Shared.historyStreams t)
                   "meridionalHeatTransportOutput" ;;
     if (length mhtFiles =? 0)%nat then
       Raise (IOError "No MPAS-O MHT history file found: need at least one ")
     else
       mhtFile <~ item0 mhtFiles ;;
       simulationStartTime <~ Shared.get_simulation_start_time (Shared.runStreams t) ;;
       let sectionName := "meridionalHeatTransport"%string in
       compareWithObs <~ Shared.getboolean (Shared.config t) sectionName
                           "compareWithObservations" ;;
       observationsFile <~
         (if compareWithObs : bool then
            observationsDirectory <~ build_config_full_path co (Shared.config t)
                                       "oceanObservations" "mhtSubdirectory" ;;
            observationsFile <~ Shared.get (Shared.config t) sectionName
                                  "observationData" ;;
            let observationsFile :=
              (observationsDirectory ++ "/" ++ observationsFile)%string in
            Ok (if path_exists co observationsFile then Some observationsFile
                else None)
          else Ok None) ;;
       mainRunName <~ Shared.get (Shared.config t) "runs" "mainRunName" ;;
       plotVerticalSection <~ Shared.getboolean (Shared.config t) sectionName
                                "plotVerticalSection" ;;
       let prefixes :=
         if plotVerticalSection : bool then ["mht"; "mhtZ"]%string
         else ["mht"]%string in
       let '(xml, table) :=
         prefix_files co mainRunName (Shared.plotsDirectory t) startYear endYear
           prefixes [] ∅ in
       Ok {| startDate := startDate; endDate := endDate;
             startYear := startYear; endYear := endYear;
             inputFiles := inputFiles; mhtFile := mhtFile;
             simulationStartTime := simulationStartTime;
             observationsFile := observationsFile;
             xmlFileNames := xml; filePrefixes := table |})%res.

End MHT.

(** ** The function-style analyses ([sst_timeseries], [seaice_timeseries]) *)

Module Legacy.

(** What the two functions reach through their arguments and imports. *)
Record Env : Type := {
  config : Shared.Config;
  StreamsFile : string -> string -> Res Shared.StreamsFile;
  NameList : string -> string -> Res (gmap string string);
  buildConfigFullPath : string -> string -> Res string
}.

(** [streamMap['timeSeriesStats']]; the default argument is [None]. *)
Definition stream_names (streamMap : option (gmap string (list string)))
    : Res (list string) :=
  match streamMap with
  | None => Raise (TypeError "'NoneType' object has no attribute '__getitem__'")
  | Some m =>
      match m !! "timeSeriesStats"%string with
      | Some names => Ok names
      | None => Raise (KeyError "timeSeriesStats")
      end
  end.

Definition namelist_get (namelist : gmap string string) (key : string) : Res string :=
  match namelist !! key with
  | Some v => Ok v
  | None => Raise (KeyError key)
  end.

(** [print 'Reading files {} through {}'.format(fileNames[0], fileNames[-1])]:
    both subscripts are evaluated before anything is printed. *)
Definition print_reading_files (fileNames : list string) : Res unit :=
  (_ <~ py_index fileNames 0 ;;
   _ <~ py_index fileNames (-1) ;;
   Ok tt)%res.

(** What [sst_timeseries] has gathered when it starts to load the data. *)
Record SSTInputs : Type := {
  sst_calendar : string;
  sst_startDate : string;
  sst_endDate : string;
  sst_fileNames : list string
}.

(** [sst_timeseries], lines 34-54; [analysis] is the rest of the function
    (loading the data and drawing the figures), it returns the figures
    written. *)
Definition sst_timeseries (env : Env)
    (streamMap : option (gmap string (list string)))
    (analysis : SSTInputs -> Res (list string)) : Res (list string) :=
  (inDirectory <~ Shared.get (config env) "input" "baseDirectory" ;;
   streamsFileName <~ Shared.get (config env) "input" "oceanStreamsFileName" ;;
   streams <~ StreamsFile env streamsFileName inDirectory ;;
   namelistFileName <~ Shared.get (config env) "input" "oceanNamelistFileName" ;;
   namelist <~ NameList env namelistFileName inDirectory ;;
   calendar <~ namelist_get namelist "config_calendar_type" ;;
   startDate <~ Shared.get (config env) "timeSeries" "startDate" ;;
   endDate <~ Shared.get (config env) "timeSeries" "endDate" ;;
   names <~ stream_names streamMap ;;
   streamName <~ Shared.find_stream streams names ;;
   fileNames <~ Shared.readpath_between streams streamName startDate endDate calendar ;;
   _ <~ print_reading_files fileNames ;;
   analysis {| sst_calendar := calendar; sst_startDate := startDate;
               sst_endDate := endDate; sst_fileNames := fileNames |})%res.

(** The steps of [sst_timeseries] before the discovery of the input files
    all succeed: the streams file is [streams], the stream is [streamName]. *)
Definition sst_reaches_discovery (env : Env)
    (streamMap : option (gmap string (list string)))
    (streams : Shared.StreamsFile) (streamName startDate endDate calendar : string)
    : Prop :=
  exists inDirectory streamsFileName namelistFileName namelist names,
    Shared.get (config env) "input" "baseDirectory" = Ok inDirectory /\
    Shared.get (config env) "input" "oceanStreamsFileName" = Ok streamsFileName /\
    StreamsFile env streamsFileName inDirectory = Ok streams /\
    Shared.get (config env) "input" "oceanNamelistFileName" = Ok namelistFileName /\
    NameList env namelistFileName inDirectory = Ok namelist /\
    namelist_get namelist "config_calendar_type" = Ok calendar /\
    Shared.get (config env) "timeSeries" "startDate" = Ok startDate /\
    Shared.get (config env) "timeSeries" "endDate" = Ok endDate /\
    stream_names streamMap = Ok names /\
    Shared.find_stream streams names = Ok streamName.

(** Lines 44-51 of [seaice_timeseries]: the simulation start time, from the
    sea-ice streams and, on [IOError], from the ocean streams. *)
Definition simulation_start_time (env : Env) (streams : Shared.StreamsFile)
    (inDirectory : string) : Res string :=
  try_except (Shared.get_simulation_start_time streams) isIOError
    (oceanStreamsFileName <~ Shared.get (config env) "input" "oceanStreamsFileName" ;;
     oceanStreams <~ StreamsFile env oceanStreamsFileName inDirectory ;;
     Shared.get_simulation_start_time oceanStreams)%res.

Definition no_restart_message : string :=
  "No MPAS-O or MPAS-Seaice restart file found: need at least one restart file for seaice_timeseries calculation".

(** [streams.readpath('restart')[0]]. *)
Definition first_restart (streams : Shared.StreamsFile) : Res string :=
  (files <~ Shared.readpath streams "restart" ;; item0 files)%res.

(** The ocean lookup: the body of the inner [try]. *)
Definition ocean_restart (env : Env) (inDirectory : string) : Res string :=
  (oceanStreamsFileName <~ Shared.get (config env) "input" "oceanStreamsFileName" ;;
   oceanStreams <~ StreamsFile env oceanStreamsFileName inDirectory ;;
   first_restart oceanStreams)%res.

(** Lines 97-110 of [seaice_timeseries]: the restart file, from the sea-ice
    streams and, on [ValueError], from the ocean streams. *)
Definition restart_file (env : Env) (streams : Shared.StreamsFile)
    (inDirectory : string) : Res string :=
  try_except (first_restart streams) isValueError
    (try_except (ocean_restart env inDirectory) isValueError
       (Raise (IOError no_restart_message))).

(** The restart fallback as the specification words it: whenever the
    sea-ice lookup raises, the result is that of the ocean lookup when that
    one succeeds, and [IOError] when it raises too. *)
Definition falls_back_on_any_failure (env : Env)
    (streams : Shared.StreamsFile) (inDirectory : string) : Prop :=
  forall e, first_restart streams = Raise e ->
    match ocean_restart env inDirectory with
    | Ok f => restart_file env streams inDirectory = Ok f
    | Raise _ => exists msg,
        restart_file env streams inDirectory = Raise (IOError msg)
    end.

(** What [seaice_timeseries] has gathered when it starts to load the data. *)
Record SeaIceInputs : Type := {
  ice_calendar : string;
  ice_simulationStartTime : string;
  ice_startDate : string;
  ice_endDate : string;
  ice_fileNames : list string;
  ice_obsFileNames : list string;
  ice_titleFontSize : string;
  ice_mainRunName : string;
  ice_preprocessedReferenceRunName : string;
  ice_preprocessedReferenceDirectory : string;
  ice_compareWithObservations : bool;
  ice_plotsDirectory : string;
  ice_movingAveragePoints : Z;
  ice_restartFile : string
}.

(** [seaice_timeseries], lines 34-110; [analysis] is the rest of the
    function, it returns the figures written. *)
Definition seaice_timeseries (env : Env)
    (streamMap : option (gmap string (list string)))
    (analysis : SeaIceInputs -> Res (list string)) : Res (list string) :=
  (inDirectory <~ Shared.get (config env) "input" "baseDirectory" ;;
   namelistFileName <~ Shared.get (config env) "input" "seaIceNamelistFileName" ;;
   namelist <~ NameList env namelistFileName inDirectory ;;
   streamsFileName <~ Shared.get (config env) "input" "seaIceStreamsFileName" ;;
   streams <~ StreamsFile env streamsFileName inDirectory ;;
   calendar <~ namelist_get namelist "config_calendar_type" ;;
   simulationStartTime <~ simulation_start_time env streams inDirectory ;;
   startDate <~ Shared.get (config env) "timeSeries" "startDate" ;;
   endDate <~ Shared.get (config env) "timeSeries" "endDate" ;;
   names <~ stream_names streamMap ;;
   streamName <~ Shared.find_stream streams names ;;
   fileNames <~ Shared.readpath_between streams streamName startDate endDate calendar ;;
   _ <~ print_reading_files fileNames ;;
   areaNH <~ buildConfigFullPath env "seaIceObservations" "areaNH" ;;
   areaSH <~ buildConfigFullPath env "seaIceObservations" "areaSH" ;;
   volNH <~ buildConfigFullPath env "seaIceObservations" "volNH" ;;
   volSH <~ buildConfigFullPath env "seaIceObservations" "volSH" ;;
   titleFontSize <~ Shared.get (config env) "timeSeriesSeaIceAreaVol" "titleFontSize" ;;
   mainRunName <~ Shared.get (config env) "runs" "mainRunName" ;;
   refName <~ Shared.get (config env) "runs" "preprocessedReferenceRunName" ;;
   refDir <~ Shared.get (config env) "seaIcePreprocessedReference" "baseDirectory" ;;
   compareWithObs <~ Shared.getboolean (config env) "timeSeriesSeaIceAreaVol"
                       "compareWithObservations" ;;
   plotsDir <~ buildConfigFullPath env "output" "plotsSubdirectory" ;;
   movingAveragePoints <~ Shared.getint (config env) "timeSeriesSeaIceAreaVol"
                            "movingAveragePoints" ;;
   restartFile <~ restart_file env streams inDirectory ;;
   analysis {| ice_calendar := calendar;
               ice_simulationStartTime := simulationStartTime;
               ice_startDate := startDate; ice_endDate := endDate;
               ice_fileNames := fileNames;
               ice_obsFileNames := [areaNH; areaSH; volNH; volSH];
               ice_titleFontSize := titleFontSize;
               ice_mainRunName := mainRunName;
               ice_preprocessedReferenceRunName := refName;
               ice_preprocessedReferenceDirectory := refDir;
               ice_compareWithObservations := compareWithObs;
               ice_plotsDirectory := plotsDir;
               ice_movingAveragePoints := movingAveragePoints;
               ice_restartFile := restartFile |})%res.

(** The steps of [seaice_timeseries] before the discovery of the input
    files all succeed: the directory is [inDirectory], the sea-ice streams
    file is [streams], the stream is [streamName]. *)
Definition seaice_reaches_discovery (env : Env)
    (streamMap : option (gmap string (list string)))
    (streams : Shared.StreamsFile)
    (inDirectory streamName startDate endDate calendar simulationStartTime : string)
    : Prop :=
  exists namelistFileName namelist streamsFileName names,
    Shared.get (config env) "input" "baseDirectory" = Ok inDirectory /\
    Shared.get (config env) "input" "seaIceNamelistFileName" = Ok namelistFileName /\
    NameList env namelistFileName inDirectory = Ok namelist /\
    Shared.get (config env) "input" "seaIceStreamsFileName" = Ok streamsFileName /\
    StreamsFile env streamsFileName inDirectory = Ok streams /\
    namelist_get namelist "config_calendar_type" = Ok calendar /\
    simulation_start_time env streams inDirectory = Ok simulationStartTime /\
    Shared.get (config env) "timeSeries" "startDate" = Ok startDate /\
    Shared.get (config env) "timeSeries" "endDate" = Ok endDate /\
    stream_names streamMap = Ok names /\
    Shared.find_stream streams names = Ok streamName.

(** The streams file that provides the simulation start time: the sea-ice
    one, or the ocean one of the configuration. *)
Definition start_time_from (env : Env) (streams : Shared.StreamsFile)
    (inDirectory simulationStartTime : string) : Prop :=
  Shared.get_simulation_start_time streams = Ok simulationStartTime \/
  exists oceanStreamsFileName oceanStreams,
    Shared.get (config env) "input" "oceanStreamsFileName" = Ok oceanStreamsFileName /\
    StreamsFile env oceanStreamsFileName inDirectory = Ok oceanStreams /\
    Shared.get_simulation_start_time oceanStreams = Ok simulationStartTime.

End Legacy.

(** ** Sea ice: [replicate_cycle] *)

Module SeaIce.

(** A time series along [Time]: one value per time.  Times are points of a
    linear time axis ([days_to_datetime] and [datetime_to_days] convert
    between two representations of the same instant) and a
    [MpasRelativeDelta] is a signed length on that axis. *)
Record Sample (V : Type) : Type := {
  time : Z;
  value : V
}.

Arguments time {V} s.
Arguments value {V} s.

(** [Time.min()] and [Time.max()]; the reduction of an empty array raises. *)
Definition Time_min (times : list Z) : Res Z :=
  match times with
  | [] => Raise (ValueError "zero-size array to reduction operation minimum which has no identity")
  | t :: rest => Ok (fold_left Z.min rest t)
  end.

Definition Time_max (times : list Z) : Res Z :=
  match times with
  | [] => Raise (ValueError "zero-size array to reduction operation maximum which has no identity")
  | t :: rest => Ok (fold_left Z.max rest t)
  end.

(** [while(dsStartTime > repStartTime + (startIndex+1)*period): startIndex += 1];
    [fuel] bounds the number of tests of the condition. *)
Fixpoint start_loop (fuel : nat) (dsStartTime repStartTime period startIndex : Z)
    : option Z :=
  match fuel with
  | O => None
  | S fuel' =>
      if dsStartTime >? repStartTime + (startIndex + 1) * period
      then start_loop fuel' dsStartTime repStartTime period (startIndex + 1)
      else Some startIndex
  end.

(** [while(dsEndTime > repEndTime + endIndex*period): endIndex += 1]. *)
Fixpoint end_loop (fuel : nat) (dsEndTime repEndTime period endIndex : Z)
    : option Z :=
  match fuel with
  | O => None
  | S fuel' =>
      if dsEndTime >? repEndTime + endIndex * period
      then end_loop fuel' dsEndTime repEndTime period (endIndex + 1)
      else Some endIndex
  end.

(** [range(a, b)]. *)
Definition range (a b : Z) : list Z :=
  map (fun i => a + Z.of_nat i) (seq 0 (Z.to_nat (b - a))).

(** A copy of the series with [Time] replaced by [times + k*period]. *)
Definition shifted {V : Type} (series : list (Sample V)) (period k : Z)
    : list (Sample V) :=
  map (fun s => {| time := time s + k * period; value := value s |}) series.

(** The [for cycleIndex in range(startIndex, endIndex)] loop. *)
Fixpoint replicate_loop {V : Type} (dsToReplicate : list (Sample V)) (period : Z)
    (cycles : list Z) (dsShift : list (Sample V)) : list (Sample V) :=
  match cycles with
  | [] => dsShift
  | cycleIndex :: rest =>
      replicate_loop dsToReplicate period rest
        (dsShift ++ shifted dsToReplicate period (cycleIndex + 1))
  end.

(** The period of the cycle. *)
Definition cycle_period (repStartTime repEndTime repSecondTime : Z) : Z :=
  (repEndTime - repStartTime) + (repSecondTime - repStartTime).

(** [replicate_cycle(ds, dsToReplicate, calendar)]; only the [Time]
    coordinate of [ds] is read.  [None]: a [while] loop is still running
    when the fuel is spent. *)
Definition replicate_cycle {V : Type} (fuel : nat) (ds : list Z)
    (dsToReplicate : list (Sample V)) : option (Res (list (Sample V))) :=
  let times := map time dsToReplicate in
  match Time_min ds, Time_max ds, Time_min times, Time_max times,
        py_index times 1 with
  | Ok dsStartTime, Ok dsEndTime, Ok repStartTime, Ok repEndTime,
    Ok repSecondTime =>
      let period := cycle_period repStartTime repEndTime repSecondTime in
      match start_loop fuel dsStartTime repStartTime period 0 with
      | None => None
      | Some startIndex =>
          match end_loop fuel dsEndTime repEndTime period 0 with
          | None => None
          | Some endIndex =>
              Some (Ok (replicate_loop dsToReplicate period
                          (range startIndex endIndex)
                          (shifted dsToReplicate period startIndex)))
          end
      end
  | Raise e, _, _, _, _ => Some (Raise e)
  | _, Raise e, _, _, _ => Some (Raise e)
  | _, _, Raise e, _, _ => Some (Raise e)
  | _, _, _, Raise e, _ => Some (Raise e)
  | _, _, _, _, Raise e => Some (Raise e)
  end.

(** The period [replicate_cycle] computes for a series. *)
Definition period_of {V : Type} (dsToReplicate : list (Sample V)) : Res Z :=
  let times := map time dsToReplicate in
  (repStartTime <~ Time_min times ;;
   repEndTime <~ Time_max times ;;
   repSecondTime <~ py_index times 1 ;;
   Ok (cycle_period repStartTime repEndTime repSecondTime))%res.

End SeaIce.

(** ** The time-series cache *)

Module TimeSeries.

Inductive Calendar : Type := gregorian | gregorian_noleap.

Definition Calendar_eqb (a b : Calendar) : bool :=
  match a, b with
  | gregorian, gregorian => true
  | gregorian_noleap, gregorian_noleap => true
  | _, _ => false
  end.

(** The year of a time value (days since the first of January of year 1)
    in the 365-day calendar. *)
Definition noleap_year (t : Z) : Z := t / 365 + 1.

Section Cache.

(** The derived fields of one time entry, and the calendar year of a time
    value under a calendar. *)
Variable Fields : Type.
Variable yearOf : Calendar -> Z -> Z.

Record Row : Type := {
  rowTime : Z;
  rowFields : Fields
}.

Definition Dataset : Type := list Row.

(** The persisted artifact: the calendar, the year spans of the chunks
    appended so far, and their results concatenated along time. *)
Record CacheEntry : Type := {
  entryCalendar : Calendar;
  entryYears : list (Z * Z);
  entryData : Dataset
}.

Inductive FileState : Type :=
| Absent
| Corrupt
| Stored (entry : CacheEntry).

(** The two files at a cache path: the cache file and the new file a
    persist step writes before it replaces the cache file. *)
Record Storage : Type := {
  cacheFile : FileState;
  newFile : FileState
}.

(** What an invocation does, in order. *)
Inductive Event : Type :=
| Reduce (timeIndices : list Z) (firstCall : bool) (returned : bool)
| WriteNew (entry : CacheEntry)
| Replace.

Definition ReductionFn : Type := list Z -> bool -> Res Dataset.

Definition in_span (span : Z * Z) (year : Z) : bool :=
  (fst span <=? year) && (year <=? snd span).

(** A year is covered by the cached record. *)
Definition covered (spans : list (Z * Z)) (year : Z) : bool :=
  existsb (fun span => in_span span year) spans.

(** The year spans of the chunks of a request from [startYear] to
    [endYear]: [yearsPerCacheUpdate] years each, the last one cut at
    [endYear]. *)
Definition chunk_spans (startYear endYear : Z) (yearsPerCacheUpdate : positive)
    : list (Z * Z) :=
  map (fun i =>
         let firstYear := startYear + Z.of_nat i * Z.pos yearsPerCacheUpdate in
         (firstYear, Z.min endYear (firstYear + Z.pos yearsPerCacheUpdate - 1)))
      (seq 0 (Z.to_nat ((endYear - startYear) / Z.pos yearsPerCacheUpdate + 1))).

(** The positions, from [i] on, of the time values that satisfy [p]. *)
Fixpoint positions_where (p : Z -> bool) (timeValues : list Z) (i : Z) : list Z :=
  match timeValues with
  | [] => []
  | t :: rest =>
      if p t then i :: positions_where p rest (i + 1)
      else positions_where p rest (i + 1)
  end.

(** The time indices of a chunk that the cached record does not hold. *)
Definition chunk_indices (calendar : Calendar) (timeValues : list Z)
    (cached : list (Z * Z)) (span : Z * Z) : list Z :=
  positions_where
    (fun t => in_span span (yearOf calendar t) &&
              negb (covered cached (yearOf calendar t)))
    timeValues 0.

Definition nonempty {A : Type} (l : list A) : bool :=
  match l with [] => false | _ => true end.

(** The chunks of [spans] that are not validly covered, in order, each with
    its time indices. *)
Definition missing_of (calendar : Calendar) (timeValues : list Z)
    (cached : list (Z * Z)) (spans : list (Z * Z)) : list ((Z * Z) * list Z) :=
  List.filter (fun chunk => nonempty (snd chunk))
    (map (fun span => (span, chunk_indices calendar timeValues cached span)) spans).

Definition missing_chunks (calendar : Calendar) (yearsPerCacheUpdate : positive)
    (timeValues : list Z) (cached : list (Z * Z)) : list ((Z * Z) * list Z) :=
  match timeValues with
  | [] => []
  | t0 :: _ =>
      missing_of calendar timeValues cached
        (chunk_spans (yearOf calendar t0) (yearOf calendar (List.last timeValues t0))
           yearsPerCacheUpdate)
  end.

Definition empty_entry (calendar : Calendar) : CacheEntry :=
  {| entryCalendar := calendar; entryYears := []; entryData := [] |}.

(** InspectExistingCache: an absent or unreadable file, or one of another
    calendar, counts as a full miss. *)
Definition inspect (calendar : Calendar) (st : Storage) : CacheEntry :=
  match cacheFile st with
  | Stored entry =>
      if Calendar_eqb (entryCalendar entry) calendar then entry
      else empty_entry calendar
  | Absent | Corrupt => empty_entry calendar
  end.

(** The record after one more chunk. *)
Definition append_chunk (entry : CacheEntry) (span : Z * Z) (part : Dataset)
    : CacheEntry :=
  {| entryCalendar := entryCalendar entry;
     entryYears := entryYears entry ++ [span];
     entryData := entryData entry ++ part |}.

(** PersistChunk: the combined artifact is written to the new file, which
    then replaces the cache file. *)
Definition persisted (entry : CacheEntry) : Storage :=
  {| cacheFile := Stored entry; newFile := Absent |}.

(** The ComputeChunk / PersistChunk loop over the missing chunks.
    [firstCall] holds while the record has no chunk at all. *)
Fixpoint compute_chunks (reductionFn : ReductionFn)
    (chunks : list ((Z * Z) * list Z)) (entry : CacheEntry) (st : Storage)
    : Res CacheEntry * Storage * list Event :=
  match chunks with
  | [] => (Ok entry, st, [])
  | (span, timeIndices) :: rest =>
      let firstCall := negb (nonempty (entryYears entry)) in
      match reductionFn timeIndices firstCall with
      | Raise e => (Raise e, st, [Reduce timeIndices firstCall false])
      | Ok part =>
          let entry' := append_chunk entry span part in
          let '(r, st', events) :=
            compute_chunks reductionFn rest entry' (persisted entry') in
          (r, st',
           Reduce timeIndices firstCall true :: WriteNew entry' :: Replace :: events)
      end
  end.

(** Truncate: the rows from [first] to [last]. *)
Definition truncate (first last : Z) (data : Dataset) : Dataset :=
  List.filter (fun row => (first <=? rowTime row) && (rowTime row <=? last)) data.

(** Modelled from the spec: [cache_time_series] of
    [mpas_analysis/shared/time_series/time_series.py], which the analysis
    tasks call but which is not among the modelled files.  It follows
    section 4.4: the request is split into chunks of [yearsPerCacheUpdate]
    calendar years; the existing cache file is inspected; each chunk that
    is not covered is reduced, appended and persisted before the next one;
    the result is the record cut to the requested span.  [st] holds the
    files at [cacheFilePath]; the result comes with the storage left behind
    and the events of the invocation.  A chunk partly inside the cached
    record is reduced over the time indices the record does not hold, as
    the invariant of section 3 asks (a chunk once appended is never
    recomputed). *)
Definition cache_time_series (timeValues : list Z) (reductionFn : ReductionFn)
    (st : Storage) (calendar : Calendar) (yearsPerCacheUpdate : positive)
    : Res Dataset * Storage * list Event :=
  match timeValues with
  | [] => (Raise NoDataError, st, [])
  | t0 :: _ =>
      let entry := inspect calendar st in
      let chunks :=
        missing_chunks calendar yearsPerCacheUpdate timeValues (entryYears entry) in
      let '(r, st', events) := compute_chunks reductionFn chunks entry st in
      ((final <~ r ;;
        Ok (truncate t0 (List.last timeValues t0) (entryData final)))%res,
       st', events)
  end.

(** The calls of the reduction function among the events. *)
Fixpoint reduction_calls (events : list Event) : list (list Z * bool) :=
  match events with
  | [] => []
  | Reduce timeIndices firstCall _ :: rest =>
      (timeIndices, firstCall) :: reduction_calls rest
  | _ :: rest => reduction_calls rest
  end.

(** The [firstCall] flags of the chunks that were computed (the calls that
    returned a result). *)
Fixpoint computed_flags (events : list Event) : list bool :=
  match events with
  | [] => []
  | Reduce _ firstCall true :: rest => firstCall :: computed_flags rest
  | _ :: rest => computed_flags rest
  end.

(** Every call of the reduction function among the events returned. *)
Fixpoint calls_returned (events : list Event) : bool :=
  match events with
  | [] => true
  | Reduce _ _ returned :: rest => returned && calls_returned rest
  | _ :: rest => calls_returned rest
  end.

(** [n] flags, of which the first one is set unless the cache file was
    [started] (held a chunk) before. *)
Definition flags_from (started : bool) (n : nat) : list bool :=
  if started then repeat false n
  else match n with
       | O => []
       | S m => true :: repeat false m
       end.

(** The storage after a sequence of events. *)
Definition apply_event (st : Storage) (event : Event) : Storage :=
  match event with
  | Reduce _ _ _ => st
  | WriteNew entry => {| cacheFile := cacheFile st; newFile := Stored entry |}
  | Replace => {| cacheFile := newFile st; newFile := Absent |}
  end.

Definition replay (st : Storage) (events : list Event) : Storage :=
  fold_left apply_event events st.

(** The storage an interruption of an invocation leaves once the events
    [done] have happened: the process stops between two events (a reduction
    under way has no effect on the files), or while the new file is being
    written. *)
Inductive interrupted (st : Storage) (events : list Event)
    : list Event -> Storage -> Prop :=
| stopped_between (done rest : list Event) :
    events = done ++ rest ->
    interrupted st events done (replay st done)
| stopped_writing (done rest : list Event) (entry : CacheEntry) :
    events = done ++ WriteNew entry :: rest ->
    interrupted st events done
      {| cacheFile := cacheFile (replay st done); newFile := Corrupt |}.

(** The number of completed persist steps among the events. *)
Fixpoint persists (events : list Event) : nat :=
  match events with
  | [] => O
  | Replace :: rest => S (persists rest)
  | _ :: rest => persists rest
  end.

(** The events are whole chunks, one after the other: a reduction that
    returns, its result appended to the record so far and written to the new
    file, the new file put in place of the cache file; the next chunk starts
    from the record just persisted. *)
Inductive persisted_in_order : CacheEntry -> list Event -> Prop :=
| no_chunk (entry : CacheEntry) : persisted_in_order entry []
| one_more_chunk (entry : CacheEntry) (timeIndices : list Z) (firstCall : bool)
    (span : Z * Z) (part : Dataset) (rest : list Event) :
    persisted_in_order (append_chunk entry span part) rest ->
    persisted_in_order entry
      (Reduce timeIndices firstCall true ::
       WriteNew (append_chunk entry span part) :: Replace :: rest).

(** The cache file holds a chunk already. *)
Definition started (calendar : Calendar) (st : Storage) : bool :=
  nonempty (entryYears (inspect calendar st)).

(** The cache file covers the years [firstYear] to [lastYear], and no
    other. *)
Definition covers_exactly (calendar : Calendar) (st : Storage)
    (firstYear lastYear : Z) : Prop :=
  forall year,
    covered (entryYears (inspect calendar st)) year = true <->
    firstYear <= year <= lastYear.

(** No year lies in two of the spans. *)
Fixpoint pairwise_disjoint (spans : list (Z * Z)) : Prop :=
  match spans with
  | [] => True
  | span :: rest =>
      (forall other year, In other rest ->
         in_span span year = true -> in_span other year = false) /\
      pairwise_disjoint rest
  end.

(** One invocation in the life of a cache file. *)
Record Request : Type := {
  timeValues : list Z;
  reductionFn : ReductionFn;
  yearsPerCacheUpdate : positive
}.

(** The events of a sequence of invocations on the same cache file. *)
Fixpoint lifetime (calendar : Calendar) (requests : list Request) (st : Storage)
    : list Event :=
  match requests with
  | [] => []
  | request :: rest =>
      let '(_, st', events) :=
        cache_time_series (timeValues request) (reductionFn request) st calendar
          (yearsPerCacheUpdate request) in
      events ++ lifetime calendar rest st'
  end.

(** The reduction function returns the rows of the time values it was
    given (section 6). *)
Definition keeps_times (timeValues : list Z) (reductionFn : ReductionFn) : Prop :=
  forall timeIndices firstCall part,
    reductionFn timeIndices firstCall = Ok part ->
    Ok (map rowTime part) = take timeValues timeIndices.

End Cache.

Arguments rowTime {Fields} r.
Arguments rowFields {Fields} r.
Arguments entryCalendar {Fields} c.
Arguments entryYears {Fields} c.
Arguments entryData {Fields} c.
Arguments Absent {Fields}.
Arguments Corrupt {Fields}.
Arguments Stored {Fields} entry.
Arguments cacheFile {Fields} s.
Arguments newFile {Fields} s.
Arguments Reduce {Fields} timeIndices firstCall returned.
Arguments WriteNew {Fields} entry.
Arguments Replace {Fields}.
Arguments timeValues {Fields} r.
Arguments reductionFn {Fields} r.
Arguments yearsPerCacheUpdate {Fields} r.

End TimeSeries.

(** ** The climatology cache *)

Module Climatology.

(** A named set of calendar months. *)
Record MonthSet : Type := {
  name : string;
  months : list Z
}.

Fixpoint months_eqb (a b : list Z) : bool :=
  match a, b with
  | [], [] => true
  | x :: a', y :: b' => (x =? y) && months_eqb a' b'
  | _, _ => false
  end.

(** The identity of a month set: its name and its members. *)
Definition MonthSet_eqb (a b : MonthSet) : bool :=
  String.eqb (name a) (name b) && months_eqb (months a) (months b).

(** A date range, as two instants. *)
Definition DateRange : Type := (Z * Z)%type.

(** [outer] covers [inner]. *)
Definition covers (outer inner : DateRange) : bool :=
  (fst outer <=? fst inner) && (snd inner <=? snd outer).

(** One monthly record of the input: its month, the days in that month and
    the values of the requested variables over the grid. *)
Record Monthly : Type := {
  month : Z;
  daysInMonth : Z;
  values : list Q
}.

(** The input, already cut to its date range by the caller. *)
Record Dataset : Type := {
  dateRange : DateRange;
  records : list Monthly
}.

Fixpoint add_fields (a b : list Q) : list Q :=
  match a, b with
  | [], _ => b
  | _, [] => a
  | x :: a', y :: b' => (x + y)%Q :: add_fields a' b'
  end.

Definition in_months (monthSet : MonthSet) (m : Z) : bool :=
  existsb (Z.eqb m) (months monthSet).

(** [compute_climatology]: per value,
    [sum(value * daysInMonth) / sum(daysInMonth)] over the selected months. *)
Definition compute_climatology (dataset : Dataset) (monthSet : MonthSet) : list Q :=
  let selected :=
    List.filter (fun r => in_months monthSet (month r)) (records dataset) in
  let days := fold_right (fun r acc => daysInMonth r + acc) 0 selected in
  let sums :=
    fold_right
      (fun r acc =>
         add_fields (map (fun v => (v * inject_Z (daysInMonth r))%Q) (values r)) acc)
      [] selected in
  map (fun total => (total / inject_Z days)%Q) sums.

(** The persisted artifact: the averaged fields and their provenance. *)
Record Artifact : Type := {
  cachedMonthSet : MonthSet;
  cachedRange : DateRange;
  averaged : list Q
}.

(** What a call does besides returning. *)
Inductive Event : Type :=
| ReadRaw
| Compute
| WriteArtifact.

(** The cached artifact can stand for the request. *)
Definition reusable (artifact : Artifact) (dataset : Dataset)
    (monthSet : MonthSet) : bool :=
  MonthSet_eqb (cachedMonthSet artifact) monthSet &&
  covers (cachedRange artifact) (dateRange dataset).

(** The full computation of a miss. *)
Definition recompute (dataset : Dataset) (monthSet : MonthSet)
    (cachePathPrefix : string) (store : gmap string Artifact)
    : list Q * gmap string Artifact * list Event :=
  let fresh := compute_climatology dataset monthSet in
  (fresh,
   <[cachePathPrefix := {| cachedMonthSet := monthSet;
                           cachedRange := dateRange dataset;
                           averaged := fresh |}]> store,
   [ReadRaw; Compute; WriteArtifact]).

(** Modelled from the spec: [cache_climatologies] of
    [mpas_analysis/shared/climatology/climatology.py], which
    [MeridionalHeatTransport.run] calls but which is not among the modelled
    files.  It follows section 4.3: a prior artifact at the cache path whose
    month set is the requested one and whose date range covers the requested
    one is returned as it is; anything else is a miss, computed from the full
    dataset and written over the old artifact.  [store] holds the artifacts
    by cache path. *)
Definition cache_climatologies (dataset : Dataset) (monthSet : MonthSet)
    (cachePathPrefix : string) (store : gmap string Artifact)
    : list Q * gmap string Artifact * list Event :=
  match store !! cachePathPrefix with
  | Some artifact =>
      if reusable artifact dataset monthSet
      then (averaged artifact, store, [])
      else recompute dataset monthSet cachePathPrefix store
  | None => recompute dataset monthSet cachePathPrefix store
  end.

End Climatology.

(** ** Concrete runs used below *)

Module Examples.

(** A streams file in which discovery between two dates finds nothing. *)
Definition no_input_streams : Shared.StreamsFile :=
  {| Shared.readpath := fun _ => Ok ["restart.0001-01-01.nc"%string];
     Shared.readpath_between := fun _ _ _ _ => Ok [];
     Shared.find_stream := fun _ => Ok "timeSeriesStatsOutput"%string;
     Shared.get_simulation_start_time := Ok "0001-01-01_00:00:00"%string |}.

Definition run_config : Shared.Config :=
  {| Shared.options :=
       list_to_map
         [(("input", "baseDirectory"), "/run");
          (("input", "oceanStreamsFileName"), "streams.ocean");
          (("input", "oceanNamelistFileName"), "mpas-o_in");
          (("input", "seaIceStreamsFileName"), "streams.cice");
          (("input", "seaIceNamelistFileName"), "mpas-cice_in");
          (("timeSeries", "startDate"), "0001-01-01_00:00:00");
          (("timeSeries", "endDate"), "0010-12-31_23:59:59");
          (("runs", "mainRunName"), "runA");
          (("runs", "preprocessedReferenceRunName"), "None")]%string;
     Shared.name_lists := ∅;
     Shared.index_lists := ∅;
     Shared.booleans := ∅;
     Shared.integers := ∅ |}.

Definition no_input_env : Legacy.Env :=
  {| Legacy.config := run_config;
     Legacy.StreamsFile := fun _ _ => Ok no_input_streams;
     Legacy.NameList := fun _ _ =>
       Ok {[ "config_calendar_type"%string := "gregorian_noleap"%string ]};
     Legacy.buildConfigFullPath := fun _ _ => Ok "/obs"%string |}.

Definition stream_map : gmap string (list string) :=
  {[ "timeSeriesStats"%string := ["timeSeriesStatsOutput"%string] ]}.

Definition no_input_task : Shared.AnalysisTask :=
  {| Shared.config := run_config;
     Shared.base_setup_and_check := Ok tt;
     Shared.check_analysis_enabled := fun _ => Ok tt;
     Shared.check_path_exists := fun _ => Ok tt;
     Shared.historyStreams := no_input_streams;
     Shared.runStreams := no_input_streams;
     Shared.calendar := "gregorian_noleap";
     Shared.plotsDirectory := "/plots" |}.

(** Sea-ice streams whose restart lookup raises [ValueError]. *)
Definition seaice_streams_no_restart : Shared.StreamsFile :=
  {| Shared.readpath := fun _ => Raise (ValueError "Path not found");
     Shared.readpath_between := fun _ _ _ _ => Ok ["ts.0001.nc"%string];
     Shared.find_stream := fun _ => Ok "timeSeriesStatsOutput"%string;
     Shared.get_simulation_start_time := Raise (IOError "No MPAS restart file found") |}.

(** Ocean streams that hold a restart file. *)
Definition ocean_streams_with_restart : Shared.StreamsFile :=
  {| Shared.readpath := fun _ => Ok ["mpaso.rst.0002-01-01.nc"%string];
     Shared.readpath_between := fun _ _ _ _ => Ok [];
     Shared.find_stream := fun _ => Ok "timeSeriesStatsOutput"%string;
     Shared.get_simulation_start_time := Ok "0001-01-01_00:00:00"%string |}.

Definition fallback_env (ocean : Shared.StreamsFile) : Legacy.Env :=
  {| Legacy.config := run_config;
     Legacy.StreamsFile := fun _ _ => Ok ocean;
     Legacy.NameList := fun _ _ => Ok ∅;
     Legacy.buildConfigFullPath := fun _ _ => Ok "/obs"%string |}.

(** Twenty-four model times thirty days apart starting at day 745, and a
    cycle of twelve values thirty days apart starting at day 15. *)
Definition model_times : list Z :=
  map (fun i => 745 + 30 * Z.of_nat i) (seq 0 24).

Definition yearly_cycle : list (SeaIce.Sample Z) :=
  map (fun i => {| SeaIce.time := 15 + 30 * Z.of_nat i;
                   SeaIce.value := Z.of_nat i |}) (seq 0 12).

(** Three monthly entries of one region, and the task state of the heat
    content callback over the same three times (integers stand for the
    floating-point values, one number per slab). *)
Definition sst_dataset : XArray.Dataset Z :=
  {| XArray.sizes := {[ "nOceanRegions"%string := 1%nat ]};
     XArray.Time := [15; 45; 75];
     XArray.data_vars :=
       [("timeMonthly_avg_avgValueWithinOceanRegion_avgSurfaceTemperature"%string,
         XArray.AlongTime [10; 11; 12])] |}.

Definition ohc_task : OHC.Task Z Z :=
  {| OHC.namelist :=
       {[ "config_specific_heat_sea_water"%string := 4;
          "config_density0"%string := 1000 ]};
     OHC.ds :=
       {| XArray.sizes := {[ "nOceanRegionsTmp"%string := 2%nat ]};
          XArray.Time := [15; 45; 75];
          XArray.data_vars :=
            [(OHC.sumMaskVarName, XArray.AlongTime [1; 1; 1]);
             (OHC.avgAreaVarName, XArray.AlongTime [2; 2; 2]);
             (OHC.avgThickVarName, XArray.AlongTime [3; 3; 3]);
             ("avgLayTemperatureAnomaly"%string, XArray.AlongTime [0; 1; 2])] |};
     OHC.regionNames := ["arctic"; "global"]%string |}.

(** Yearly records of one variable: the value of year [y] is [y]; every
    record is an annual mean over 365 days, filed under month 1. *)
Definition yearly (firstYear lastYear : Z) : Climatology.Dataset :=
  {| Climatology.dateRange := (firstYear, lastYear);
     Climatology.records :=
       map (fun i => {| Climatology.month := 1;
                        Climatology.daysInMonth := 365;
                        Climatology.values := [inject_Z (firstYear + Z.of_nat i)] |})
           (seq 0 (Z.to_nat (lastYear - firstYear + 1))) |}.

Definition ANN : Climatology.MonthSet :=
  {| Climatology.name := "ANN";
     Climatology.months := [1; 2; 3; 4; 5; 6; 7; 8; 9; 10; 11; 12] |}.

Definition JFM : Climatology.MonthSet :=
  {| Climatology.name := "JFM"; Climatology.months := [1; 2; 3] |}.

(** The store after the climatology of 2000-2010 was cached. *)
Definition store_2000_2010 : gmap string Climatology.Artifact :=
  snd (fst (Climatology.cache_climatologies (yearly 2000 2010) ANN "mht" ∅)).

(** A cache file over its life: a 365-day calendar, two time values a
    year; a first request for the years 1 to 3 with no cache file, then a
    request for the years 1 to 5; chunks of two years.  The rows record the
    [firstCall] flag they were computed under. *)
Definition years (_ : TimeSeries.Calendar) (t : Z) : Z := TimeSeries.noleap_year t.

Definition old_times : list Z := [0; 180; 365; 545; 730; 910].
Definition new_times : list Z := [1095; 1275; 1460; 1640].

Definition reduce (timeValues : list Z) : TimeSeries.ReductionFn Z :=
  fun timeIndices firstCall =>
    (times <~ take timeValues timeIndices ;;
     Ok (map (fun t => {| TimeSeries.rowTime := t;
                          TimeSeries.rowFields := if firstCall then 1 else 0 |})
           times))%res.

Definition no_cache : TimeSeries.Storage Z :=
  {| TimeSeries.cacheFile := TimeSeries.Absent;
     TimeSeries.newFile := TimeSeries.Absent |}.

Definition output (r : Res (TimeSeries.Dataset Z)) : TimeSeries.Dataset Z :=
  match r with Ok out => out | Raise _ => [] end.

Definition first_run :=
  TimeSeries.cache_time_series Z years old_times (reduce old_times) no_cache
    TimeSeries.gregorian_noleap 2.
Definition first_out := output (fst (fst first_run)).
Definition first_storage := snd (fst first_run).
Definition first_events := snd first_run.

Definition second_run :=
  TimeSeries.cache_time_series Z years (old_times ++ new_times)
    (reduce (old_times ++ new_times)) first_storage TimeSeries.gregorian_noleap 2.
Definition second_out := output (fst (fst second_run)).
Definition second_storage := snd (fst second_run).
Definition second_events := snd second_run.

Definition two_requests : list (TimeSeries.Request Z) :=
  [ {| TimeSeries.timeValues := old_times;
       TimeSeries.reductionFn := reduce old_times;
       TimeSeries.yearsPerCacheUpdate := 2%positive |};
    {| TimeSeries.timeValues := old_times ++ new_times;
       TimeSeries.reductionFn := reduce (old_times ++ new_times);
       TimeSeries.yearsPerCacheUpdate := 2%positive |} ].

End Examples.

(** ** Slices and item assignment *)

Module Python.

(** A bound of [l[start:stop]] brought into [0..len]: a negative bound
    counts from the end, and everything is clipped to the sequence. *)
Definition slice_bound (len : nat) (i : Z) : Z :=
  if i <? 0 then Z.max 0 (i + Z.of_nat len) else Z.min i (Z.of_nat len).

(** [l[start:stop]]. *)
Definition slice {A : Type} (l : list A) (start stop : Z) : list A :=
  let a := slice_bound (length l) start in
  let b := slice_bound (length l) stop in
  firstn (Z.to_nat (b - a)) (skipn (Z.to_nat a) l).

(** The list with the item at position [n] replaced. *)
Fixpoint replace_at {A : Type} (l : list A) (n : nat) (x : A) : list A :=
  match l, n with
  | [], _ => []
  | _ :: rest, O => x :: rest
  | y :: rest, S n' => y :: replace_at rest n' x
  end.

(** [l[i] = x]. *)
Definition set_item {A : Type} (l : list A) (i : Z) (x : A) : Res (list A) :=
  (n <~ norm_index (length l) i ;; Ok (replace_at l n x))%res.

(** [l[start:stop] = xs] on an array: the shapes must agree. *)
Definition set_slice {A : Type} (l : list A) (start stop : Z) (xs : list A)
    : Res (list A) :=
  let a := slice_bound (length l) start in
  let b := slice_bound (length l) stop in
  if (length xs =? Z.to_nat (b - a))%nat then
    Ok (firstn (Z.to_nat a) l ++ xs ++ skipn (Z.to_nat a + length xs) l)
  else Raise (ValueError "could not broadcast input array")
.

(** [d[key]] on a dictionary. *)
Definition dict_get {A : Type} (d : gmap string A) (key : string) : Res A :=
  match d !! key with
  | Some v => Ok v
  | None => Raise (KeyError key)
  end.

End Python.

(** ** The plotting loops of the time-series tasks *)

Module Plots.

(** A call of [timeseries_analysis_plot] (the figure, the number of series,
    of line styles and of line widths it is given) or of [write_image_xml]. *)
Inductive Output : Type :=
| Plot (figureName : string) (series lineStyles lineWidths : nat)
| ImageXml (filePrefix : string).

Definition is_plot (o : Output) : bool :=
  match o with Plot _ _ _ _ => true | ImageXml _ => false end.

(** The number of figures drawn and of XML entries written. *)
Definition plots_in (outputs : list Output) : nat :=
  length (List.filter is_plot outputs).

Definition xml_in (outputs : list Output) : nat :=
  length (List.filter (fun o => negb (is_plot o)) outputs).

(** A [for] loop whose body may raise: what was put out before, and how
    the loop ended. *)
Fixpoint for_each {A : Type} (body : A -> Res (list Output)) (items : list A)
    : list Output * Res unit :=
  match items with
  | [] => ([], Ok tt)
  | item :: rest =>
      match body item with
      | Raise e => ([], Raise e)
      | Ok outputs =>
          let '(more, r) := for_each body rest in (outputs ++ more, r)
      end
  end.

(** The reference run that is left to plot: the preprocessed series is
    dropped when it ends before the first year of the time series
    ([TimeSeriesOHC.run], lines 261-279, [TimeSeriesSST.run], lines 181-199). *)
Definition reference_to_plot (preprocessedReferenceRunName : string)
    (yearStart yearEndPreprocessed : Z) : string :=
  if negb (String.eqb preprocessedReferenceRunName "None") then
    if yearStart <=? yearEndPreprocessed then preprocessedReferenceRunName
    else "None"%string
  else preprocessedReferenceRunName.

(** What the loops read: the task, what [setup_and_check] stored, the
    configured regions and titles, and the number of regions in the data. *)
Record Loop : Type := {
  task : Shared.AnalysisTask;
  setup : Shared.TaskSetup;
  regions : list string;
  plotTitles : list string;
  regionsInData : nat
}.

(** The body of the loop of [TimeSeriesOHC.run] (lines 295-368). *)
Definition ohc_region (l : Loop) (compareWithObservations : bool)
    (preprocessedReferenceRunName : string) (regionIndex : Z)
    : Res (list Output) :=
  (region <~ py_index (regions l) regionIndex ;;
   _ <~ norm_index (regionsInData l) regionIndex ;;
   title <~ py_index (plotTitles l) regionIndex ;;
   filePrefix <~ Python.dict_get (Shared.filePrefixes (setup l)) region ;;
   let figureName :=
     (Shared.plotsDirectory (task l) ++ "/" ++ filePrefix ++ ".png")%string in
   Ok ((if negb (String.eqb preprocessedReferenceRunName "None")
        then [Plot figureName 8 8 8] else []) ++
       (if negb compareWithObservations &&
           String.eqb preprocessedReferenceRunName "None"
        then [Plot figureName 4 4 4] else []) ++
       [ImageXml filePrefix]))%res.

Definition ohc_plots (l : Loop) (compareWithObservations : bool)
    (preprocessedReferenceRunName : string) (regionIndicesToPlot : list Z)
    : list Output * Res unit :=
  for_each (ohc_region l compareWithObservations preprocessedReferenceRunName)
    regionIndicesToPlot.

(** The body of the loop of [TimeSeriesSST.run] (lines 212-254). *)
Definition sst_region (l : Loop) (preprocessedReferenceRunName : string)
    (regionIndex : Z) : Res (list Output) :=
  (region <~ py_index (regions l) regionIndex ;;
   title <~ py_index (plotTitles l) regionIndex ;;
   _ <~ norm_index (regionsInData l) regionIndex ;;
   filePrefix <~ Python.dict_get (Shared.filePrefixes (setup l)) region ;;
   let figureName :=
     (Shared.plotsDirectory (task l) ++ "/" ++ filePrefix ++ ".png")%string in
   Ok ((if negb (String.eqb preprocessedReferenceRunName "None")
        then [Plot figureName 2 2 2] else [Plot figureName 1 1 1]) ++
       [ImageXml filePrefix]))%res.

Definition sst_plots (l : Loop) (preprocessedReferenceRunName : string)
    (regionIndicesToPlot : list Z) : list Output * Res unit :=
  for_each (sst_region l preprocessedReferenceRunName) regionIndicesToPlot.

(** The depth ranges [TimeSeriesOHC.run] sums over, as the levels each sum
    takes from the column of one time and region (lines 300-313). *)
Record DepthRanges (A : Type) : Type := {
  ohcTotal : list A;
  ohc700m : list A;
  ohc2000m : list A;
  ohcBottom : list A
}.

Arguments ohcTotal {A} d.
Arguments ohc700m {A} d.
Arguments ohc2000m {A} d.
Arguments ohcBottom {A} d.

Definition depth_ranges {A : Type} (ohc : list A) (k : OHC.DepthIndices)
    : DepthRanges A :=
  {| ohcTotal := ohc;
     ohc700m := Python.slice ohc 0 (OHC.k700m k);
     ohc2000m := Python.slice ohc (OHC.k700m k + 1) (OHC.k2000m k);
     ohcBottom := Python.slice ohc (OHC.k2000m k + 1) (OHC.kbtm k) |}.

End Plots.

(** ** The vertical section of the heat transport *)

Module MHTRun.

(** [refLayerThickness] ([MeridionalHeatTransport.run], lines 187-191): the
    array of zeros, its first entry set to the first depth, the others to
    the differences of two depths next to each other. *)
Definition refLayerThickness (refBottomDepth : list Q) : Res (list Q) :=
  let nVertLevels := Z.of_nat (length refBottomDepth) in
  let zeros := repeat 0%Q (length refBottomDepth) in
  (first <~ py_index refBottomDepth 0 ;;
   thickness <~ Python.set_item zeros 0 first ;;
   Python.set_slice thickness 1 nVertLevels
     (zip_with Qminus (Python.slice refBottomDepth 1 nVertLevels)
        (Python.slice refBottomDepth 0 (nVertLevels - 1))))%res.

Section Normalize.

(** A row of [MHTLatZ] (the values of one level over the latitudes) and
    its division by a number. *)
Variable Row : Type.
Variable divide : Row -> Q -> Row.

(** The loop [for k in range(nVertLevels)] of lines 287-288. *)
Fixpoint normalize_loop (refLayerThickness : list Q) (levels : list Z)
    (MHTLatZ : list Row) : Res (list Row) :=
  match levels with
  | [] => Ok MHTLatZ
  | k :: rest =>
      (row <~ py_index MHTLatZ k ;;
       thickness <~ py_index refLayerThickness k ;;
       MHTLatZ <~ Python.set_item MHTLatZ k (divide row thickness) ;;
       normalize_loop refLayerThickness rest MHTLatZ)%res
  end.

Definition normalize (nVertLevels : nat) (refLayerThickness : list Q)
    (MHTLatZ : list Row) : Res (list Row) :=
  normalize_loop refLayerThickness (SeaIce.range 0 (Z.of_nat nVertLevels)) MHTLatZ.

End Normalize.

End MHTRun.

(** ** The plotting loop of [seaice_timeseries] *)

Module SeaIcePlots.

(** A call of [timeseries_analysis_plot]: the series ([None] where the
    code passes [None]), the line styles and widths, the figure. *)
Record PlotCall : Type := {
  figureName : string;
  title : string;
  units : string;
  vars : list (option string);
  lineStyles : list string;
  lineWidths : list Q
}.

(** A call with one line style and one line width per series. *)
Definition consistent (c : PlotCall) : Prop :=
  length (vars c) = length (lineStyles c) /\
  length (lineStyles c) = length (lineWidths c).

(** The data the loop loads: a variable of [ds] with its hemispheric sums,
    an observed cycle opened and replicated over the model series
    ([open_multifile_dataset], [replicate_cycle]), and the preprocessed
    reference run opened from a file pattern. *)
Record Data : Type := {
  variable : string -> Res unit;
  observed : string -> string -> Res unit;
  preprocessed : string -> Res unit
}.

Definition plotTitles : gmap string string :=
  <["iceThickness"%string := "Sea-ice thickness"%string]>
    (<["iceVolumeCell"%string := "Sea-ice volume"%string]>
       (<["iceAreaCell"%string := "Sea-ice area"%string]> ∅)).

Definition unitsDictionary : gmap string string :=
  <["iceThickness"%string := "[m]"%string]>
    (<["iceVolumeCell"%string := "[10$^3$ km$^3$]"%string]>
       (<["iceAreaCell"%string := "[km$^2$]"%string]> ∅)).

(** [obsFileNames], from the four paths [seaice_timeseries] builds. *)
Definition obsFileNames (inputs : Legacy.SeaIceInputs)
    : gmap string (list string) :=
  <["iceVolumeCell"%string := skipn 2 (Legacy.ice_obsFileNames inputs)]>
    (<["iceAreaCell"%string := firstn 2 (Legacy.ice_obsFileNames inputs)]> ∅).

Definition variableNames : list string := ["iceAreaCell"; "iceVolumeCell"]%string.

Definition when (b : bool) (c : Res unit) : Res unit := if b then c else Ok tt.

(** The body of [for variableName in variableNames] (lines 162-352);
    [ref] is [preprocessedReferenceRunName] as the code before the loop
    left it. *)
Definition plot_variable (inputs : Legacy.SeaIceInputs) (d : Data)
    (ref variableName : string) : Res (list PlotCall) :=
  let compareWithObservations := Legacy.ice_compareWithObservations inputs in
  let plotsDirectory := Legacy.ice_plotsDirectory inputs in
  let mainRunName := Legacy.ice_mainRunName inputs in
  let withRef := negb (String.eqb ref "None") in
  let isArea := String.eqb variableName "iceAreaCell" in
  let isVolume := String.eqb variableName "iceVolumeCell" in
  let isThick := String.eqb variableName "iceThickCell" in
  (obsFiles <~ Python.dict_get (obsFileNames inputs) variableName ;;
   obsFileNameNH <~ py_index obsFiles 0 ;;
   obsFiles <~ Python.dict_get (obsFileNames inputs) variableName ;;
   obsFileNameSH <~ py_index obsFiles 1 ;;
   plotTitle <~ Python.dict_get plotTitles variableName ;;
   units <~ Python.dict_get unitsDictionary variableName ;;
   let variableNamefull :=
     if isThick then "iceVolumeCell"%string else variableName in
   _ <~ variable d variableNamefull ;;
   let figureNameNH :=
     (if withRef
      then plotsDirectory ++ "/" ++ variableName ++ "NH_" ++ mainRunName ++ "_" ++
           ref ++ ".png"
      else plotsDirectory ++ "/" ++ variableName ++ "NH_" ++ mainRunName ++
           ".png")%string in
   let figureNameSH :=
     (if withRef
      then plotsDirectory ++ "/" ++ variableName ++ "SH_" ++ mainRunName ++ "_" ++
           ref ++ ".png"
      else plotsDirectory ++ "/" ++ variableName ++ "SH_" ++ mainRunName ++
           ".png")%string in
   let titleNH := (plotTitle ++ " (NH), " ++ mainRunName ++ " (r)")%string in
   let titleSH := (plotTitle ++ " (SH), " ++ mainRunName ++ " (r)")%string in
   let newline := String (Ascii.ascii_of_nat 10) EmptyString in
   let titleNH :=
     (if compareWithObservations then
        if isArea then titleNH ++ newline ++ "SSM/I observations, annual cycle (k)"
        else if isVolume then titleNH ++ newline ++ "PIOMAS, annual cycle (k)"
        else titleNH
      else titleNH)%string in
   let titleSH :=
     (if compareWithObservations then
        if isArea then titleSH ++ newline ++ "SSM/I observations, annual cycle (k)"
        else if isVolume then titleSH ++ newline
        else titleSH
      else titleSH)%string in
   let titleNH :=
     (if withRef then titleNH ++ newline ++ " " ++ ref ++ " (b)" else titleNH)%string in
   let titleSH :=
     (if withRef then titleSH ++ newline ++ " " ++ ref ++ " (b)" else titleSH)%string in
   varSHObs <~
     (if isArea then
        _ <~ when compareWithObservations
               (_ <~ observed d obsFileNameNH "IceArea" ;;
                observed d obsFileNameSH "IceArea") ;;
        _ <~ when withRef
               (preprocessed d
                  (Legacy.ice_preprocessedReferenceDirectory inputs ++ "/icearea." ++
                   ref ++ ".year*.nc")) ;;
        Ok (Some "varSHObs"%string)
      else if isVolume then
        _ <~ when compareWithObservations (observed d obsFileNameNH "IceVol") ;;
        _ <~ when withRef
               (preprocessed d
                  (Legacy.ice_preprocessedReferenceDirectory inputs ++ "/icevol." ++
                   ref ++ ".year*.nc")) ;;
        Ok None
      else Ok None) ;;
   if isArea || isVolume then
     if compareWithObservations || withRef then
       let varsNH :=
         [Some "varNH"%string] ++
         (if compareWithObservations then [Some "varNHObs"%string] else []) ++
         (if withRef then [Some "varNHPreprocessed"%string] else []) in
       let varsSH :=
         [Some "varSH"%string] ++
         (if compareWithObservations then [varSHObs] else []) ++
         (if withRef then [Some "varSHPreprocessed"%string] else []) in
       let lineStyles :=
         ["r-"%string] ++
         (if compareWithObservations then ["k-"%string] else []) ++
         (if withRef then ["b-"%string] else []) in
       let lineWidths :=
         [(12#10)%Q] ++ (if compareWithObservations then [(12#10)%Q] else []) ++
         (if withRef then [(12#10)%Q] else []) in
       Ok [{| figureName := figureNameNH; title := titleNH; units := units;
              vars := varsNH; lineStyles := lineStyles; lineWidths := lineWidths |};
           {| figureName := figureNameSH; title := titleSH; units := units;
              vars := varsSH; lineStyles := lineStyles; lineWidths := lineWidths |}]
     else
       Ok [{| figureName :=
                (plotsDirectory ++ "/" ++ mainRunName ++ "." ++ variableName ++
                 ".png")%string;
              title := (plotTitle ++ ", NH (r), SH (k)" ++ newline ++
                        mainRunName)%string;
              units := units;
              vars := [Some "varNH"; Some "varSH"]%string;
              lineStyles := ["r-"; "k-"]%string;
              lineWidths := [12#10; 12#10]%Q |}]
   else if isThick then
     Ok [{| figureName :=
              (plotsDirectory ++ "/" ++ mainRunName ++ "." ++ variableName ++
               ".png")%string;
            title := (plotTitle ++ " NH (r), SH (k)" ++ newline ++
                      mainRunName)%string;
            units := units;
            vars := [Some "varNH"; Some "varSH"]%string;
            lineStyles := ["r-"; "k-"]%string;
            lineWidths := [12#10; 12#10]%Q |}]
   else
     Raise (ValueError
              ("variableName variable " ++ variableName ++
               " not supported for plotting")))%res.

(** The loop: the calls made before it ended, and how it ended. *)
Fixpoint plot_loop (inputs : Legacy.SeaIceInputs) (d : Data) (ref : string)
    (names : list string) : list PlotCall * Res unit :=
  match names with
  | [] => ([], Ok tt)
  | variableName :: rest =>
      match plot_variable inputs d ref variableName with
      | Raise e => ([], Raise e)
      | Ok calls =>
          let '(more, r) := plot_loop inputs d ref rest in (calls ++ more, r)
      end
  end.

Definition plots (inputs : Legacy.SeaIceInputs) (d : Data) (ref : string)
    : list PlotCall * Res unit :=
  plot_loop inputs d ref variableNames.

End SeaIcePlots.

(** ** More concrete runs *)

Module Cases.

(** Three monthly files of run A, seven regions of which two are plotted. *)
Definition streams : Shared.StreamsFile :=
  {| Shared.readpath := fun stream =>
       if String.eqb stream "restart" then Ok ["mpaso.rst.0002-01-01.nc"%string]
       else Ok ["mht.0001-01.nc"%string];
     Shared.readpath_between := fun _ _ _ _ =>
       Ok ["ts.0001-01.nc"; "ts.0001-02.nc"; "ts.0001-03.nc"]%string;
     Shared.find_stream := fun _ => Ok "timeSeriesStatsOutput"%string;
     Shared.get_simulation_start_time := Ok "0001-01-01_00:00:00"%string |}.

Definition region_names : list string :=
  ["arctic"; "equatorial"; "so"; "nino3"; "nino4"; "nino3.4"; "global"]%string.

Definition region_titles : list string :=
  ["Arctic"; "Equatorial (15S-15N)"; "Southern Ocean"; "Nino 3"; "Nino 4";
   "Nino 3.4"; "Global Ocean"]%string.

Definition config : Shared.Config :=
  {| Shared.options :=
       list_to_map
         [(("input", "baseDirectory"), "/run");
          (("input", "oceanStreamsFileName"), "streams.ocean");
          (("input", "oceanNamelistFileName"), "mpas-o_in");
          (("timeSeries", "startDate"), "0001-01-01_00:00:00");
          (("timeSeries", "endDate"), "0001-12-31_23:59:59");
          (("climatology", "startDate"), "0001-01-01_00:00:00");
          (("climatology", "endDate"), "0001-12-31_23:59:59");
          (("runs", "mainRunName"), "runA");
          (("runs", "preprocessedReferenceRunName"), "None")]%string;
     Shared.name_lists :=
       list_to_map [(("regions", "regions")%string, region_names);
                    (("regions", "plotTitles")%string, region_titles)];
     Shared.index_lists :=
       list_to_map [(("timeSeriesOHC", "regionIndicesToPlot")%string, [6; 0]);
                    (("timeSeriesSST", "regionIndicesToPlot")%string, [6; -1; 9])];
     Shared.booleans :=
       list_to_map
         [(("meridionalHeatTransport", "compareWithObservations")%string, false);
          (("meridionalHeatTransport", "plotVerticalSection")%string, true)];
     Shared.integers := ∅ |}.

Definition task : Shared.AnalysisTask :=
  {| Shared.config := config;
     Shared.base_setup_and_check := Ok tt;
     Shared.check_analysis_enabled := fun _ => Ok tt;
     Shared.check_path_exists := fun _ => Ok tt;
     Shared.historyStreams := streams;
     Shared.runStreams := streams;
     Shared.calendar := "gregorian_noleap";
     Shared.plotsDirectory := "/plots" |}.

(** What [TimeSeriesOHC.setup_and_check] stores for [task]. *)
Definition ohc_setup : Shared.TaskSetup :=
  {| Shared.startDate := "0001-01-01_00:00:00";
     Shared.endDate := "0001-12-31_23:59:59";
     Shared.inputFiles := ["ts.0001-01.nc"; "ts.0001-02.nc"; "ts.0001-03.nc"]%string;
     Shared.xmlFileNames :=
       ["/plots/ohc_global_runA.png.xml"; "/plots/ohc_arctic_runA.png.xml"]%string;
     Shared.filePrefixes :=
       <["arctic"%string := "ohc_arctic_runA.png"%string]>
         (<["global"%string := "ohc_global_runA.png"%string]> ∅) |}.

(** The collaborators of the heat-transport task: the bounds are the year 1,
    every year is printed as [0001]. *)
Definition mht_collaborators : MHT.Collaborators :=
  {| MHT.update_climatology_bounds_from_file_names := fun _ _ =>
       Ok (false, 1, 1, "0001-01-01_00:00:00"%string, "0001-12-31_23:59:59"%string);
     MHT.build_config_full_path := fun _ _ _ => Ok "/obs"%string;
     MHT.path_exists := fun _ => false;
     MHT.format_04d := fun _ => "0001"%string |}.

(** The same task when discovery finds nothing, and when no heat-transport
    history file exists. *)
Definition no_input_task : Shared.AnalysisTask :=
  {| Shared.config := config;
     Shared.base_setup_and_check := Ok tt;
     Shared.check_analysis_enabled := fun _ => Ok tt;
     Shared.check_path_exists := fun _ => Ok tt;
     Shared.historyStreams := Examples.no_input_streams;
     Shared.runStreams := streams;
     Shared.calendar := "gregorian_noleap";
     Shared.plotsDirectory := "/plots" |}.

Definition no_history_streams : Shared.StreamsFile :=
  {| Shared.readpath := fun _ => Ok [];
     Shared.readpath_between := fun _ _ _ _ => Ok ["ts.0001-01.nc"%string];
     Shared.find_stream := fun _ => Ok "timeSeriesStatsOutput"%string;
     Shared.get_simulation_start_time := Ok "0001-01-01_00:00:00"%string |}.

Definition no_history_task : Shared.AnalysisTask :=
  {| Shared.config := config;
     Shared.base_setup_and_check := Ok tt;
     Shared.check_analysis_enabled := fun _ => Ok tt;
     Shared.check_path_exists := fun _ => Ok tt;
     Shared.historyStreams := no_history_streams;
     Shared.runStreams := streams;
     Shared.calendar := "gregorian_noleap";
     Shared.plotsDirectory := "/plots" |}.

(** What [MeridionalHeatTransport.setup_and_check] stores for [task]. *)
Definition mht_setup : MHT.Setup :=
  {| MHT.startDate := "0001-01-01_00:00:00";
     MHT.endDate := "0001-12-31_23:59:59";
     MHT.startYear := 1;
     MHT.endYear := 1;
     MHT.inputFiles := ["ts.0001-01.nc"; "ts.0001-02.nc"; "ts.0001-03.nc"]%string;
     MHT.mhtFile := "mht.0001-01.nc";
     MHT.simulationStartTime := "0001-01-01_00:00:00";
     MHT.observationsFile := None;
     MHT.xmlFileNames :=
       ["/plots/mht_runA_years0001-0001.xml";
        "/plots/mhtZ_runA_years0001-0001.xml"]%string;
     MHT.filePrefixes :=
       <["mhtZ"%string := "mhtZ_runA_years0001-0001"%string]>
         (<["mht"%string := "mht_runA_years0001-0001"%string]> ∅) |}.

(** Five levels whose bottoms lie at 100 m to 2500 m, and the column of
    heat content of one time and region on them. *)
Definition depths : list Q := [100#1; 500#1; 900#1; 1800#1; 2500#1]%Q.

Definition column : list Z := [10; 20; 30; 40; 50].

(** The first entry and the last two entries of [Examples.sst_dataset]. *)
Definition sst_first : XArray.Dataset Z :=
  {| XArray.sizes := XArray.sizes Examples.sst_dataset;
     XArray.Time := [15];
     XArray.data_vars :=
       [("timeMonthly_avg_avgValueWithinOceanRegion_avgSurfaceTemperature"%string,
         XArray.AlongTime [10])] |}.

Definition sst_second : XArray.Dataset Z :=
  {| XArray.sizes := XArray.sizes Examples.sst_dataset;
     XArray.Time := [45; 75];
     XArray.data_vars :=
       [("timeMonthly_avg_avgValueWithinOceanRegion_avgSurfaceTemperature"%string,
         XArray.AlongTime [11; 12])] |}.

(** What [_compute_ohc_part] returns for the last two entries of
    [Examples.ohc_task]. *)
Definition ohc_part : XArray.Dataset Z :=
  {| XArray.sizes := XArray.sizes (OHC.ds Examples.ohc_task);
     XArray.Time := [45; 75];
     XArray.data_vars :=
       [(OHC.sumMaskVarName, XArray.AlongTime [1; 1]);
        (OHC.avgAreaVarName, XArray.AlongTime [2; 2]);
        (OHC.avgThickVarName, XArray.AlongTime [3; 3]);
        ("avgLayTemperatureAnomaly"%string, XArray.AlongTime [1; 2]);
        ("ohc"%string, XArray.AlongTime [24000; 48000]);
        ("regionNames"%string,
         XArray.Labels "nOceanRegionsTmp" ["arctic"; "global"]%string)] |}.

(** The function-style analyses of the same run, and what
    [seaice_timeseries] has gathered when its loop starts: observations are
    compared, no reference run. *)
Definition legacy_env : Legacy.Env :=
  {| Legacy.config := config;
     Legacy.StreamsFile := fun _ _ => Ok streams;
     Legacy.NameList := fun _ _ =>
       Ok {[ "config_calendar_type"%string := "gregorian_noleap"%string ]};
     Legacy.buildConfigFullPath := fun _ _ => Ok "/obs"%string |}.

(** A configuration with the options of the sea-ice analysis; the sea-ice
    streams hold no restart file, the ocean streams do. *)
Definition sea_ice_config : Shared.Config :=
  {| Shared.options :=
       list_to_map
         [(("input", "baseDirectory"), "/run");
          (("input", "oceanStreamsFileName"), "streams.ocean");
          (("input", "oceanNamelistFileName"), "mpas-o_in");
          (("input", "seaIceStreamsFileName"), "streams.cice");
          (("input", "seaIceNamelistFileName"), "mpas-cice_in");
          (("timeSeries", "startDate"), "0001-01-01_00:00:00");
          (("timeSeries", "endDate"), "0001-12-31_23:59:59");
          (("timeSeriesSeaIceAreaVol", "titleFontSize"), "16");
          (("seaIcePreprocessedReference", "baseDirectory"), "/ref");
          (("runs", "mainRunName"), "runA");
          (("runs", "preprocessedReferenceRunName"), "None")]%string;
     Shared.name_lists := ∅;
     Shared.index_lists := ∅;
     Shared.booleans :=
       list_to_map
         [(("timeSeriesSeaIceAreaVol", "compareWithObservations")%string, true)];
     Shared.integers :=
       list_to_map [(("timeSeriesSeaIceAreaVol", "movingAveragePoints")%string, 1)] |}.

Definition sea_ice_env : Legacy.Env :=
  {| Legacy.config := sea_ice_config;
     Legacy.StreamsFile := fun streamsFileName _ =>
       if String.eqb streamsFileName "streams.cice"
       then Ok Examples.seaice_streams_no_restart
       else Ok streams;
     Legacy.NameList := fun _ _ =>
       Ok {[ "config_calendar_type"%string := "gregorian_noleap"%string ]};
     Legacy.buildConfigFullPath := fun _ _ => Ok "/obs"%string |}.

Definition sea_ice_inputs : Legacy.SeaIceInputs :=
  {| Legacy.ice_calendar := "gregorian_noleap";
     Legacy.ice_simulationStartTime := "0001-01-01_00:00:00";
     Legacy.ice_startDate := "0001-01-01_00:00:00";
     Legacy.ice_endDate := "0001-12-31_23:59:59";
     Legacy.ice_fileNames := ["ts.0001-01.nc"%string];
     Legacy.ice_obsFileNames :=
       ["/obs/areaNH"; "/obs/areaSH"; "/obs/volNH"; "/obs/volSH"]%string;
     Legacy.ice_titleFontSize := "16";
     Legacy.ice_mainRunName := "runA";
     Legacy.ice_preprocessedReferenceRunName := "None";
     Legacy.ice_preprocessedReferenceDirectory := "/ref";
     Legacy.ice_compareWithObservations := true;
     Legacy.ice_plotsDirectory := "/plots";
     Legacy.ice_movingAveragePoints := 1;
     Legacy.ice_restartFile := "mpaso.rst.0002-01-01.nc" |}.

Definition sea_ice_data : SeaIcePlots.Data :=
  {| SeaIcePlots.variable := fun _ => Ok tt;
     SeaIcePlots.observed := fun _ _ => Ok tt;
     SeaIcePlots.preprocessed := fun _ => Ok tt |}.

Definition ohc_loop : Plots.Loop :=
  {| Plots.task := task; Plots.setup := ohc_setup;
     Plots.regions := region_names; Plots.plotTitles := region_titles;
     Plots.regionsInData := 7 |}.

End Cases.

(** * Properties *)

(** ** Depth indices of the ocean-heat-content task *)

Lemma Qgtb_true (x thr : Q) : OHC.Qgtb x thr = true <-> (thr < x)%Q.
Proof.
  unfold OHC.Qgtb. rewrite negb_true_iff.
  split; intros H.
  - apply Qnot_le_lt. intros Hle.
    apply Qle_bool_iff in Hle. congruence.
  - destruct (Qle_bool x thr) eqn:E; [|reflexivity].
    apply Qle_bool_iff in E. exfalso. exact (Qlt_not_le _ _ H E).
Qed.

Lemma Qgtb_false (x thr : Q) : OHC.Qgtb x thr = false <-> (x <= thr)%Q.
Proof.
  unfold OHC.Qgtb. rewrite negb_false_iff. apply Qle_bool_iff.
Qed.

Lemma where_gt_nil (thr : Q) (depth : list Q) (i0 : nat) :
  OHC.where_gt thr depth i0 = [] <-> (forall d, In d depth -> (d <= thr)%Q).
Proof.
  revert i0. induction depth as [|d rest IH]; intros i0; simpl.
  - split; [intros _ d []|reflexivity].
  - destruct (OHC.Qgtb d thr) eqn:E.
    + split; [discriminate|]. intros H.
      assert (Hd : (d <= thr)%Q) by (apply H; now left).
      apply Qgtb_false in Hd. congruence.
    + rewrite IH. apply Qgtb_false in E. split.
      * intros H x [<-|Hx]; [exact E|now apply H].
      * intros H x Hx. apply H. now right.
Qed.

Lemma where_gt_head (thr : Q) (depth : list Q) (i0 i : nat) (rest : list nat) :
  OHC.where_gt thr depth i0 = i :: rest ->
  (i0 <= i)%nat /\ OHC.first_above thr depth (i - i0).
Proof.
  revert i0. induction depth as [|d tl IH]; intros i0; simpl; [discriminate|].
  destruct (OHC.Qgtb d thr) eqn:E.
  - intros [= <- _]. split; [lia|].
    replace (i0 - i0)%nat with 0%nat by lia. split.
    + exists d. split; [reflexivity|now apply Qgtb_true].
    + intros j x Hj. lia.
  - intros H. apply IH in H as [Hle [[x [Hx Hgt]] Hbefore]].
    split; [lia|].
    replace (i - i0)%nat with (S (i - S i0)) by lia. split.
    + exists x. split; [exact Hx|exact Hgt].
    + intros [|j] y Hj Hy; simpl in Hy.
      * injection Hy as <-. now apply Qgtb_false.
      * apply (Hbefore j y); [lia|exact Hy].
Qed.

Lemma depth_index_ok_iff (thr : Q) (depth : list Q) :
  is_ok (OHC.depth_index thr depth) <-> OHC.has_entry_above thr depth.
Proof.
  unfold OHC.depth_index.
  destruct (OHC.where_gt thr depth 0) as [|i rest] eqn:E; simpl.
  - split; [intros []|]. intros [d [Hin Hgt]].
    pose proof (proj1 (where_gt_nil _ _ _) E d Hin) as Hle.
    exact (Qlt_not_le _ _ Hgt Hle).
  - split; [|trivial]. intros _.
    apply where_gt_head in E as [_ [[d [Hd Hgt]] _]].
    exists d. split; [|exact Hgt]. eapply nth_error_In. exact Hd.
Qed.

Lemma depth_index_value (thr : Q) (depth : list Q) (k : Z) :
  OHC.depth_index thr depth = Ok k ->
  exists i, OHC.first_above thr depth i /\ k = Z.of_nat i - 1.
Proof.
  unfold OHC.depth_index.
  destruct (OHC.where_gt thr depth 0) as [|i rest] eqn:E; [discriminate|].
  intros [= <-]. apply where_gt_head in E as [_ Hfirst].
  rewrite Nat.sub_0_r in Hfirst. eauto.
Qed.

(** C10.  The 700 m and 2000 m layer indices of [TimeSeriesOHC.run] are
    defined exactly when [refBottomDepth] holds an entry above 700 and an
    entry above 2000; every other depth array makes the selection of element
    0 of the empty match raise [IndexError]; when defined, each index is the
    position of the first entry above its threshold, minus one. *)
Theorem depth_indices_defined_iff (depth : list Q) :
  (is_ok (OHC.depth_indices depth) <->
     OHC.has_entry_above 700 depth /\ OHC.has_entry_above 2000 depth) /\
  (~ (OHC.has_entry_above 700 depth /\ OHC.has_entry_above 2000 depth) ->
     exists msg, OHC.depth_indices depth = Raise (IndexError msg)) /\
  (forall r, OHC.depth_indices depth = Ok r ->
     exists i j, OHC.first_above 700 depth i /\ OHC.first_above 2000 depth j /\
       OHC.k700m r = Z.of_nat i - 1 /\ OHC.k2000m r = Z.of_nat j - 1).
Proof.
  pose proof (depth_index_ok_iff 700 depth) as H7.
  pose proof (depth_index_ok_iff 2000 depth) as H20.
  pose proof (depth_index_value 700 depth) as V7.
  pose proof (depth_index_value 2000 depth) as V20.
  unfold OHC.depth_indices, bindR.
  destruct (OHC.depth_index 700 depth) as [k7|e7] eqn:E7;
    [destruct (OHC.depth_index 2000 depth) as [k20|e20] eqn:E20|]; simpl in *.
  - split; [tauto|]. split; [tauto|].
    intros r [= <-]. simpl.
    destruct (V7 k7 eq_refl) as [i [Hi ->]].
    destruct (V20 k20 eq_refl) as [j [Hj ->]].
    exists i, j. auto.
  - split; [tauto|]. split; [|discriminate].
    intros _. unfold OHC.depth_index in E20.
    destruct (OHC.where_gt 2000 depth 0); [|discriminate].
    injection E20 as <-. eauto.
  - split; [tauto|]. split; [|discriminate].
    intros _. unfold OHC.depth_index in E7.
    destruct (OHC.where_gt 700 depth 0); [|discriminate].
    injection E7 as <-. eauto.
Qed.

(** A five-layer column reaching 2500 m: both indices are defined. *)
Lemma depth_indices_defined_iff_witness :
  OHC.depth_indices [100#1; 500#1; 900#1; 1800#1; 2500#1]%Q =
    Ok {| OHC.k700m := 1; OHC.k2000m := 3; OHC.kbtm := 4 |} /\
  exists msg, OHC.depth_indices [100#1; 500#1; 900#1]%Q = Raise (IndexError msg).
Proof.
  split; [reflexivity|].
  apply (proj1 (proj2 (depth_indices_defined_iff [100#1; 500#1; 900#1]%Q))).
  intros [_ [d [Hin Hgt]]].
  simpl in Hin.
  destruct Hin as [<-|[<-|[<-|[]]]]; vm_compute in Hgt; discriminate.
Defined.

(** ** Empty discovery *)

Lemma time_series_setup_no_files (t : Shared.AnalysisTask)
    (taskSection tag startDate endDate : string) :
  Shared.reads_dates t startDate endDate ->
  Shared.readpath_between (Shared.historyStreams t) "timeSeriesStatsMonthlyOutput"
    startDate endDate (Shared.calendar t) = Ok [] ->
  Shared.time_series_setup t taskSection tag =
    Raise (IOError (Shared.no_files_message "timeSeriesStatsMonthlyOutput"
                      startDate endDate)).
Proof.
  intros [[ref [Href Hcheck]] [Hs He]] Hfiles.
  unfold Shared.time_series_setup.
  rewrite Href. cbn [bindR]. rewrite Hcheck. cbn [bindR].
  rewrite Hs. cbn [bindR]. rewrite He. cbn [bindR].
  rewrite Hfiles. reflexivity.
Qed.

(** X7.  [TimeSeriesOHC.setup_and_check] and [TimeSeriesSST.setup_and_check]
    raise the no-files [IOError] when discovery returns an empty list. *)
Lemma ohc_sst_setup_no_files (t : Shared.AnalysisTask) (startDate endDate : string) :
  Shared.base_setup_and_check t = Ok tt ->
  Shared.check_analysis_enabled t "config_am_timeseriesstatsmonthly_enable" = Ok tt ->
  Shared.reads_dates t startDate endDate ->
  Shared.readpath_between (Shared.historyStreams t) "timeSeriesStatsMonthlyOutput"
    startDate endDate (Shared.calendar t) = Ok [] ->
  OHC.setup_and_check t =
    Raise (IOError (Shared.no_files_message "timeSeriesStatsMonthlyOutput"
                      startDate endDate)) /\
  SST.setup_and_check t =
    Raise (IOError (Shared.no_files_message "timeSeriesStatsMonthlyOutput"
                      startDate endDate)).
Proof.
  intros Hbase Hen Hdates Hfiles.
  unfold OHC.setup_and_check, SST.setup_and_check.
  rewrite Hbase, Hen. cbn [bindR].
  split; now apply time_series_setup_no_files.
Qed.

(** X8.  [MeridionalHeatTransport.setup_and_check] does the same: with no
    input file between the climatology dates it raises the no-files
    [IOError]. *)
Lemma mht_setup_no_files (co : MHT.Collaborators) (t : Shared.AnalysisTask)
    (startDate endDate : string) :
  Shared.base_setup_and_check t = Ok tt ->
  Shared.check_analysis_enabled t "config_am_timeseriesstatsmonthly_enable" = Ok tt ->
  Shared.check_analysis_enabled t "config_am_meridionalheattransport_enable" = Ok tt ->
  Shared.get (Shared.config t) "climatology" "startDate" = Ok startDate ->
  Shared.get (Shared.config t) "climatology" "endDate" = Ok endDate ->
  Shared.readpath_between (Shared.historyStreams t) "timeSeriesStatsMonthlyOutput"
    startDate endDate (Shared.calendar t) = Ok [] ->
  MHT.setup_and_check co t =
    Raise (IOError (Shared.no_files_message "timeSeriesStatsMonthlyOutput"
                      startDate endDate)).
Proof.
  intros Hbase H1 H2 Hs He Hfiles.
  unfold MHT.setup_and_check.
  rewrite Hbase. cbn [bindR]. rewrite H1. cbn [bindR]. rewrite H2. cbn [bindR].
  rewrite Hs. cbn [bindR]. rewrite He. cbn [bindR].
  rewrite Hfiles. reflexivity.
Qed.

Lemma print_reading_files_empty :
  Legacy.print_reading_files [] = Raise (IndexError "index out of range").
Proof. reflexivity. Qed.

(** C7.  [sst_timeseries] on an empty discovery: no check guards the
    progress message, whose [fileNames[0]] raises [IndexError]; the rest of
    the analysis is never entered, and the error is not the no-files
    [IOError] that [TimeSeriesSST.setup_and_check] raises on the same input. *)
Theorem sst_timeseries_empty_input (env : Legacy.Env)
    (streamMap : option (gmap string (list string)))
    (streams : Shared.StreamsFile) (streamName startDate endDate calendar : string)
    (analysis : Legacy.SSTInputs -> Res (list string)) :
  Legacy.sst_reaches_discovery env streamMap streams streamName startDate endDate
    calendar ->
  Shared.readpath_between streams streamName startDate endDate calendar = Ok [] ->
  Legacy.sst_timeseries env streamMap analysis =
    Raise (IndexError "index out of range") /\
  Legacy.sst_timeseries env streamMap analysis <>
    Raise (IOError (Shared.no_files_message streamName startDate endDate)).
Proof.
  intros (dir & sfn & nfn & nl & names & H1 & H2 & H3 & H4 & H5 & H6 & H7 & H8 &
          H9 & H10) Hfiles.
  assert (E : Legacy.sst_timeseries env streamMap analysis =
              Raise (IndexError "index out of range")).
  { unfold Legacy.sst_timeseries.
    rewrite H1. cbn [bindR]. rewrite H2. cbn [bindR]. rewrite H3. cbn [bindR].
    rewrite H4. cbn [bindR]. rewrite H5. cbn [bindR]. rewrite H6. cbn [bindR].
    rewrite H7. cbn [bindR]. rewrite H8. cbn [bindR]. rewrite H9. cbn [bindR].
    rewrite H10. cbn [bindR]. rewrite Hfiles. reflexivity. }
  split; [exact E|]. rewrite E. discriminate.
Qed.

(** The run of [Examples.no_input_env]: the function-style analysis fails
    with [IndexError], the task with the no-files [IOError]. *)
Lemma sst_timeseries_empty_input_witness :
  (Legacy.sst_timeseries Examples.no_input_env (Some Examples.stream_map)
     (fun _ => Ok ["sst.png"%string]) =
     Raise (IndexError "index out of range") /\
   Legacy.sst_timeseries Examples.no_input_env (Some Examples.stream_map)
     (fun _ => Ok ["sst.png"%string]) <>
     Raise (IOError (Shared.no_files_message "timeSeriesStatsOutput"
                       "0001-01-01_00:00:00" "0010-12-31_23:59:59"))) /\
  SST.setup_and_check Examples.no_input_task =
    Raise (IOError (Shared.no_files_message "timeSeriesStatsMonthlyOutput"
                      "0001-01-01_00:00:00" "0010-12-31_23:59:59")).
Proof.
  split.
  - apply (sst_timeseries_empty_input Examples.no_input_env
             (Some Examples.stream_map) Examples.no_input_streams
             "timeSeriesStatsOutput" "0001-01-01_00:00:00" "0010-12-31_23:59:59"
             "gregorian_noleap").
    + exists "/run"%string, "streams.ocean"%string, "mpas-o_in"%string,
        ({[ "config_calendar_type"%string := "gregorian_noleap"%string ]}
           : gmap string string),
        ["timeSeriesStatsOutput"%string].
      repeat split; vm_compute; reflexivity.
    + reflexivity.
  - vm_compute. reflexivity.
Defined.

(** ** Restart-file and start-time fallback of [seaice_timeseries] *)

(** The outcome of the two [try] blocks for every outcome of the
    lookups: each [except] clause catches the one class it names. *)
Lemma restart_file_cases (env : Legacy.Env) (streams : Shared.StreamsFile)
    (inDirectory : string) :
  Legacy.restart_file env streams inDirectory =
    match Legacy.first_restart streams with
    | Ok f => Ok f
    | Raise (ValueError _) =>
        match Legacy.ocean_restart env inDirectory with
        | Ok f => Ok f
        | Raise (ValueError _) => Raise (IOError Legacy.no_restart_message)
        | Raise e => Raise e
        end
    | Raise e => Raise e
    end /\
  Legacy.simulation_start_time env streams inDirectory =
    match Shared.get_simulation_start_time streams with
    | Ok time => Ok time
    | Raise (IOError _) =>
        (oceanStreamsFileName <~ Shared.get (Legacy.config env) "input"
                                   "oceanStreamsFileName" ;;
         oceanStreams <~ Legacy.StreamsFile env oceanStreamsFileName inDirectory ;;
         Shared.get_simulation_start_time oceanStreams)%res
    | Raise e => Raise e
    end.
Proof.
  unfold Legacy.restart_file, Legacy.simulation_start_time, try_except.
  split.
  - destruct (Legacy.first_restart streams) as [f|[]]; simpl; try reflexivity.
    destruct (Legacy.ocean_restart env inDirectory) as [f|[]]; reflexivity.
  - destruct (Shared.get_simulation_start_time streams) as [f|[]]; reflexivity.
Qed.

(** C8.  [StreamsFile.readpath] and [get_simulation_start_time] are
    collaborators of [seaice_timeseries]; its [except] clauses name what a
    failed lookup raises: [ValueError] for a restart lookup, [IOError] for
    the start time.  For lookups that fail in this way the restart file is
    the sea-ice one when that lookup returns; whenever it raises, the ocean
    lookup is made and its restart file is the result (the fallback path is
    success); the function raises exactly when both lookups fail, and what
    it raises then is the restart [IOError].  The simulation start time is
    the sea-ice one when that lookup returns and the result of the ocean
    lookup otherwise. *)
Theorem restart_file_fallback (env : Legacy.Env) (streams : Shared.StreamsFile)
    (inDirectory : string) :
  (forall e, Legacy.first_restart streams = Raise e -> isValueError e = true) ->
  (forall e, Legacy.ocean_restart env inDirectory = Raise e ->
     isValueError e = true) ->
  (forall e, Shared.get_simulation_start_time streams = Raise e ->
     isIOError e = true) ->
  (forall f, Legacy.first_restart streams = Ok f ->
     Legacy.restart_file env streams inDirectory = Ok f) /\
  Legacy.falls_back_on_any_failure env streams inDirectory /\
  ((exists msg,
      Legacy.restart_file env streams inDirectory = Raise (IOError msg)) <->
   ~ is_ok (Legacy.first_restart streams) /\
   ~ is_ok (Legacy.ocean_restart env inDirectory)) /\
  (forall e, Legacy.restart_file env streams inDirectory = Raise e ->
     e = IOError Legacy.no_restart_message) /\
  Legacy.simulation_start_time env streams inDirectory =
    match Shared.get_simulation_start_time streams with
    | Ok time => Ok time
    | Raise _ =>
        (oceanStreamsFileName <~ Shared.get (Legacy.config env) "input"
                                   "oceanStreamsFileName" ;;
         oceanStreams <~ Legacy.StreamsFile env oceanStreamsFileName inDirectory ;;
         Shared.get_simulation_start_time oceanStreams)%res
    end.
Proof.
  intros Hice Hocean Htime.
  destruct (restart_file_cases env streams inDirectory) as [Hrestart Hstart].
  assert (Htimes :
            Legacy.simulation_start_time env streams inDirectory =
            match Shared.get_simulation_start_time streams with
            | Ok time => Ok time
            | Raise _ =>
                (oceanStreamsFileName <~ Shared.get (Legacy.config env) "input"
                                           "oceanStreamsFileName" ;;
                 oceanStreams <~ Legacy.StreamsFile env oceanStreamsFileName
                                   inDirectory ;;
                 Shared.get_simulation_start_time oceanStreams)%res
            end).
  { rewrite Hstart.
    destruct (Shared.get_simulation_start_time streams) as [t|e]; [reflexivity|].
    specialize (Htime e eq_refl). destruct e; try discriminate Htime.
    reflexivity. }
  unfold Legacy.falls_back_on_any_failure.
  rewrite Hrestart. clear Hrestart Hstart.
  destruct (Legacy.first_restart streams) as [f|e] eqn:Ei.
  - split; [now intros f' [= <-]|].
    split; [discriminate|].
    split; [split; [intros [m0 H0]; discriminate H0|intros [H0 _]; destruct (H0 I)]|].
    split; [discriminate|exact Htimes].
  - specialize (Hice e eq_refl). destruct e; try discriminate Hice.
    split; [discriminate|].
    destruct (Legacy.ocean_restart env inDirectory) as [f|e] eqn:Eo.
    + split; [intros e0 _; reflexivity|].
      split; [split; [intros [m0 H0]; discriminate H0|intros [_ H0]; destruct (H0 I)]|].
      split; [discriminate|exact Htimes].
    + specialize (Hocean e eq_refl). destruct e; try discriminate Hocean.
      split; [intros e0 _; eauto|].
      split; [split; [intros _; split; intros H0; exact H0|intros _; eauto]|].
      split; [now intros e0 [= <-]|exact Htimes].
Qed.

(** Sea-ice streams without a restart file ([ValueError], and [IOError]
    for the start time) and ocean streams with one: both come from the
    ocean streams. *)
Lemma restart_file_fallback_witness :
  Legacy.falls_back_on_any_failure
    (Examples.fallback_env Examples.ocean_streams_with_restart)
    Examples.seaice_streams_no_restart "/run" /\
  Legacy.restart_file (Examples.fallback_env Examples.ocean_streams_with_restart)
    Examples.seaice_streams_no_restart "/run" = Ok "mpaso.rst.0002-01-01.nc"%string /\
  Legacy.simulation_start_time
    (Examples.fallback_env Examples.ocean_streams_with_restart)
    Examples.seaice_streams_no_restart "/run" = Ok "0001-01-01_00:00:00"%string.
Proof.
  destruct (restart_file_fallback
              (Examples.fallback_env Examples.ocean_streams_with_restart)
              Examples.seaice_streams_no_restart "/run")
    as (_ & Hfall & _ & _ & Hstart).
  - intros e H. vm_compute in H. injection H as <-. reflexivity.
  - intros e H. vm_compute in H. discriminate H.
  - intros e H. vm_compute in H. injection H as <-. reflexivity.
  - split; [exact Hfall|]. split; [|exact Hstart].
    exact (Hfall (ValueError "Path not found") eq_refl).
Defined.

(** The fallback succeeds: sea-ice streams without a restart file
    ([ValueError]), ocean streams with one. *)
Lemma restart_file_fallback_run :
  Legacy.restart_file (Examples.fallback_env Examples.ocean_streams_with_restart)
    Examples.seaice_streams_no_restart "/run" = Ok "mpaso.rst.0002-01-01.nc"%string /\
  Legacy.simulation_start_time
    (Examples.fallback_env Examples.ocean_streams_with_restart)
    Examples.seaice_streams_no_restart "/run" = Ok "0001-01-01_00:00:00"%string /\
  Legacy.restart_file (Examples.fallback_env Examples.seaice_streams_no_restart)
    Examples.seaice_streams_no_restart "/run" =
    Raise (IOError Legacy.no_restart_message).
Proof. repeat split; vm_compute; reflexivity. Qed.

(** ** [replicate_cycle] reaches the end of the model series *)

Lemma fold_max_ge (l : list Z) (a : Z) :
  a <= fold_left Z.max l a /\ (forall x, In x l -> x <= fold_left Z.max l a) /\
  In (fold_left Z.max l a) (a :: l).
Proof.
  revert a. induction l as [|y l IH]; intros a; simpl.
  - split; [lia|]. split; [intros x []|now left].
  - destruct (IH (Z.max a y)) as [H1 [H2 H3]].
    split; [lia|]. split.
    + intros x [<-|Hx]; [lia|now apply H2].
    + destruct H3 as [H3|H3]; [|now right; right].
      rewrite <- H3. destruct (Z.max_spec a y) as [[_ E]|[_ E]]; rewrite E; auto.
Qed.

Lemma Time_max_spec (times : list Z) :
  times <> [] ->
  exists m, SeaIce.Time_max times = Ok m /\ In m times /\
    forall x, In x times -> x <= m.
Proof.
  destruct times as [|t rest]; [congruence|]. intros _.
  destruct (fold_max_ge rest t) as [H1 [H2 H3]].
  exists (fold_left Z.max rest t). split; [reflexivity|]. split; [exact H3|].
  intros x [<-|Hx]; [exact H1|now apply H2].
Qed.

Lemma Time_min_ok (times : list Z) :
  times <> [] -> exists m, SeaIce.Time_min times = Ok m.
Proof.
  destruct times as [|t rest]; [congruence|]. intros _. simpl. eauto.
Qed.

Lemma start_loop_terminates (dsStartTime repStartTime period : Z) :
  0 < period ->
  forall fuel k,
    (Z.to_nat (dsStartTime - (repStartTime + (k + 1) * period)) < fuel)%nat ->
    exists k', SeaIce.start_loop fuel dsStartTime repStartTime period k = Some k'.
Proof.
  intros Hp. induction fuel as [|fuel IH]; intros k Hfuel; [lia|].
  simpl. destruct (dsStartTime >? repStartTime + (k + 1) * period) eqn:E.
  - apply IH. apply Z.gtb_lt in E. nia.
  - eauto.
Qed.

Lemma end_loop_terminates (dsEndTime repEndTime period : Z) :
  0 < period ->
  forall fuel k,
    (Z.to_nat (dsEndTime - (repEndTime + k * period)) < fuel)%nat ->
    exists k', SeaIce.end_loop fuel dsEndTime repEndTime period k = Some k' /\
      dsEndTime <= repEndTime + k' * period.
Proof.
  intros Hp. induction fuel as [|fuel IH]; intros k Hfuel; [lia|].
  simpl. destruct (dsEndTime >? repEndTime + k * period) eqn:E.
  - apply IH. apply Z.gtb_lt in E. nia.
  - exists k. split; [reflexivity|].
    destruct (Z.gtb_spec dsEndTime (repEndTime + k * period)); [discriminate|lia].
Qed.

Lemma shifted_times {V : Type} (series : list (SeaIce.Sample V)) (period k : Z) :
  map SeaIce.time (SeaIce.shifted series period k) =
    map (fun t => t + k * period) (map SeaIce.time series).
Proof.
  unfold SeaIce.shifted. rewrite !map_map. reflexivity.
Qed.

Lemma replicate_loop_times {V : Type} (rep : list (SeaIce.Sample V)) (period : Z)
    (cycles : list Z) (acc : list (SeaIce.Sample V)) :
  map SeaIce.time (SeaIce.replicate_loop rep period cycles acc) =
    map SeaIce.time acc ++
    flat_map (fun c => map (fun t => t + (c + 1) * period) (map SeaIce.time rep))
      cycles.
Proof.
  revert acc. induction cycles as [|c rest IH]; intros acc; simpl.
  - now rewrite app_nil_r.
  - rewrite IH, map_app, shifted_times, <- app_assoc. reflexivity.
Qed.

Lemma range_last (a b : Z) : a < b -> In (b - 1) (SeaIce.range a b).
Proof.
  intros H. unfold SeaIce.range. apply in_map_iff.
  exists (Z.to_nat (b - a) - 1)%nat. split; [lia|].
  apply in_seq. lia.
Qed.

(** The copy placed last holds the largest time of [dsToReplicate], moved
    by at least [endIndex] periods. *)
Lemma replicate_loop_reaches {V : Type} (rep : list (SeaIce.Sample V))
    (period startIndex endIndex repEndTime : Z) :
  0 < period ->
  In repEndTime (map SeaIce.time rep) ->
  exists t,
    In t (map SeaIce.time
            (SeaIce.replicate_loop rep period (SeaIce.range startIndex endIndex)
               (SeaIce.shifted rep period startIndex))) /\
    repEndTime + endIndex * period <= t.
Proof.
  intros Hp Hin. rewrite replicate_loop_times, shifted_times.
  destruct (Z_lt_le_dec startIndex endIndex) as [Hlt|Hge].
  - exists (repEndTime + endIndex * period). split; [|lia].
    apply in_or_app. right. apply in_flat_map.
    exists (endIndex - 1). split; [now apply range_last|].
    apply in_map_iff. exists repEndTime. split; [f_equal; lia|exact Hin].
  - exists (repEndTime + startIndex * period). split; [|nia].
    apply in_or_app. left. apply in_map_iff. eauto.
Qed.

(** C9.  For a model series [ds] with at least one time and a periodic
    series with at least two times and a positive period, [replicate_cycle]
    returns (its two [while] loops end) a series whose largest [Time] is at
    least the largest [Time] of [ds]. *)
Theorem replicate_cycle_covers_end {V : Type} (ds : list Z)
    (dsToReplicate : list (SeaIce.Sample V)) (period : Z) :
  ds <> [] ->
  (2 <= length dsToReplicate)%nat ->
  SeaIce.period_of dsToReplicate = Ok period ->
  0 < period ->
  exists fuel0, forall fuel, (fuel0 <= fuel)%nat ->
    exists dsShift dsEndTime shiftEndTime,
      SeaIce.replicate_cycle fuel ds dsToReplicate = Some (Ok dsShift) /\
      SeaIce.Time_max ds = Ok dsEndTime /\
      SeaIce.Time_max (map SeaIce.time dsShift) = Ok shiftEndTime /\
      dsEndTime <= shiftEndTime.
Proof.
  intros Hds Hlen Hperiod Hpos.
  destruct (Time_min_ok ds Hds) as [dsStart EdsMin].
  destruct (Time_max_spec ds Hds) as [dsEnd [EdsMax _]].
  assert (Hrep : map SeaIce.time dsToReplicate <> []).
  { destruct dsToReplicate; simpl in *; [lia|discriminate]. }
  destruct (Time_min_ok _ Hrep) as [repStart ErepMin].
  destruct (Time_max_spec _ Hrep) as [repEnd [ErepMax [HrepIn _]]].
  unfold SeaIce.period_of in Hperiod.
  rewrite ErepMin, ErepMax in Hperiod. cbn [bindR] in Hperiod.
  destruct (py_index (map SeaIce.time dsToReplicate) 1) as [repSecond|e] eqn:Esec;
    [|discriminate].
  cbn [bindR] in Hperiod. injection Hperiod as Hperiod.
  exists (S (Nat.max (Z.to_nat (dsStart - (repStart + (0 + 1) * period)))
                     (Z.to_nat (dsEnd - (repEnd + 0 * period))))).
  intros fuel Hfuel.
  destruct (start_loop_terminates dsStart repStart period Hpos fuel 0)
    as [startIndex Estart]; [lia|].
  destruct (end_loop_terminates dsEnd repEnd period Hpos fuel 0)
    as [endIndex [Eend Hend]]; [lia|].
  destruct (replicate_loop_reaches dsToReplicate period startIndex endIndex repEnd
              Hpos HrepIn) as [t [Ht Hle]].
  set (out := SeaIce.replicate_loop dsToReplicate period
                (SeaIce.range startIndex endIndex)
                (SeaIce.shifted dsToReplicate period startIndex)) in *.
  assert (Hout : map SeaIce.time out <> []) by (intros E; rewrite E in Ht; exact Ht).
  destruct (Time_max_spec _ Hout) as [outEnd [EoutMax [_ Hub]]].
  exists out, dsEnd, outEnd.
  split; [|split; [exact EdsMax|split; [exact EoutMax|]]].
  - unfold SeaIce.replicate_cycle.
    rewrite EdsMin, EdsMax, ErepMin, ErepMax, Esec, Hperiod, Estart, Eend.
    reflexivity.
  - specialize (Hub t Ht). lia.
Qed.

(** A model series of twenty-four thirty-day months and a cycle of twelve
    values, thirty days apart: the period is 360 days. *)
Lemma replicate_cycle_covers_end_witness :
  exists fuel0, forall fuel, (fuel0 <= fuel)%nat ->
    exists dsShift dsEndTime shiftEndTime,
      SeaIce.replicate_cycle fuel Examples.model_times Examples.yearly_cycle =
        Some (Ok dsShift) /\
      SeaIce.Time_max Examples.model_times = Ok dsEndTime /\
      SeaIce.Time_max (map SeaIce.time dsShift) = Ok shiftEndTime /\
      dsEndTime <= shiftEndTime.
Proof.
  apply (replicate_cycle_covers_end Examples.model_times Examples.yearly_cycle 360).
  - discriminate.
  - vm_compute. lia.
  - vm_compute. reflexivity.
  - lia.
Defined.

Example replicate_cycle_run :
  option_map (fun r => match r with
                       | Ok out => (length out, SeaIce.Time_max (map SeaIce.time out))
                       | Raise e => (0%nat, Raise e)
                       end)
    (SeaIce.replicate_cycle 5 Examples.model_times Examples.yearly_cycle) =
    Some (36%nat, Ok 1785) /\
  SeaIce.Time_max Examples.model_times = Ok 1435 /\
  SeaIce.replicate_cycle 2 Examples.model_times Examples.yearly_cycle = None.
Proof. vm_compute. repeat split. Qed.

(** ** The reduction callbacks keep one entry per time index *)

Lemma norm_index_ok (len : nat) (i : Z) :
  - Z.of_nat len <= i < Z.of_nat len ->
  exists n, norm_index len i = Ok n /\ (n < len)%nat.
Proof.
  intros H. unfold norm_index.
  destruct (Z.leb_spec 0 i); destruct (Z.ltb_spec i (Z.of_nat len)); simpl;
    try lia.
  - exists (Z.to_nat i). split; [reflexivity|lia].
  - destruct (Z.leb_spec (- Z.of_nat len) i); destruct (Z.ltb_spec i 0); simpl;
      try lia.
    exists (Z.to_nat (Z.of_nat len + i)). split; [reflexivity|lia].
Qed.

Lemma py_index_ok {A : Type} (l : list A) (i : Z) :
  - Z.of_nat (length l) <= i < Z.of_nat (length l) ->
  exists x, py_index l i = Ok x.
Proof.
  intros H. unfold py_index.
  destruct (norm_index_ok _ _ H) as [n [-> Hn]]. cbn [bindR].
  destruct (nth_error l n) eqn:E; [eauto|].
  apply nth_error_None in E. lia.
Qed.

Lemma take_length {A : Type} (l : list A) (indices : list Z) (out : list A) :
  take l indices = Ok out -> length out = length indices.
Proof.
  revert out. induction indices as [|i rest IH]; intros out; simpl.
  - now intros [= <-].
  - destruct (py_index l i); [|discriminate]. cbn [bindR].
    destruct (take l rest) as [xs|]; [|discriminate]. cbn [bindR].
    intros [= <-]. simpl. f_equal. now apply IH.
Qed.

Lemma take_ok {A : Type} (l : list A) (indices : list Z) :
  valid_indices (length l) indices -> exists out, take l indices = Ok out.
Proof.
  induction 1 as [|i rest Hi _ IH]; simpl; [eauto|].
  destruct (py_index_ok l i Hi) as [x ->]. destruct IH as [xs ->].
  cbn [bindR]. eauto.
Qed.

Section XArrayFacts.

Variable Slab : Type.

Lemma isel_vars_along_time (vars vars' : list (string * XArray.DataArray Slab))
    (timeIndices : list Z) :
  XArray.isel_vars Slab vars timeIndices = Ok vars' ->
  forall name values, In (name, XArray.AlongTime values) vars' ->
    length values = length timeIndices.
Proof.
  revert vars'. induction vars as [|[n v] rest IH]; intros vars'; simpl.
  - intros [= <-] name values [].
  - destruct (XArray.isel_var Slab v timeIndices) as [v'|] eqn:Ev; [|discriminate].
    cbn [bindR].
    destruct (XArray.isel_vars Slab rest timeIndices) as [rest'|]; [|discriminate].
    cbn [bindR]. intros [= <-] name values [Hin|Hin].
    + injection Hin as _ ->. destruct v as [vs|d ns]; simpl in Ev.
      * destruct (take vs timeIndices) as [vs'|] eqn:Et; [|discriminate].
        injection Ev as <-. now apply take_length in Et.
      * discriminate.
    + now apply (IH rest' eq_refl name).
Qed.

Lemma isel_vars_ok (vars : list (string * XArray.DataArray Slab)) (len : nat)
    (timeIndices : list Z) :
  (forall name values, In (name, XArray.AlongTime values) vars ->
     length values = len) ->
  valid_indices len timeIndices ->
  exists vars', XArray.isel_vars Slab vars timeIndices = Ok vars'.
Proof.
  intros Hlen Hvalid. induction vars as [|[n v] rest IH]; simpl; [eauto|].
  assert (Hv : exists v', XArray.isel_var Slab v timeIndices = Ok v').
  { destruct v as [vs|d ns]; simpl; [|eauto].
    destruct (take_ok vs timeIndices) as [vs' ->]; [|cbn [bindR]; eauto].
    rewrite (Hlen n vs); [exact Hvalid|now left]. }
  destruct Hv as [v' ->]. cbn [bindR].
  destruct IH as [rest' ->]; [|cbn [bindR]; eauto].
  intros name values Hin. apply (Hlen name). now right.
Qed.

Lemma isel_vars_getitem (vars vars' : list (string * XArray.DataArray Slab))
    (timeIndices : list Z) (name : string) (values : list Slab) :
  XArray.isel_vars Slab vars timeIndices = Ok vars' ->
  XArray.getitem_vars Slab vars name = Ok (XArray.AlongTime values) ->
  exists values', XArray.getitem_vars Slab vars' name = Ok (XArray.AlongTime values') /\
    length values' = length timeIndices.
Proof.
  revert vars'. induction vars as [|[n v] rest IH]; intros vars'; simpl;
    [discriminate|].
  destruct (XArray.isel_var Slab v timeIndices) as [v'|] eqn:Ev; [|discriminate].
  cbn [bindR].
  destruct (XArray.isel_vars Slab rest timeIndices) as [rest'|]; [|discriminate].
  cbn [bindR]. intros [= <-]. simpl.
  destruct (String.eqb n name).
  - intros [= ->]. simpl in Ev.
    destruct (take values timeIndices) as [vs'|] eqn:Et; [|discriminate].
    injection Ev as <-. exists vs'. split; [reflexivity|now apply take_length in Et].
  - now apply IH.
Qed.

Lemma isel_spec (ds out : XArray.Dataset Slab) (timeIndices : list Z) :
  XArray.isel Slab ds timeIndices = Ok out ->
  length (XArray.Time out) = length timeIndices /\
  XArray.consistent Slab out /\
  XArray.sizes out = XArray.sizes ds /\
  XArray.isel_vars Slab (XArray.data_vars ds) timeIndices = Ok (XArray.data_vars out).
Proof.
  unfold XArray.isel.
  destruct (take (XArray.Time ds) timeIndices) as [times|] eqn:Et; [|discriminate].
  cbn [bindR].
  destruct (XArray.isel_vars Slab (XArray.data_vars ds) timeIndices) as [vars|] eqn:Ev;
    [|discriminate].
  cbn [bindR]. intros [= <-]. simpl.
  apply take_length in Et. repeat split; try assumption.
  intros name values Hin. simpl in *. rewrite Et.
  now apply (isel_vars_along_time _ _ _ Ev name).
Qed.

Lemma isel_ok (ds : XArray.Dataset Slab) (timeIndices : list Z) :
  XArray.consistent Slab ds ->
  valid_indices (length (XArray.Time ds)) timeIndices ->
  exists out, XArray.isel Slab ds timeIndices = Ok out.
Proof.
  intros Hc Hvalid. unfold XArray.isel.
  destruct (take_ok _ _ Hvalid) as [times ->]. cbn [bindR].
  destruct (isel_vars_ok (XArray.data_vars ds) _ _ Hc Hvalid) as [vars ->].
  cbn [bindR]. eauto.
Qed.

Lemma setitem_Time (ds out : XArray.Dataset Slab) (name : string)
    (v : XArray.DataArray Slab) :
  XArray.setitem Slab ds name v = Ok out -> XArray.Time out = XArray.Time ds.
Proof.
  unfold XArray.setitem. destruct v as [vs|d ns].
  - destruct (_ =? _)%nat; [|discriminate]. now intros [= <-].
  - destruct (XArray.sizes ds !! d) as [n|].
    + destruct (_ =? _)%nat; [|discriminate]. now intros [= <-].
    + now intros [= <-].
Qed.

End XArrayFacts.

Ltac bind_inv H :=
  repeat match type of H with
         | bindR ?c _ = Ok _ =>
             let E := fresh "E" in
             destruct c eqn:E; cbn [bindR] in H; [|discriminate H]
         end.

Section OHCCallbackFacts.

Variable F : Type.
Variable Slab : Type.
Variable fmul : F -> F -> F.
Variable scale : F -> Slab -> Slab.
Variable mul : Slab -> Slab -> Slab.

Lemma compute_ohc_part_length (self : OHC.Task F Slab) (timeIndices : list Z)
    (firstCall : bool) (out : XArray.Dataset Slab) :
  OHC._compute_ohc_part F Slab fmul scale mul self timeIndices firstCall = Ok out ->
  length (XArray.Time out) = length timeIndices.
Proof.
  unfold OHC._compute_ohc_part. intros H. bind_inv H.
  injection H as <-.
  match goal with
  | E1 : XArray.setitem _ _ "regionNames" _ = Ok _,
    E2 : XArray.setitem _ _ "ohc" _ = Ok _,
    E3 : XArray.isel _ _ _ = Ok _ |- _ =>
      rewrite (setitem_Time _ _ _ _ _ E1), (setitem_Time _ _ _ _ _ E2);
      exact (proj1 (isel_spec _ _ _ _ E3))
  end.
Qed.

Lemma compute_ohc_part_returns (self : OHC.Task F Slab) (timeIndices : list Z)
    (firstCall : bool) :
  OHC.ready F Slab self ->
  valid_indices (length (XArray.Time (OHC.ds self))) timeIndices ->
  is_ok (OHC._compute_ohc_part F Slab fmul scale mul self timeIndices firstCall).
Proof.
  intros ([cp Hcp] & [rho Hrho] & Hcons & Hvars & Hsize) Hvalid.
  unfold OHC._compute_ohc_part, OHC.getfloat.
  rewrite Hcp, Hrho. cbn [bindR].
  destruct (isel_ok Slab _ _ Hcons Hvalid) as [dsLocal Eisel].
  rewrite Eisel. cbn [bindR].
  destruct (isel_spec Slab _ _ _ Eisel) as (Hlen & _ & Hsizes & Evars).
  assert (Hget : forall name,
            In name [OHC.sumMaskVarName; OHC.avgAreaVarName; OHC.avgThickVarName;
                     "avgLayTemperatureAnomaly"%string] ->
            exists values,
              XArray.getitem Slab dsLocal name = Ok (XArray.AlongTime values) /\
              length values = length timeIndices).
  { intros name Hin. destruct (Hvars name Hin) as [values Hv].
    exact (isel_vars_getitem Slab _ _ _ _ _ Evars Hv). }
  destruct (Hget OHC.sumMaskVarName) as (m & -> & Hm); [simpl; auto|].
  destruct (Hget OHC.avgAreaVarName) as (a & -> & Ha); [simpl; auto|].
  destruct (Hget OHC.avgThickVarName) as (t & -> & Ht); [simpl; auto|].
  destruct (Hget "avgLayTemperatureAnomaly"%string) as (an & -> & Han);
    [simpl; auto 6|].
  cbn [bindR XArray.scale_array XArray.times_array].
  set (ohc := zip_with mul (zip_with mul (zip_with mul
                (map (scale (fmul rho cp)) m) a) t) an).
  assert (Hohc : length ohc = length (XArray.Time dsLocal)).
  { unfold ohc. rewrite !length_zip_with, length_map. lia. }
  assert (Eset : XArray.setitem Slab dsLocal "ohc" (XArray.AlongTime ohc) =
                 Ok {| XArray.sizes := XArray.sizes dsLocal;
                       XArray.Time := XArray.Time dsLocal;
                       XArray.data_vars :=
                         XArray.set_var Slab (XArray.data_vars dsLocal) "ohc"
                           (XArray.AlongTime ohc) |}).
  { unfold XArray.setitem. now rewrite (proj2 (Nat.eqb_eq _ _) Hohc). }
  rewrite Eset. cbn [bindR].
  unfold XArray.setitem. cbn [XArray.sizes XArray.Time].
  rewrite Hsizes.
  destruct (XArray.sizes (OHC.ds self) !! "nOceanRegionsTmp"%string) as [n|];
    [|exact I].
  subst n. rewrite Nat.eqb_refl. exact I.
Qed.

End OHCCallbackFacts.

(** C6.  Each reduction callback of the repository returns, for the time
    indices it is given, a dataset with exactly one [Time] entry per index:
    whatever it returns has that length, and it does return for every
    sequence of positions of the task's dataset (counted from either end),
    for either value of [firstCall]. *)
Theorem reduction_callbacks_time_length :
  (forall (Slab : Type) (self_ds : XArray.Dataset Slab) (timeIndices : list Z)
          (firstCall : bool),
     (forall out, SST._compute_sst_part self_ds timeIndices firstCall = Ok out ->
        length (XArray.Time out) = length timeIndices /\
        XArray.consistent Slab out) /\
     (XArray.consistent Slab self_ds ->
      valid_indices (length (XArray.Time self_ds)) timeIndices ->
      is_ok (SST._compute_sst_part self_ds timeIndices firstCall))) /\
  (forall (F Slab : Type) (fmul : F -> F -> F) (scale : F -> Slab -> Slab)
          (mul : Slab -> Slab -> Slab) (self : OHC.Task F Slab)
          (timeIndices : list Z) (firstCall : bool),
     (forall out,
        OHC._compute_ohc_part F Slab fmul scale mul self timeIndices firstCall = Ok out ->
        length (XArray.Time out) = length timeIndices) /\
     (OHC.ready F Slab self ->
      valid_indices (length (XArray.Time (OHC.ds self))) timeIndices ->
      is_ok (OHC._compute_ohc_part F Slab fmul scale mul self timeIndices firstCall))).
Proof.
  split.
  - intros Slab self_ds timeIndices firstCall. unfold SST._compute_sst_part. split.
    + intros out H. bind_inv H. injection H as <-.
      match goal with
      | E : XArray.isel _ _ _ = Ok _ |- _ =>
          destruct (isel_spec _ _ _ _ E) as (H1 & H2 & _); auto
      end.
    + intros Hc Hv. destruct (isel_ok Slab _ _ Hc Hv) as [out ->]. exact I.
  - intros F Slab fmul scale mul self timeIndices firstCall. split.
    + intros out. apply compute_ohc_part_length.
    + apply compute_ohc_part_returns.
Qed.

(** Both callbacks on three monthly entries: positions from either end
    for the first, the last two entries for the second. *)
Lemma reduction_callbacks_time_length_witness :
  (exists out,
     SST._compute_sst_part Examples.sst_dataset [0; 2; -1] true = Ok out /\
     length (XArray.Time out) = 3%nat /\ XArray.Time out = [15; 75; 75]) /\
  (exists out,
     OHC._compute_ohc_part Z Z Z.mul Z.mul Z.mul Examples.ohc_task [1; 2] false =
       Ok out /\
     length (XArray.Time out) = 2%nat /\
     XArray.getitem Z out "ohc" = Ok (XArray.AlongTime [24000; 48000])).
Proof.
  destruct reduction_callbacks_time_length as [Hsst Hohc].
  split.
  - destruct (SST._compute_sst_part Examples.sst_dataset [0; 2; -1] true)
      as [out|e] eqn:E; [|vm_compute in E; discriminate].
    exists out. split; [reflexivity|]. split.
    + exact (proj1 (proj1 (Hsst Z Examples.sst_dataset [0; 2; -1] true) out E)).
    + vm_compute in E. injection E as <-. reflexivity.
  - destruct (OHC._compute_ohc_part Z Z Z.mul Z.mul Z.mul Examples.ohc_task
                [1; 2] false) as [out|e] eqn:E; [|vm_compute in E; discriminate].
    exists out. split; [reflexivity|]. split.
    + exact (proj1 (Hohc Z Z Z.mul Z.mul Z.mul Examples.ohc_task [1; 2] false)
               out E).
    + vm_compute in E. injection E as <-. reflexivity.
Defined.

(** ** The time-series cache *)

Section CacheFacts.

Variable Fields : Type.
Variable yearOf : TimeSeries.Calendar -> Z -> Z.

Abbreviation Storage := (TimeSeries.Storage Fields).
Abbreviation CacheEntry := (TimeSeries.CacheEntry Fields).
Abbreviation Event := (TimeSeries.Event Fields).
Abbreviation ReductionFn := (TimeSeries.ReductionFn Fields).
Abbreviation compute_chunks := (TimeSeries.compute_chunks Fields).
Abbreviation cache_time_series := (TimeSeries.cache_time_series Fields yearOf).
Abbreviation missing_of := (TimeSeries.missing_of yearOf).
Abbreviation missing_chunks := (TimeSeries.missing_chunks yearOf).
Abbreviation chunk_indices := (TimeSeries.chunk_indices yearOf).
Abbreviation inspect := (TimeSeries.inspect Fields).
Abbreviation persisted := (TimeSeries.persisted Fields).
Abbreviation append_chunk := (TimeSeries.append_chunk Fields).

Lemma Calendar_eqb_eq (a b : TimeSeries.Calendar) :
  TimeSeries.Calendar_eqb a b = true <-> a = b.
Proof. destruct a, b; simpl; split; congruence. Qed.

Lemma inspect_calendar (calendar : TimeSeries.Calendar) (st : Storage) :
  TimeSeries.entryCalendar (inspect calendar st) = calendar.
Proof.
  unfold TimeSeries.inspect.
  destruct (TimeSeries.cacheFile st) as [| |entry]; try reflexivity.
  destruct (TimeSeries.Calendar_eqb _ _) eqn:E; [|reflexivity].
  now apply Calendar_eqb_eq.
Qed.

Lemma inspect_persisted (calendar : TimeSeries.Calendar) (entry : CacheEntry) :
  TimeSeries.entryCalendar entry = calendar ->
  inspect calendar (persisted entry) = entry.
Proof.
  intros H. unfold TimeSeries.inspect. simpl.
  now rewrite (proj2 (Calendar_eqb_eq _ _) H).
Qed.

Lemma covered_app (a b : list (Z * Z)) (year : Z) :
  TimeSeries.covered (a ++ b) year =
    TimeSeries.covered a year || TimeSeries.covered b year.
Proof. unfold TimeSeries.covered. apply existsb_app. Qed.

Lemma covered_In (spans : list (Z * Z)) (span : Z * Z) (year : Z) :
  In span spans -> TimeSeries.in_span span year = true ->
  TimeSeries.covered spans year = true.
Proof.
  intros Hin Hy. unfold TimeSeries.covered. apply existsb_exists. eauto.
Qed.

Lemma positions_where_ext (p q : Z -> bool) (timeValues : list Z) (i : Z) :
  (forall t, In t timeValues -> p t = q t) ->
  TimeSeries.positions_where p timeValues i =
    TimeSeries.positions_where q timeValues i.
Proof.
  revert i. induction timeValues as [|t rest IH]; intros i H; simpl; [reflexivity|].
  rewrite (H t) by now left. rewrite IH; [reflexivity|].
  intros x Hx. apply H. now right.
Qed.

Lemma positions_where_nil (p : Z -> bool) (timeValues : list Z) (i : Z) :
  TimeSeries.positions_where p timeValues i = [] <->
  (forall t, In t timeValues -> p t = false).
Proof.
  revert i. induction timeValues as [|t rest IH]; intros i; simpl.
  - split; [intros _ t []|reflexivity].
  - destruct (p t) eqn:E.
    + split; [discriminate|]. intros H. specialize (H t (or_introl eq_refl)).
      congruence.
    + rewrite IH. split.
      * intros H x [<-|Hx]; [exact E|now apply H].
      * intros H x Hx. apply H. now right.
Qed.

Lemma chunk_indices_nil (calendar : TimeSeries.Calendar) (timeValues : list Z)
    (cached : list (Z * Z)) (span : Z * Z) :
  chunk_indices calendar timeValues cached span = [] <->
  (forall t, In t timeValues ->
     TimeSeries.in_span span (yearOf calendar t) = true ->
     TimeSeries.covered cached (yearOf calendar t) = true).
Proof.
  unfold TimeSeries.chunk_indices. rewrite positions_where_nil.
  split; intros H t Hin.
  - intros Hs. specialize (H t Hin). rewrite Hs in H. simpl in H.
    now apply negb_false_iff in H.
  - destruct (TimeSeries.in_span span (yearOf calendar t)) eqn:Hs; [|reflexivity].
    simpl. apply negb_false_iff. now apply H.
Qed.

Lemma missing_of_In (calendar : TimeSeries.Calendar) (timeValues : list Z)
    (cached spans : list (Z * Z)) (span : Z * Z) :
  In span spans ->
  chunk_indices calendar timeValues cached span <> [] ->
  In span (map fst (missing_of calendar timeValues cached spans)).
Proof.
  intros Hin Hne. unfold TimeSeries.missing_of. apply in_map_iff.
  exists (span, chunk_indices calendar timeValues cached span).
  split; [reflexivity|]. apply filter_In. split.
  - apply in_map_iff. eauto.
  - simpl. destruct (chunk_indices calendar timeValues cached span);
      [congruence|reflexivity].
Qed.

Lemma missing_of_nil (calendar : TimeSeries.Calendar) (timeValues : list Z)
    (cached spans : list (Z * Z)) :
  (forall span, In span spans ->
     chunk_indices calendar timeValues cached span = []) ->
  missing_of calendar timeValues cached spans = [].
Proof.
  unfold TimeSeries.missing_of.
  induction spans as [|span rest IH]; intros H; simpl; [reflexivity|].
  rewrite (H span) by now left. simpl. apply IH.
  intros sp Hsp. apply H. now right.
Qed.

(** Once the missing chunks of a request are appended, none is missing. *)
Lemma missing_of_appended (calendar : TimeSeries.Calendar) (timeValues : list Z)
    (cached spans : list (Z * Z)) :
  missing_of calendar timeValues
    (cached ++ map fst (missing_of calendar timeValues cached spans)) spans = [].
Proof.
  apply missing_of_nil. intros span Hin. apply chunk_indices_nil.
  intros t Ht Hs. rewrite covered_app.
  destruct (TimeSeries.covered cached (yearOf calendar t)) eqn:Hc; [reflexivity|].
  simpl. apply covered_In with (span := span); [|exact Hs].
  apply missing_of_In; [exact Hin|].
  intros Hnil. pose proof (proj1 (chunk_indices_nil _ _ _ _) Hnil t Ht Hs).
  congruence.
Qed.

(** What a completed loop leaves: the calendar, the years of the chunks
    in order, the old rows first, and the last persisted record on disk. *)
Lemma compute_chunks_ok (reductionFn : ReductionFn)
    (chunks : list ((Z * Z) * list Z)) (entry final : CacheEntry)
    (st st' : Storage) (events : list Event) :
  compute_chunks reductionFn chunks entry st = (Ok final, st', events) ->
  TimeSeries.entryCalendar final = TimeSeries.entryCalendar entry /\
  TimeSeries.entryYears final = TimeSeries.entryYears entry ++ map fst chunks /\
  (exists added, TimeSeries.entryData final = TimeSeries.entryData entry ++ added) /\
  match chunks with
  | [] => st' = st /\ final = entry /\ events = []
  | _ :: _ => st' = persisted final
  end.
Proof.
  revert entry st st' events.
  induction chunks as [|[span idx] rest IH]; intros entry st st' events; simpl.
  - intros [= <- <- <-]. rewrite app_nil_r. repeat split; auto.
    exists []. now rewrite app_nil_r.
  - destruct (reductionFn idx _) as [part|e]; [|discriminate].
    destruct (compute_chunks reductionFn rest _ _) as [[r st1] evs] eqn:E.
    intros [= -> -> <-].
    destruct (IH _ _ _ _ E) as (Hcal & Hyears & [added Hdata] & Hst).
    simpl in *. repeat split.
    + exact Hcal.
    + rewrite Hyears, <- app_assoc. reflexivity.
    + exists (part ++ added). rewrite Hdata, <- app_assoc. reflexivity.
    + destruct rest; [|exact Hst]. destruct Hst as (-> & -> & _). reflexivity.
Qed.

(** C1.  Two calls of [cache_time_series] in a row with the same arguments,
    the cache file untouched in between: the second call returns the output
    of the first, leaves the storage as it found it, and does nothing (no
    reduction call, no write). *)
Theorem cache_time_series_idempotent (timeValues : list Z)
    (reductionFn : ReductionFn) (st st1 : Storage)
    (calendar : TimeSeries.Calendar) (yearsPerCacheUpdate : positive)
    (out : TimeSeries.Dataset Fields) (events : list Event) :
  cache_time_series timeValues reductionFn st calendar yearsPerCacheUpdate =
    (Ok out, st1, events) ->
  cache_time_series timeValues reductionFn st1 calendar yearsPerCacheUpdate =
    (Ok out, st1, []) /\
  TimeSeries.reduction_calls Fields [] = [].
Proof.
  intros H. split; [|reflexivity].
  unfold TimeSeries.cache_time_series in *.
  destruct timeValues as [|t0 rest]; [discriminate|].
  set (tvs := t0 :: rest) in *.
  destruct (compute_chunks reductionFn _ (inspect calendar st) st)
    as [[r st'] evs] eqn:E.
  destruct r as [final|e]; [|discriminate]. cbn [bindR] in H.
  injection H as <- -> ->.
  destruct (compute_chunks_ok _ _ _ _ _ _ _ E) as (Hcal & Hyears & _ & Hst).
  destruct (missing_chunks calendar yearsPerCacheUpdate tvs
              (TimeSeries.entryYears (inspect calendar st))) as [|c cs] eqn:EP.
  - destruct Hst as (-> & -> & _). rewrite EP. reflexivity.
  - subst st1. rewrite inspect_persisted
      by (rewrite Hcal; apply inspect_calendar).
    rewrite Hyears, <- EP.
    unfold TimeSeries.missing_chunks. subst tvs. cbv iota.
    rewrite missing_of_appended. reflexivity.
Qed.

Abbreviation computed_flags := (TimeSeries.computed_flags Fields).
Abbreviation lifetime := (TimeSeries.lifetime Fields yearOf).

Abbreviation started := (TimeSeries.started Fields).

Lemma nonempty_app_one {A : Type} (l : list A) (x : A) :
  TimeSeries.nonempty (l ++ [x]) = true.
Proof. destruct l; reflexivity. Qed.

Lemma computed_flags_app (a b : list Event) :
  computed_flags (a ++ b) = computed_flags a ++ computed_flags b.
Proof.
  induction a as [|ev a IH]; simpl; [reflexivity|].
  destruct ev as [idx flag [|]| |]; simpl; now rewrite IH.
Qed.

Lemma compute_chunks_flags (reductionFn : ReductionFn)
    (chunks : list ((Z * Z) * list Z)) (entry : CacheEntry) (st st' : Storage)
    (r : Res CacheEntry) (events : list Event) :
  compute_chunks reductionFn chunks entry st = (r, st', events) ->
  exists n,
    computed_flags events =
      TimeSeries.flags_from (TimeSeries.nonempty (TimeSeries.entryYears entry)) n /\
    match n with
    | O => st' = st
    | S _ => exists last,
        st' = persisted last /\
        TimeSeries.entryCalendar last = TimeSeries.entryCalendar entry /\
        TimeSeries.nonempty (TimeSeries.entryYears last) = true
    end.
Proof.
  revert entry st st' r events.
  induction chunks as [|[span idx] rest IH]; intros entry st st' r events; simpl.
  - intros [= <- <- <-]. exists 0%nat. split; [|reflexivity].
    unfold TimeSeries.flags_from. now destruct (TimeSeries.nonempty _).
  - destruct (reductionFn idx _) as [part|e].
    + destruct (compute_chunks reductionFn rest _ _) as [[r1 st1] evs] eqn:E.
      intros [= <- <- <-].
      destruct (IH _ _ _ _ _ E) as [n [Hflags Hst]].
      simpl in Hflags. rewrite nonempty_app_one in Hflags.
      exists (S n). split.
      * simpl. rewrite Hflags. unfold TimeSeries.flags_from.
        now destruct (TimeSeries.nonempty (TimeSeries.entryYears entry)).
      * destruct n as [|n].
        -- subst st1. eexists. split; [reflexivity|]. simpl.
           split; [reflexivity|apply nonempty_app_one].
        -- destruct Hst as [last (-> & Hcal & Hne)]. exists last. auto.
    + intros [= <- <- <-]. exists 0%nat. split; [|reflexivity].
      simpl. unfold TimeSeries.flags_from. now destruct (TimeSeries.nonempty _).
Qed.

Lemma cache_time_series_flags (timeValues : list Z) (reductionFn : ReductionFn)
    (st st' : Storage) (calendar : TimeSeries.Calendar)
    (yearsPerCacheUpdate : positive) (r : Res (TimeSeries.Dataset Fields))
    (events : list Event) :
  cache_time_series timeValues reductionFn st calendar yearsPerCacheUpdate =
    (r, st', events) ->
  exists n,
    computed_flags events = TimeSeries.flags_from (started calendar st) n /\
    match n with
    | O => st' = st
    | S _ => started calendar st' = true
    end.
Proof.
  unfold TimeSeries.cache_time_series.
  destruct timeValues as [|t0 rest].
  - intros [= <- <- <-]. exists 0%nat. split; [|reflexivity].
    unfold TimeSeries.flags_from. now destruct (started calendar st).
  - destruct (compute_chunks reductionFn _ (inspect calendar st) st)
      as [[r1 st1] evs] eqn:E.
    intros [= <- <- <-].
    destruct (compute_chunks_flags _ _ _ _ _ _ _ E) as [n [Hflags Hst]].
    exists n. split; [exact Hflags|].
    destruct n as [|n]; [exact Hst|].
    destruct Hst as [last (-> & Hcal & Hne)].
    unfold TimeSeries.started. rewrite inspect_persisted; [exact Hne|].
    rewrite Hcal. apply inspect_calendar.
Qed.

Lemma flags_from_started_app (n m : nat) :
  TimeSeries.flags_from true n ++ TimeSeries.flags_from true m =
    TimeSeries.flags_from true (n + m).
Proof. unfold TimeSeries.flags_from. now rewrite repeat_app. Qed.

Lemma lifetime_flags (calendar : TimeSeries.Calendar)
    (requests : list (TimeSeries.Request Fields)) (st : Storage) :
  exists n,
    computed_flags (lifetime calendar requests st) =
      TimeSeries.flags_from (started calendar st) n.
Proof.
  revert st. induction requests as [|request rest IH]; intros st; simpl.
  - exists 0%nat. unfold TimeSeries.flags_from. now destruct (started calendar st).
  - destruct (cache_time_series _ _ st calendar _) as [[r st'] evs] eqn:E.
    destruct (cache_time_series_flags _ _ _ _ _ _ _ _ E) as [n [Hflags Hst]].
    destruct (IH st') as [m Hrest].
    rewrite computed_flags_app, Hflags, Hrest.
    destruct n as [|n].
    + subst st'. exists m. unfold TimeSeries.flags_from at 1.
      now destruct (started calendar st).
    + rewrite Hst. destruct (started calendar st).
      * exists (S n + m)%nat. apply flags_from_started_app.
      * exists (S (n + m)). unfold TimeSeries.flags_from. simpl.
        now rewrite repeat_app.
Qed.

Lemma calls_returned_flags (events : list Event) :
  TimeSeries.calls_returned Fields events = true ->
  map snd (TimeSeries.reduction_calls Fields events) = computed_flags events.
Proof.
  induction events as [|ev rest IH]; simpl; [reflexivity|].
  destruct ev as [idx flag [|]| |]; simpl; intros H;
    try discriminate; now rewrite IH.
Qed.

(** C3.  Over the life of a cache file (any sequence of invocations under
    one calendar, from the first one that finds no file), the chunks
    computed carry [firstCall = true] for the first of them and
    [firstCall = false] for all others: the flag is set exactly once as soon
    as one chunk is computed; when no call of the reduction function raises,
    these are all the calls made. *)
Theorem firstCall_exactly_once (calendar : TimeSeries.Calendar)
    (requests : list (TimeSeries.Request Fields)) (st : Storage) :
  TimeSeries.cacheFile st = TimeSeries.Absent ->
  let events := lifetime calendar requests st in
  (computed_flags events = [] \/
   exists n, computed_flags events = true :: repeat false n) /\
  (computed_flags events <> [] ->
   count_occ bool_dec (computed_flags events) true = 1%nat) /\
  (TimeSeries.calls_returned Fields events = true ->
   map snd (TimeSeries.reduction_calls Fields events) = computed_flags events).
Proof.
  intros Habsent events.
  destruct (lifetime_flags calendar requests st) as [n Hflags].
  fold events in Hflags.
  assert (Hnot : started calendar st = false).
  { unfold TimeSeries.started, TimeSeries.inspect. now rewrite Habsent. }
  rewrite Hnot in Hflags. unfold TimeSeries.flags_from in Hflags.
  split; [|split].
  - destruct n as [|m]; [now left|right; eauto].
  - intros Hne. rewrite Hflags in *. destruct n as [|m]; [congruence|].
    simpl. f_equal. clear. induction m as [|m IH]; [reflexivity|exact IH].
  - apply calls_returned_flags.
Qed.

(** *** Interruptions *)

Abbreviation replay := (TimeSeries.replay Fields).
Abbreviation persists := (TimeSeries.persists Fields).
Abbreviation persisted_in_order := (TimeSeries.persisted_in_order Fields).

Lemma replay_app (st : Storage) (a b : list Event) :
  replay st (a ++ b) = replay (replay st a) b.
Proof. unfold TimeSeries.replay. apply fold_left_app. Qed.

(** The loop only reads the storage it starts from when nothing is missing. *)
Lemma compute_chunks_storage (reductionFn : ReductionFn)
    (chunks : list ((Z * Z) * list Z)) (entry final : CacheEntry)
    (st st' other : Storage) (events : list Event) :
  compute_chunks reductionFn chunks entry st = (Ok final, st', events) ->
  compute_chunks reductionFn chunks entry other =
    (Ok final, match chunks with [] => other | _ :: _ => st' end, events).
Proof.
  destruct chunks as [|[span idx] rest]; simpl.
  - now intros [= <- <- <-].
  - destruct (reductionFn idx _) as [part|e]; [|discriminate].
    destruct (compute_chunks reductionFn rest _ _) as [[r st1] evs].
    now intros [= -> -> <-].
Qed.

Lemma compute_chunks_in_order (reductionFn : ReductionFn)
    (chunks : list ((Z * Z) * list Z)) (entry final : CacheEntry)
    (st st' : Storage) (events : list Event) :
  compute_chunks reductionFn chunks entry st = (Ok final, st', events) ->
  persisted_in_order entry events /\ replay st events = st'.
Proof.
  revert entry st st' events.
  induction chunks as [|[span idx] rest IH]; intros entry st st' events; simpl.
  - intros [= <- <- <-]. split; [constructor|reflexivity].
  - destruct (reductionFn idx _) as [part|e]; [|discriminate].
    destruct (compute_chunks reductionFn rest _ _) as [[r st1] evs] eqn:E.
    intros [= -> -> <-].
    destruct (IH _ _ _ _ E) as [Hord Hrep].
    split; [now constructor|exact Hrep].
Qed.

(** Where an invocation that would have returned can be stopped: after
    [k] whole chunks and a part of the next one that has not put a new file
    in place. *)
Lemma compute_chunks_stopped (reductionFn : ReductionFn)
    (chunks : list ((Z * Z) * list Z)) (entry final : CacheEntry)
    (st st' : Storage) (events done rest : list Event) :
  compute_chunks reductionFn chunks entry st = (Ok final, st', events) ->
  events = done ++ rest ->
  exists k entry_k st_k kept remaining partial,
    compute_chunks reductionFn (firstn k chunks) entry st =
      (Ok entry_k, st_k, kept) /\
    compute_chunks reductionFn (skipn k chunks) entry_k st_k =
      (Ok final, st', remaining) /\
    events = kept ++ remaining /\
    done = kept ++ partial /\
    persists partial = 0%nat /\
    TimeSeries.cacheFile (replay st done) = TimeSeries.cacheFile st_k.
Proof.
  revert entry st st' events done rest.
  induction chunks as [|[span idx] tail IH];
    intros entry st st' events done rest H Hsplit.
  - simpl in H. injection H as <- <- <-.
    destruct done; [|discriminate]. destruct rest; [|discriminate].
    exists 0%nat, entry, st, [], [], []. repeat split.
  - pose proof H as Hall. simpl in H.
    destruct (reductionFn idx _) as [part|e] eqn:Ered; [|discriminate].
    destruct (compute_chunks reductionFn tail _ _) as [[r st1] evs] eqn:E.
    injection H as Hr Hst Hev. subst r st1.
    rewrite <- Hev in Hsplit.
    destruct done as [|d1 [|d2 [|d3 done']]].
    + exists 0%nat, entry, st, [], events, [].
      split; [reflexivity|]. split; [exact Hall|]. now repeat split.
    + injection Hsplit as Hd1 _. subst d1.
      exists 0%nat, entry, st, [], events,
        [TimeSeries.Reduce idx
           (negb (TimeSeries.nonempty (TimeSeries.entryYears entry))) true].
      split; [reflexivity|]. split; [exact Hall|]. now repeat split.
    + injection Hsplit as Hd1 Hd2 _. subst d1 d2.
      exists 0%nat, entry, st, [], events,
        [TimeSeries.Reduce idx
           (negb (TimeSeries.nonempty (TimeSeries.entryYears entry))) true;
         TimeSeries.WriteNew (append_chunk entry span part)].
      split; [reflexivity|]. split; [exact Hall|]. now repeat split.
    + injection Hsplit as Hd1 Hd2 Hd3 Htail. subst d1 d2 d3.
      destruct (IH _ _ _ _ _ _ E Htail)
        as (k & entry_k & st_k & kept & remaining & partial &
            Hk & Hrest & Hevs & Hdone & Hpers & Hfile).
      exists (S k), entry_k, st_k,
        (TimeSeries.Reduce idx
           (negb (TimeSeries.nonempty (TimeSeries.entryYears entry))) true ::
         TimeSeries.WriteNew (append_chunk entry span part) ::
         TimeSeries.Replace :: kept), remaining, partial.
      simpl firstn. simpl skipn. repeat split.
      * simpl. rewrite Ered, Hk. reflexivity.
      * exact Hrest.
      * rewrite <- Hev, Hevs. reflexivity.
      * rewrite Hdone. reflexivity.
      * exact Hpers.
      * exact Hfile.
Qed.

(** The chunks of a request do not overlap. *)
Lemma chunk_spans_disjoint (startYear endYear : Z) (yearsPerCacheUpdate : positive) :
  TimeSeries.pairwise_disjoint
    (TimeSeries.chunk_spans startYear endYear yearsPerCacheUpdate).
Proof.
  unfold TimeSeries.chunk_spans.
  generalize (Z.to_nat ((endYear - startYear) / Z.pos yearsPerCacheUpdate + 1)).
  intros n. generalize 0%nat as a.
  induction n as [|n IH]; intros a; simpl; [exact I|].
  split; [|apply IH].
  intros other year Hin Hy. apply in_map_iff in Hin as [j [<- Hj]].
  apply in_seq in Hj. unfold TimeSeries.in_span in *. simpl in *.
  apply andb_true_iff in Hy as [_ Hy]. apply Z.leb_le in Hy.
  apply andb_false_iff. left. apply Z.leb_gt. nia.
Qed.

Lemma chunk_indices_grown (calendar : TimeSeries.Calendar) (timeValues : list Z)
    (cached more : list (Z * Z)) (span : Z * Z) :
  chunk_indices calendar timeValues cached span = [] ->
  chunk_indices calendar timeValues (cached ++ more) span = [].
Proof.
  rewrite !chunk_indices_nil. intros H t Ht Hs.
  rewrite covered_app, (H t Ht Hs). reflexivity.
Qed.

Lemma chunk_indices_own (calendar : TimeSeries.Calendar) (timeValues : list Z)
    (cached more : list (Z * Z)) (span : Z * Z) :
  chunk_indices calendar timeValues ((cached ++ [span]) ++ more) span = [].
Proof.
  apply chunk_indices_nil. intros t Ht Hs.
  apply covered_In with (span := span); [|exact Hs].
  apply in_or_app. left. apply in_or_app. right. now left.
Qed.

Lemma missing_of_cons (calendar : TimeSeries.Calendar) (timeValues : list Z)
    (cached : list (Z * Z)) (span : Z * Z) (rest : list (Z * Z)) :
  missing_of calendar timeValues cached (span :: rest) =
    match chunk_indices calendar timeValues cached span with
    | [] => missing_of calendar timeValues cached rest
    | i :: more => (span, i :: more) :: missing_of calendar timeValues cached rest
    end.
Proof.
  unfold TimeSeries.missing_of. simpl.
  now destruct (chunk_indices calendar timeValues cached span).
Qed.

Lemma missing_of_other_span (calendar : TimeSeries.Calendar) (timeValues : list Z)
    (cached : list (Z * Z)) (span : Z * Z) (rest : list (Z * Z)) :
  (forall other year, In other rest ->
     TimeSeries.in_span span year = true -> TimeSeries.in_span other year = false) ->
  missing_of calendar timeValues (cached ++ [span]) rest =
    missing_of calendar timeValues cached rest.
Proof.
  intros Hd. unfold TimeSeries.missing_of. f_equal.
  apply map_ext_in. intros other Hin. f_equal.
  unfold TimeSeries.chunk_indices. apply positions_where_ext.
  intros t _. rewrite covered_app. simpl. rewrite orb_false_r.
  destruct (TimeSeries.in_span other (yearOf calendar t)) eqn:Ho; [|reflexivity].
  simpl. f_equal.
  destruct (TimeSeries.in_span span (yearOf calendar t)) eqn:Hs;
    [|now rewrite orb_false_r].
  rewrite (Hd other _ Hin Hs) in Ho. discriminate.
Qed.

(** With the first [k] missing chunks appended, the missing chunks are
    the others. *)
Lemma missing_of_after (calendar : TimeSeries.Calendar) (timeValues : list Z)
    (spans : list (Z * Z)) :
  TimeSeries.pairwise_disjoint spans ->
  forall (cached : list (Z * Z)) (k : nat),
    missing_of calendar timeValues
      (cached ++ map fst (firstn k (missing_of calendar timeValues cached spans)))
      spans =
    skipn k (missing_of calendar timeValues cached spans).
Proof.
  induction spans as [|span rest IH]; intros Hd cached k.
  - unfold TimeSeries.missing_of. simpl. now rewrite skipn_nil.
  - destruct Hd as [Hhead Hrest].
    rewrite (missing_of_cons _ _ cached).
    destruct (chunk_indices calendar timeValues cached span) as [|i more] eqn:Eidx.
    + rewrite missing_of_cons, (chunk_indices_grown _ _ _ _ _ Eidx).
      now apply IH.
    + destruct k as [|k].
      * simpl firstn. simpl map. rewrite app_nil_r, missing_of_cons, Eidx.
        reflexivity.
      * simpl firstn. simpl map. simpl skipn.
        replace (cached ++ span :: map fst
                   (firstn k (missing_of calendar timeValues cached rest)))
          with ((cached ++ [span]) ++ map fst
                  (firstn k (missing_of calendar timeValues cached rest)))
          by (now rewrite <- app_assoc).
        rewrite missing_of_cons, chunk_indices_own.
        rewrite <- (missing_of_other_span calendar timeValues cached span rest Hhead).
        now apply IH.
Qed.

Lemma inspect_cacheFile (calendar : TimeSeries.Calendar) (a b : Storage) :
  TimeSeries.cacheFile a = TimeSeries.cacheFile b ->
  inspect calendar a = inspect calendar b.
Proof. unfold TimeSeries.inspect. now intros ->. Qed.

(** An invocation started on the storage an interruption left does what
    was left to do. *)
Lemma resume_after_stop (timeValues : list Z) (reductionFn : ReductionFn)
    (st st' stopped : Storage) (calendar : TimeSeries.Calendar)
    (yearsPerCacheUpdate : positive) (out : TimeSeries.Dataset Fields)
    (events done rest : list Event) :
  cache_time_series timeValues reductionFn st calendar yearsPerCacheUpdate =
    (Ok out, st', events) ->
  events = done ++ rest ->
  TimeSeries.cacheFile stopped = TimeSeries.cacheFile (replay st done) ->
  (rest = [] -> stopped = replay st done) ->
  exists kept partial remaining,
    done = kept ++ partial /\ persists partial = 0%nat /\
    events = kept ++ remaining /\
    persisted_in_order (inspect calendar st) kept /\
    TimeSeries.cacheFile stopped = TimeSeries.cacheFile (replay st kept) /\
    cache_time_series timeValues reductionFn stopped calendar yearsPerCacheUpdate =
      (Ok out, st', remaining).
Proof.
  intros H Hsplit Hfile Hwhole.
  unfold TimeSeries.cache_time_series in *.
  destruct timeValues as [|t0 tl]; [discriminate|].
  set (tvs := t0 :: tl) in *.
  set (entry0 := inspect calendar st) in *.
  destruct (compute_chunks reductionFn _ entry0 st) as [[r st1] evs] eqn:E.
  destruct r as [final|e]; [|discriminate]. cbn [bindR] in H.
  injection H as <- -> ->.
  destruct (compute_chunks_stopped _ _ _ _ _ _ _ _ _ E Hsplit)
    as (k & entry_k & st_k & kept & remaining & partial &
        Hk & Hrest & Hevs & Hdone & Hpers & Hfile_k).
  destruct (compute_chunks_in_order _ _ _ _ _ _ _ Hk) as [Hord Hreplay].
  destruct (compute_chunks_ok _ _ _ _ _ _ _ Hk) as (Hcal & Hyears & _ & Hst_k).
  assert (Hstopped : TimeSeries.cacheFile stopped = TimeSeries.cacheFile st_k)
    by congruence.
  assert (Hinspect : inspect calendar stopped = entry_k).
  { rewrite (inspect_cacheFile calendar stopped st_k Hstopped).
    destruct (firstn k _).
    - destruct Hst_k as (-> & -> & _). reflexivity.
    - rewrite Hst_k. apply inspect_persisted. rewrite Hcal.
      apply inspect_calendar. }
  exists kept, partial, remaining.
  split; [exact Hdone|]. split; [exact Hpers|]. split; [exact Hevs|].
  split; [exact Hord|]. split; [now rewrite Hreplay|].
  rewrite Hinspect, Hyears.
  unfold TimeSeries.missing_chunks in *. subst tvs. cbv iota in *.
  rewrite (missing_of_after calendar (t0 :: tl) _
             (chunk_spans_disjoint _ _ _) (TimeSeries.entryYears entry0) k).
  rewrite (compute_chunks_storage _ _ _ _ _ _ stopped _ Hrest).
  cbn [bindR].
  destruct (skipn k _) as [|c cs] eqn:Eskip; [|reflexivity].
  simpl in Hrest. injection Hrest as _ Hst <-.
  rewrite app_nil_r in Hevs.
  rewrite Hevs, Hdone in Hsplit. rewrite <- app_assoc in Hsplit.
  rewrite <- (app_nil_r kept) in Hsplit at 1.
  apply app_inv_head in Hsplit. symmetry in Hsplit.
  apply app_eq_nil in Hsplit as [Hpartial Hnil_rest].
  rewrite (Hwhole Hnil_rest), Hdone, Hpartial, app_nil_r, Hreplay, Hst.
  reflexivity.
Qed.


(** *** Extending a cache *)

Abbreviation truncate := (TimeSeries.truncate Fields).
Abbreviation reduction_calls := (TimeSeries.reduction_calls Fields).

Lemma positions_where_In (p : Z -> bool) (timeValues : list Z) (i0 i : Z) :
  In i (TimeSeries.positions_where p timeValues i0) <->
  exists n t, i = i0 + Z.of_nat n /\ nth_error timeValues n = Some t /\ p t = true.
Proof.
  revert i0. induction timeValues as [|t rest IH]; intros i0; simpl.
  - split; [intros []|]. intros (n & x & _ & Hn & _). now destruct n.
  - assert (Hrest : In i (TimeSeries.positions_where p rest (i0 + 1)) <->
                    exists n x, i = i0 + Z.of_nat (S n) /\
                                nth_error rest n = Some x /\ p x = true).
    { rewrite IH. split; intros (n & x & Hi & Hn & Hp); exists n, x;
        (split; [lia|auto]). }
    destruct (p t) eqn:E; simpl; rewrite Hrest; split.
    + intros [<-|(n & x & Hi & Hn & Hp)].
      * exists 0%nat, t. split; [lia|auto].
      * exists (S n), x. auto.
    + intros ([|n] & x & Hi & Hn & Hp).
      * left. lia.
      * right. exists n, x. auto.
    + intros (n & x & Hi & Hn & Hp). exists (S n), x. auto.
    + intros ([|n] & x & Hi & Hn & Hp).
      * simpl in Hn. injection Hn as ->. congruence.
      * exists n, x. auto.
Qed.

(** Every year of the request lies in one of its chunks. *)
Lemma chunk_spans_cover (startYear endYear year : Z) (yearsPerCacheUpdate : positive) :
  startYear <= year <= endYear ->
  exists span,
    In span (TimeSeries.chunk_spans startYear endYear yearsPerCacheUpdate) /\
    TimeSeries.in_span span year = true.
Proof.
  intros Hy. unfold TimeSeries.chunk_spans.
  set (p := Z.pos yearsPerCacheUpdate).
  assert (Hp : 0 < p) by (unfold p; lia).
  set (i := (year - startYear) / p).
  assert (Hi : 0 <= i) by (apply Z.div_pos; lia).
  assert (Hle : i <= (endYear - startYear) / p)
    by (apply Z.div_le_mono; lia).
  pose proof (Z.mul_div_le (year - startYear) p Hp) as Hlo.
  pose proof (Z.mul_succ_div_gt (year - startYear) p Hp) as Hhi.
  fold i in Hlo, Hhi.
  exists (startYear + Z.of_nat (Z.to_nat i) * p,
          Z.min endYear (startYear + Z.of_nat (Z.to_nat i) * p + p - 1)).
  split.
  - apply in_map_iff. exists (Z.to_nat i). split; [reflexivity|].
    apply in_seq. lia.
  - unfold TimeSeries.in_span. simpl. rewrite Z2Nat.id by lia.
    apply andb_true_iff. split; apply Z.leb_le; nia.
Qed.

Lemma missing_of_In_iff (calendar : TimeSeries.Calendar) (timeValues : list Z)
    (cached spans : list (Z * Z)) (span : Z * Z) (indices : list Z) :
  In (span, indices) (missing_of calendar timeValues cached spans) <->
  In span spans /\ indices = chunk_indices calendar timeValues cached span /\
  indices <> [].
Proof.
  unfold TimeSeries.missing_of. rewrite filter_In, in_map_iff. simpl. split.
  - intros [(sp & [= <- <-] & Hin) Hne]. repeat split; auto.
    intros E. rewrite E in Hne. discriminate.
  - intros (Hin & -> & Hne). split; [eauto|].
    destruct (chunk_indices calendar timeValues cached span); [congruence|reflexivity].
Qed.

(** The calls of a loop that completes are those of its chunks, and every
    row added comes from one of them. *)
Lemma compute_chunks_calls (reductionFn : ReductionFn)
    (chunks : list ((Z * Z) * list Z)) (entry final : CacheEntry)
    (st st' : Storage) (events : list Event) :
  compute_chunks reductionFn chunks entry st = (Ok final, st', events) ->
  map fst (reduction_calls events) = map snd chunks /\
  exists added,
    TimeSeries.entryData final = TimeSeries.entryData entry ++ added /\
    forall row, In row added ->
      exists span indices firstCall part,
        In (span, indices) chunks /\
        reductionFn indices firstCall = Ok part /\ In row part.
Proof.
  revert entry st st' events.
  induction chunks as [|[span idx] rest IH]; intros entry st st' events; simpl.
  - intros [= <- <- <-]. split; [reflexivity|].
    exists []. split; [now rewrite app_nil_r|intros row []].
  - destruct (reductionFn idx _) as [part|e] eqn:Ered; [|discriminate].
    destruct (compute_chunks reductionFn rest _ _) as [[r st1] evs] eqn:E.
    intros [= -> -> <-].
    destruct (IH _ _ _ _ E) as [Hcalls (added & Hdata & Hrows)].
    split; [simpl; now rewrite Hcalls|].
    exists (part ++ added). split.
    + rewrite Hdata. simpl. now rewrite <- app_assoc.
    + intros row Hrow. apply in_app_or in Hrow as [Hrow|Hrow].
      * exists span, idx,
          (negb (TimeSeries.nonempty (TimeSeries.entryYears entry))), part.
        split; [now left|]. split; [exact Ered|exact Hrow].
      * destruct (Hrows row Hrow) as (sp & ix & fc & pt & Hin & Hred & Hpt).
        exists sp, ix, fc, pt. split; [now right|auto].
Qed.

Lemma persisted_in_order_returned (entry : CacheEntry) (events : list Event) :
  persisted_in_order entry events ->
  TimeSeries.calls_returned Fields events = true.
Proof. induction 1; simpl; auto. Qed.

(** What a call returns is the record it leaves, cut to the request. *)
Lemma returned_is_cached (t0 : Z) (rest : list Z) (reductionFn : ReductionFn)
    (st st' : Storage) (calendar : TimeSeries.Calendar)
    (yearsPerCacheUpdate : positive) (out : TimeSeries.Dataset Fields)
    (events : list Event) :
  cache_time_series (t0 :: rest) reductionFn st calendar yearsPerCacheUpdate =
    (Ok out, st', events) ->
  out = truncate t0 (List.last (t0 :: rest) t0)
          (TimeSeries.entryData (inspect calendar st')).
Proof.
  unfold TimeSeries.cache_time_series.
  destruct (compute_chunks reductionFn _ (inspect calendar st) st)
    as [[r st1] evs] eqn:E.
  destruct r as [final|e]; [|discriminate]. cbn [bindR].
  intros [= <- <- <-].
  destruct (compute_chunks_ok _ _ _ _ _ _ _ E) as (Hcal & _ & _ & Hst).
  destruct (missing_chunks _ _ _ _).
  - destruct Hst as (-> & -> & _). reflexivity.
  - rewrite Hst, inspect_persisted; [reflexivity|].
    rewrite Hcal. apply inspect_calendar.
Qed.

Lemma truncate_app (first last : Z) (a b : TimeSeries.Dataset Fields) :
  truncate first last (a ++ b) = truncate first last a ++ truncate first last b.
Proof. unfold TimeSeries.truncate. apply List.filter_app. Qed.

Lemma truncate_narrower (first last last' : Z) (data : TimeSeries.Dataset Fields) :
  last <= last' ->
  truncate first last (truncate first last' data) = truncate first last data.
Proof.
  intros Hle. unfold TimeSeries.truncate.
  induction data as [|row data IH]; simpl; [reflexivity|].
  destruct (Z.leb_spec first (TimeSeries.rowTime row));
    destruct (Z.leb_spec (TimeSeries.rowTime row) last');
    destruct (Z.leb_spec (TimeSeries.rowTime row) last); simpl;
    try (destruct (Z.leb_spec first (TimeSeries.rowTime row)); try lia);
    try (destruct (Z.leb_spec (TimeSeries.rowTime row) last); try lia);
    simpl; try lia; now rewrite IH.
Qed.

Lemma truncate_later (first last : Z) (data : TimeSeries.Dataset Fields) :
  (forall row, In row data -> last < TimeSeries.rowTime row) ->
  truncate first last data = [].
Proof.
  intros H. unfold TimeSeries.truncate.
  induction data as [|row data IH]; simpl; [reflexivity|].
  assert (Hrow : last < TimeSeries.rowTime row) by (apply H; now left).
  destruct (Z.leb_spec (TimeSeries.rowTime row) last); [lia|].
  rewrite andb_false_r. apply IH. intros r Hr. apply H. now right.
Qed.

Lemma take_In {A : Type} (l : list A) (indices : list Z) (out : list A) (x : A) :
  take l indices = Ok out -> In x out ->
  exists i, In i indices /\ py_index l i = Ok x.
Proof.
  revert out. induction indices as [|i rest IH]; intros out; simpl.
  - intros [= <-] [].
  - destruct (py_index l i) as [y|] eqn:Ey; [|discriminate]. cbn [bindR].
    destruct (take l rest) as [ys|]; [|discriminate]. cbn [bindR].
    intros [= <-] [<-|Hin].
    + exists i. auto.
    + destruct (IH ys eq_refl Hin) as (j & Hj & Hx). exists j. auto.
Qed.

Lemma py_index_app_new {A : Type} (old new : list A) (i : Z) (x : A) :
  Z.of_nat (length old) <= i ->
  py_index (old ++ new) i = Ok x -> In x new.
Proof.
  intros Hi. unfold py_index, norm_index.
  destruct ((0 <=? i) && (i <? Z.of_nat (length (old ++ new)))) eqn:E.
  - cbn [bindR]. destruct (nth_error (old ++ new) (Z.to_nat i)) as [y|] eqn:Ey;
      [|discriminate].
    intros [= <-]. rewrite nth_error_app2 in Ey by lia.
    eapply nth_error_In. exact Ey.
  - destruct (Z.ltb_spec i 0); [lia|]. rewrite andb_false_r. discriminate.
Qed.

Lemma cache_time_series_inv (t0 : Z) (rest : list Z) (reductionFn : ReductionFn)
    (st st' : Storage) (calendar : TimeSeries.Calendar)
    (yearsPerCacheUpdate : positive) (out : TimeSeries.Dataset Fields)
    (events : list Event) :
  cache_time_series (t0 :: rest) reductionFn st calendar yearsPerCacheUpdate =
    (Ok out, st', events) ->
  exists final,
    compute_chunks reductionFn
      (missing_of calendar (t0 :: rest)
         (TimeSeries.entryYears (inspect calendar st))
         (TimeSeries.chunk_spans (yearOf calendar t0)
            (yearOf calendar (List.last (t0 :: rest) t0)) yearsPerCacheUpdate))
      (inspect calendar st) st = (Ok final, st', events) /\
    out = truncate t0 (List.last (t0 :: rest) t0) (TimeSeries.entryData final) /\
    inspect calendar st' = final.
Proof.
  intros H. pose proof (returned_is_cached _ _ _ _ _ _ _ _ _ H) as Hout.
  unfold TimeSeries.cache_time_series, TimeSeries.missing_chunks in H.
  destruct (compute_chunks reductionFn _ (inspect calendar st) st)
    as [[r st1] evs] eqn:E.
  destruct r as [final|e]; [|discriminate]. cbn [bindR] in H.
  injection H as _ <- <-.
  exists final. split; [reflexivity|].
  destruct (compute_chunks_ok _ _ _ _ _ _ _ E) as (Hcal & _ & _ & Hst).
  assert (Hfinal : inspect calendar st1 = final).
  { destruct (missing_of _ _ _ _).
    - destruct Hst as (-> & -> & _). reflexivity.
    - rewrite Hst. apply inspect_persisted. rewrite Hcal. apply inspect_calendar. }
  split; [|exact Hfinal]. now rewrite <- Hfinal.
Qed.

Lemma last_of_appended {A : Type} (old new : list A) (d : A) :
  new <> [] -> In (List.last (old ++ new) d) new.
Proof.
  intros Hne. induction old as [|x old IH]; simpl.
  - destruct new as [|y new]; [congruence|].
    clear Hne. revert y. induction new as [|z new IHn]; intros y.
    + now left.
    + right. apply IHn.
  - destruct (old ++ new) eqn:E; [|exact IH].
    destruct old; simpl in E; [congruence|discriminate].
Qed.

Lemma covered_nil_years (spans : list (Z * Z)) (year : Z) :
  TimeSeries.covered spans year = true -> TimeSeries.nonempty spans = true.
Proof. destruct spans; [discriminate|reflexivity]. Qed.

(** C2.  A cache file that covers the years [Y0..Yk], left by a call for
    the time values [old]; a request for [old ++ new], the new values later
    than the old ones and in the years [Yk+1..Yk+2].  The extending call
    hands the reduction function the indices of the new time values and no
    other, never with [firstCall]; what it returns for the span of the
    original request is what the original call returned; the rows of the
    cache file stay in place, the new ones come after them. *)
Theorem incremental_extension (t0 : Z) (tl new : list Z)
    (reduce1 reduce2 : ReductionFn) (st0 st1 st2 : Storage)
    (calendar : TimeSeries.Calendar) (yearsPerCacheUpdate : positive)
    (out1 out2 : TimeSeries.Dataset Fields) (events1 events2 : list Event)
    (Y0 Yk : Z) :
  let old := t0 :: tl in
  cache_time_series old reduce1 st0 calendar yearsPerCacheUpdate =
    (Ok out1, st1, events1) ->
  TimeSeries.covers_exactly Fields calendar st1 Y0 Yk ->
  (forall t, In t old -> Y0 <= yearOf calendar t <= Yk) ->
  (forall t, In t new ->
     Yk + 1 <= yearOf calendar t <= Yk + 2 /\ List.last old t0 < t) ->
  yearOf calendar (List.last (old ++ new) t0) = Yk + 2 ->
  TimeSeries.keeps_times Fields (old ++ new) reduce2 ->
  cache_time_series (old ++ new) reduce2 st1 calendar yearsPerCacheUpdate =
    (Ok out2, st2, events2) ->
  (forall i,
     (exists indices firstCall,
        In (indices, firstCall) (reduction_calls events2) /\ In i indices) <->
     Z.of_nat (length old) <= i < Z.of_nat (length (old ++ new))) /\
  (forall indices firstCall,
     In (indices, firstCall) (reduction_calls events2) -> firstCall = false) /\
  truncate t0 (List.last old t0) out2 = out1 /\
  exists added,
    TimeSeries.entryData (inspect calendar st2) =
      TimeSeries.entryData (inspect calendar st1) ++ added.
Proof.
  intros old H1 Hcov Hold Hnew Hlast Hkeeps H2.
  pose proof (returned_is_cached _ _ _ _ _ _ _ _ _ H1) as Hout1.
  change (old ++ new) with (t0 :: (tl ++ new)) in H2.
  destruct (cache_time_series_inv _ _ _ _ _ _ _ _ _ H2)
    as (final & E & Hout2 & Hfinal).
  change (t0 :: (tl ++ new)) with (old ++ new) in *.
  set (entry1 := inspect calendar st1) in *.
  set (chunks := missing_of calendar (old ++ new) _ _) in E.
  destruct (compute_chunks_calls _ _ _ _ _ _ _ E) as [Hcalls (added & Hdata & Hrows)].
  destruct (compute_chunks_in_order _ _ _ _ _ _ _ E) as [Hord _].
  destruct (compute_chunks_flags _ _ _ _ _ _ _ E) as [n [Hflags _]].
  assert (Hstarted : TimeSeries.nonempty (TimeSeries.entryYears entry1) = true).
  { apply covered_nil_years with (year := Y0). apply Hcov.
    specialize (Hold t0 (or_introl eq_refl)). lia. }
  rewrite Hstarted in Hflags. unfold TimeSeries.flags_from in Hflags.
  (* the indices of a missing chunk are positions of new time values *)
  assert (Hnewpos : forall span indices i,
            In (span, indices) chunks -> In i indices ->
            Z.of_nat (length old) <= i < Z.of_nat (length (old ++ new))).
  { intros span indices i Hin Hi.
    apply missing_of_In_iff in Hin as (_ & -> & _).
    apply positions_where_In in Hi as (k & t & -> & Hk & Hp).
    apply andb_true_iff in Hp as [_ Hp]. apply negb_true_iff in Hp.
    assert (Hlt : (k < length (old ++ new))%nat)
      by (apply nth_error_Some; congruence).
    split; [|lia].
    destruct (Nat.lt_ge_cases k (length old)) as [Hk_old|]; [|lia].
    rewrite nth_error_app1 in Hk by exact Hk_old.
    apply nth_error_In in Hk. specialize (Hold t Hk).
    apply Hcov in Hold. fold entry1 in Hold. congruence. }
  split; [|split; [|split]].
  - intros i. split.
    + intros (indices & firstCall & Hin & Hi).
      assert (Hix : In indices (map snd chunks)).
      { rewrite <- Hcalls. apply in_map_iff. exists (indices, firstCall). auto. }
      apply in_map_iff in Hix as ([span ix] & Heq & Hchunk). simpl in Heq. subst ix.
      exact (Hnewpos span indices i Hchunk Hi).
    + intros Hi.
      assert (Hk : exists t, nth_error (old ++ new) (Z.to_nat i) = Some t).
      { destruct (nth_error (old ++ new) (Z.to_nat i)) eqn:Ek; [eauto|].
        apply nth_error_None in Ek. lia. }
      destruct Hk as [t Hk]. pose proof Hk as Hk_new.
      rewrite nth_error_app2 in Hk_new by lia. apply nth_error_In in Hk_new.
      destruct (Hnew t Hk_new) as [Hyear _].
      assert (Hnot : TimeSeries.covered (TimeSeries.entryYears entry1)
                       (yearOf calendar t) = false).
      { destruct (TimeSeries.covered _ _) eqn:Ec; [|reflexivity].
        apply Hcov in Ec. lia. }
      destruct (chunk_spans_cover (yearOf calendar t0)
                  (yearOf calendar (List.last (old ++ new) t0))
                  (yearOf calendar t) yearsPerCacheUpdate) as [span [Hspan Hin_span]].
      { specialize (Hold t0 (or_introl eq_refl)). lia. }
      assert (Hi_in : In i (chunk_indices calendar (old ++ new)
                              (TimeSeries.entryYears entry1) span)).
      { apply positions_where_In. exists (Z.to_nat i), t.
        split; [lia|]. split; [exact Hk|]. now rewrite Hin_span, Hnot. }
      assert (Hchunk : In (span, chunk_indices calendar (old ++ new)
                                   (TimeSeries.entryYears entry1) span) chunks).
      { apply missing_of_In_iff. split; [exact Hspan|]. split; [reflexivity|].
        intros Enil. rewrite Enil in Hi_in. exact Hi_in. }
      assert (Hix : In (chunk_indices calendar (old ++ new)
                          (TimeSeries.entryYears entry1) span)
                      (map fst (reduction_calls events2))).
      { rewrite Hcalls. apply in_map_iff. eexists. split; [|exact Hchunk].
        reflexivity. }
      apply in_map_iff in Hix as ([indices firstCall] & Heq & Hcall).
      simpl in Heq. subst indices. eauto.
  - intros indices firstCall Hin.
    assert (Hflag : In firstCall (map snd (reduction_calls events2))).
    { apply in_map_iff. exists (indices, firstCall). auto. }
    rewrite (calls_returned_flags _ (persisted_in_order_returned _ _ Hord)),
      Hflags in Hflag.
    now apply repeat_spec in Hflag.
  - rewrite Hout2, Hout1, Hdata.
    assert (Hle : List.last old t0 <= List.last (old ++ new) t0).
    { destruct new as [|x new']; [rewrite app_nil_r; lia|].
      assert (Hx : In (List.last (old ++ x :: new') t0) (x :: new'))
        by (apply last_of_appended; discriminate).
      destruct (Hnew _ Hx). lia. }
    rewrite (truncate_narrower _ _ _ _ Hle), truncate_app.
    rewrite (truncate_later t0 (List.last old t0) added); [apply app_nil_r|].
    intros row Hrow.
    destruct (Hrows row Hrow) as (span & indices & firstCall & part & Hchunk & Hred & Hpart).
    pose proof (Hkeeps indices firstCall part Hred) as Htimes. symmetry in Htimes.
    assert (Hin : In (TimeSeries.rowTime row) (map TimeSeries.rowTime part))
      by (apply in_map; exact Hpart).
    destruct (take_In _ _ _ _ Htimes Hin) as (i & Hi & Hpy).
    destruct (Hnewpos span indices i Hchunk Hi) as [Hpos _].
    apply py_index_app_new in Hpy; [|exact Hpos].
    now destruct (Hnew _ Hpy).
  - exists added. rewrite Hfinal. exact Hdata.
Qed.

End CacheFacts.

Lemma reduce_keeps_times (timeValues : list Z) :
  TimeSeries.keeps_times Z timeValues (Examples.reduce timeValues).
Proof.
  intros timeIndices firstCall part. unfold Examples.reduce.
  destruct (take timeValues timeIndices) as [times|e]; [|discriminate].
  cbn [bindR]. intros [= <-]. rewrite map_map. simpl. now rewrite map_id.
Qed.

(** The first request of [Examples], asked again. *)
Lemma cache_time_series_idempotent_witness :
  TimeSeries.cache_time_series Z Examples.years Examples.old_times
    (Examples.reduce Examples.old_times) Examples.first_storage
    TimeSeries.gregorian_noleap 2 =
    (Ok Examples.first_out, Examples.first_storage, []) /\
  TimeSeries.reduction_calls Z [] = [].
Proof.
  apply (cache_time_series_idempotent Z Examples.years Examples.old_times
           (Examples.reduce Examples.old_times) Examples.no_cache
           Examples.first_storage TimeSeries.gregorian_noleap 2
           Examples.first_out Examples.first_events).
  vm_compute. reflexivity.
Defined.

(** The two requests of [Examples]: four chunks computed, the first one
    with [firstCall]. *)
Lemma firstCall_exactly_once_witness :
  let events :=
    TimeSeries.lifetime Z Examples.years TimeSeries.gregorian_noleap
      Examples.two_requests Examples.no_cache in
  ((TimeSeries.computed_flags Z events = [] \/
    exists n, TimeSeries.computed_flags Z events = true :: repeat false n) /\
   (TimeSeries.computed_flags Z events <> [] ->
    count_occ bool_dec (TimeSeries.computed_flags Z events) true = 1%nat) /\
   (TimeSeries.calls_returned Z events = true ->
    map snd (TimeSeries.reduction_calls Z events) =
      TimeSeries.computed_flags Z events)) /\
  TimeSeries.computed_flags Z events = [true; false; false; false].
Proof.
  split.
  - apply (firstCall_exactly_once Z Examples.years TimeSeries.gregorian_noleap
             Examples.two_requests Examples.no_cache).
    reflexivity.
  - vm_compute. reflexivity.
Defined.


(** The two requests of [Examples]: the cache covers the years 1 to 3, the
    second request adds the years 4 and 5. *)
Lemma incremental_extension_witness :
  (forall i,
     (exists indices firstCall,
        In (indices, firstCall)
          (TimeSeries.reduction_calls Z Examples.second_events) /\
        In i indices) <->
     Z.of_nat (length Examples.old_times) <= i <
       Z.of_nat (length (Examples.old_times ++ Examples.new_times))) /\
  (forall indices firstCall,
     In (indices, firstCall)
       (TimeSeries.reduction_calls Z Examples.second_events) ->
     firstCall = false) /\
  TimeSeries.truncate Z 0 910 Examples.second_out = Examples.first_out /\
  exists added,
    TimeSeries.entryData
      (TimeSeries.inspect Z TimeSeries.gregorian_noleap Examples.second_storage) =
    TimeSeries.entryData
      (TimeSeries.inspect Z TimeSeries.gregorian_noleap Examples.first_storage) ++
    added.
Proof.
  apply (incremental_extension Z Examples.years 0 [180; 365; 545; 730; 910]
           Examples.new_times (Examples.reduce Examples.old_times)
           (Examples.reduce (Examples.old_times ++ Examples.new_times))
           Examples.no_cache Examples.first_storage Examples.second_storage
           TimeSeries.gregorian_noleap 2 Examples.first_out Examples.second_out
           Examples.first_events Examples.second_events 1 3).
  - vm_compute. reflexivity.
  - intros year.
    change (TimeSeries.entryYears
              (TimeSeries.inspect Z TimeSeries.gregorian_noleap
                 Examples.first_storage)) with [(1, 2); (3, 3)].
    unfold TimeSeries.covered, TimeSeries.in_span. simpl.
    rewrite orb_false_r, orb_true_iff, !andb_true_iff, !Z.leb_le. lia.
  - intros t Ht. simpl in Ht.
    repeat (destruct Ht as [<-|Ht]; [vm_compute; split; discriminate|]).
    contradiction.
  - intros t Ht. simpl in Ht.
    repeat (destruct Ht as [<-|Ht];
            [vm_compute; repeat split; discriminate|]).
    contradiction.
  - vm_compute. reflexivity.
  - apply reduce_keeps_times.
  - vm_compute. reflexivity.
Defined.

Example cache_runs :
  TimeSeries.reduction_calls Z Examples.first_events =
    [([0; 1; 2; 3], true); ([4; 5], false)] /\
  TimeSeries.reduction_calls Z Examples.second_events =
    [([6; 7], false); ([8; 9], false)] /\
  map TimeSeries.rowTime Examples.second_out =
    Examples.old_times ++ Examples.new_times.
Proof. vm_compute. repeat split. Qed.

(** ** The climatology cache *)

Lemma months_eqb_eq (a b : list Z) : Climatology.months_eqb a b = true <-> a = b.
Proof.
  revert b. induction a as [|x a IH]; intros [|y b]; simpl;
    try (split; [discriminate|congruence]); [tauto|].
  rewrite andb_true_iff, Z.eqb_eq, IH. split.
  - intros [-> ->]. reflexivity.
  - intros [= -> ->]. auto.
Qed.

Lemma MonthSet_eqb_eq (a b : Climatology.MonthSet) :
  Climatology.MonthSet_eqb a b = true <-> a = b.
Proof.
  unfold Climatology.MonthSet_eqb.
  rewrite andb_true_iff, String.eqb_eq, months_eqb_eq.
  destruct a, b; simpl. split.
  - intros [-> ->]. reflexivity.
  - intros [= -> ->]. auto.
Qed.

Lemma reusable_iff (artifact : Climatology.Artifact)
    (dataset : Climatology.Dataset) (monthSet : Climatology.MonthSet) :
  Climatology.reusable artifact dataset monthSet = true <->
  Climatology.cachedMonthSet artifact = monthSet /\
  fst (Climatology.cachedRange artifact) <= fst (Climatology.dateRange dataset) /\
  snd (Climatology.dateRange dataset) <= snd (Climatology.cachedRange artifact).
Proof.
  unfold Climatology.reusable, Climatology.covers.
  rewrite !andb_true_iff, MonthSet_eqb_eq, !Z.leb_le. tauto.
Qed.

(** C5.  [cache_climatologies] returns the cached averaged fields as they
    are, reading and computing nothing and leaving the store alone, exactly
    when the artifact at the cache path records the requested month set and a
    date range that covers the requested one.  Every other request, a date
    range that only overlaps the cached one included, is a full miss: the
    result is the climatology of the whole dataset, whatever the store held,
    and it is written over the old artifact. *)
Theorem superset_reuse_policy (dataset : Climatology.Dataset)
    (monthSet : Climatology.MonthSet) (cachePathPrefix : string)
    (store : gmap string Climatology.Artifact) :
  (forall artifact,
     store !! cachePathPrefix = Some artifact ->
     Climatology.cachedMonthSet artifact = monthSet ->
     fst (Climatology.cachedRange artifact) <= fst (Climatology.dateRange dataset) ->
     snd (Climatology.dateRange dataset) <= snd (Climatology.cachedRange artifact) ->
     Climatology.cache_climatologies dataset monthSet cachePathPrefix store =
       (Climatology.averaged artifact, store, [])) /\
  ((forall artifact,
      store !! cachePathPrefix = Some artifact ->
      ~ (Climatology.cachedMonthSet artifact = monthSet /\
         fst (Climatology.cachedRange artifact) <=
           fst (Climatology.dateRange dataset) /\
         snd (Climatology.dateRange dataset) <=
           snd (Climatology.cachedRange artifact))) ->
   Climatology.cache_climatologies dataset monthSet cachePathPrefix store =
     (Climatology.compute_climatology dataset monthSet,
      <[cachePathPrefix :=
          {| Climatology.cachedMonthSet := monthSet;
             Climatology.cachedRange := Climatology.dateRange dataset;
             Climatology.averaged :=
               Climatology.compute_climatology dataset monthSet |}]> store,
      [Climatology.ReadRaw; Climatology.Compute; Climatology.WriteArtifact])).
Proof.
  unfold Climatology.cache_climatologies. split.
  - intros artifact -> Hset Hlo Hhi.
    now rewrite (proj2 (reusable_iff artifact dataset monthSet)).
  - intros Hmiss. destruct (store !! cachePathPrefix) as [artifact|]; [|reflexivity].
    destruct (Climatology.reusable artifact dataset monthSet) eqn:E; [|reflexivity].
    apply reusable_iff in E. exfalso. exact (Hmiss artifact eq_refl E).
Qed.

(** The cache built for "ANN" over 2000-2010: reused for 2002-2008, not
    for 2000-2012, not for another month set. *)
Lemma superset_reuse_policy_witness :
  Climatology.cache_climatologies (Examples.yearly 2002 2008) Examples.ANN "mht"
    Examples.store_2000_2010 =
    (Climatology.compute_climatology (Examples.yearly 2000 2010) Examples.ANN,
     Examples.store_2000_2010, []) /\
  fst (fst (Climatology.cache_climatologies (Examples.yearly 2000 2012)
              Examples.ANN "mht" Examples.store_2000_2010)) =
    Climatology.compute_climatology (Examples.yearly 2000 2012) Examples.ANN /\
  snd (Climatology.cache_climatologies (Examples.yearly 2000 2012)
         Examples.ANN "mht" Examples.store_2000_2010) =
    [Climatology.ReadRaw; Climatology.Compute; Climatology.WriteArtifact] /\
  snd (Climatology.cache_climatologies (Examples.yearly 2002 2008)
         Examples.JFM "mht" Examples.store_2000_2010) =
    [Climatology.ReadRaw; Climatology.Compute; Climatology.WriteArtifact].
Proof.
  split; [|split; [|split]].
  - apply (proj1 (superset_reuse_policy (Examples.yearly 2002 2008) Examples.ANN
                    "mht" Examples.store_2000_2010)
             {| Climatology.cachedMonthSet := Examples.ANN;
                Climatology.cachedRange := (2000, 2010);
                Climatology.averaged :=
                  Climatology.compute_climatology (Examples.yearly 2000 2010)
                    Examples.ANN |}).
    + unfold Examples.store_2000_2010, Climatology.cache_climatologies.
      rewrite lookup_empty. simpl. apply lookup_insert_eq.
    + reflexivity.
    + simpl. lia.
    + simpl. lia.
  - rewrite (proj2 (superset_reuse_policy (Examples.yearly 2000 2012) Examples.ANN
                      "mht" Examples.store_2000_2010)); [reflexivity|].
    intros artifact Hlookup (_ & _ & Hhi).
    unfold Examples.store_2000_2010, Climatology.cache_climatologies in Hlookup.
    rewrite lookup_empty in Hlookup. simpl in Hlookup.
    rewrite lookup_insert_eq in Hlookup. injection Hlookup as <-.
    simpl in Hhi. lia.
  - rewrite (proj2 (superset_reuse_policy (Examples.yearly 2000 2012) Examples.ANN
                      "mht" Examples.store_2000_2010)); [reflexivity|].
    intros artifact Hlookup (_ & _ & Hhi).
    unfold Examples.store_2000_2010, Climatology.cache_climatologies in Hlookup.
    rewrite lookup_empty in Hlookup. simpl in Hlookup.
    rewrite lookup_insert_eq in Hlookup. injection Hlookup as <-.
    simpl in Hhi. lia.
  - rewrite (proj2 (superset_reuse_policy (Examples.yearly 2002 2008) Examples.JFM
                      "mht" Examples.store_2000_2010)); [reflexivity|].
    intros artifact Hlookup (Hset & _ & _).
    unfold Examples.store_2000_2010, Climatology.cache_climatologies in Hlookup.
    rewrite lookup_empty in Hlookup. simpl in Hlookup.
    rewrite lookup_insert_eq in Hlookup. injection Hlookup as <-.
    simpl in Hset. discriminate.
Defined.

Example climatology_values :
  Climatology.compute_climatology (Examples.yearly 2000 2010) Examples.ANN
    = [(2005 * 365 * 11 # 1) / (365 * 11 # 1)]%Q.
Proof. vm_compute. reflexivity. Qed.

(** [seaice_timeseries] on the same empty discovery stops at the same
    progress message. *)
Example seaice_timeseries_empty_input :
  Legacy.seaice_timeseries Examples.no_input_env (Some Examples.stream_map)
    (fun _ => Ok ["iceAreaCellNH.png"%string]) =
    Raise (IndexError "index out of range").
Proof. vm_compute. reflexivity. Qed.

(** * Further properties of the modelled code *)

(** ** Set-up of the time-series tasks *)

Lemma region_files_spec (tag mainRunName plotsDir : string) (regions : list string)
    (xml : list string) (prefixes : gmap string string) :
  fst (Shared.region_files tag mainRunName plotsDir regions xml prefixes) =
    xml ++ map (fun region =>
                  (plotsDir ++ "/" ++ (tag ++ region ++ "_" ++ mainRunName ++ ".png")
                   ++ ".xml")%string) regions /\
  (forall region, In region regions ->
     snd (Shared.region_files tag mainRunName plotsDir regions xml prefixes)
       !! region = Some (tag ++ region ++ "_" ++ mainRunName ++ ".png")%string) /\
  (forall region, ~ In region regions ->
     snd (Shared.region_files tag mainRunName plotsDir regions xml prefixes)
       !! region = prefixes !! region).
Proof.
  revert xml prefixes.
  induction regions as [|r rest IH]; intros xml prefixes.
  - cbn [Shared.region_files map fst snd]. rewrite app_nil_r.
    repeat split; auto. intros region [].
  - cbn [Shared.region_files map]. cbv zeta.
    destruct (IH (xml ++ [(plotsDir ++ "/" ++
                           (tag ++ r ++ "_" ++ mainRunName ++ ".png") ++ ".xml")%string])
                (<[r := (tag ++ r ++ "_" ++ mainRunName ++ ".png")%string]> prefixes))
      as (Hxml & Hin & Hout).
    split; [|split].
    + rewrite Hxml, <- app_assoc. reflexivity.
    + intros region [<-|Hrest].
      * destruct (in_dec string_dec r rest) as [Hr|Hr].
        -- now apply Hin.
        -- rewrite (Hout r Hr). apply lookup_insert_eq.
      * now apply Hin.
    + intros region Hnot. rewrite Hout by (intros Hr; apply Hnot; now right).
      apply lookup_insert_ne. intros ->. apply Hnot. now left.
Qed.

(** What a set-up that succeeds has read and stored. *)
Lemma time_series_setup_inv (t : Shared.AnalysisTask) (taskSection tag : string)
    (s : Shared.TaskSetup) :
  Shared.time_series_setup t taskSection tag = Ok s ->
  exists mainRunName regions indices selected,
    Shared.readpath_between (Shared.historyStreams t)
      "timeSeriesStatsMonthlyOutput" (Shared.startDate s) (Shared.endDate s)
      (Shared.calendar t) = Ok (Shared.inputFiles s) /\
    Shared.inputFiles s <> [] /\
    Shared.get (Shared.config t) "runs" "mainRunName" = Ok mainRunName /\
    Shared.getNames (Shared.config t) "regions" "regions" = Ok regions /\
    Shared.getIndices (Shared.config t) taskSection "regionIndicesToPlot" =
      Ok indices /\
    take regions indices = Ok selected /\
    (Shared.xmlFileNames s, Shared.filePrefixes s) =
      Shared.region_files tag mainRunName (Shared.plotsDirectory t) selected [] ∅.
Proof.
  unfold Shared.time_series_setup. intros H. bind_inv H.
  destruct (length _ =? 0)%nat eqn:Elen in H; [discriminate|].
  bind_inv H.
  destruct (Shared.region_files _ _ _ _ _ _) as [xml prefixes] eqn:Efiles.
  injection H as <-. simpl.
  match goal with
  | E1 : Shared.readpath_between _ _ _ _ _ = Ok ?files,
    E2 : Shared.get _ "runs" "mainRunName" = Ok ?main,
    E3 : Shared.getNames _ _ _ = Ok ?regions,
    E4 : Shared.getIndices _ _ _ = Ok ?indices,
    E5 : take _ _ = Ok ?selected |- _ =>
      exists main, regions, indices, selected; repeat split; auto
  end.
  intros ->. discriminate.
Qed.

(** X1.  A set-up of the heat-content or surface-temperature task that
    succeeds has stored a non-empty list of input files, the one discovery
    returned for the dates it stored: [inputFiles[0]] and [inputFiles[-1]] in
    [run] cannot fail. *)
Theorem setup_keeps_input_files (t : Shared.AnalysisTask) (s : Shared.TaskSetup) :
  OHC.setup_and_check t = Ok s \/ SST.setup_and_check t = Ok s ->
  Shared.inputFiles s <> [] /\
  Shared.readpath_between (Shared.historyStreams t)
    "timeSeriesStatsMonthlyOutput" (Shared.startDate s) (Shared.endDate s)
    (Shared.calendar t) = Ok (Shared.inputFiles s) /\
  Legacy.print_reading_files (Shared.inputFiles s) = Ok tt.
Proof.
  intros H.
  assert (Hsetup : exists taskSection tag,
            Shared.time_series_setup t taskSection tag = Ok s).
  { destruct H as [H|H]; unfold OHC.setup_and_check, SST.setup_and_check in H;
      bind_inv H; eauto. }
  destruct Hsetup as (taskSection & tag & Hsetup).
  destruct (time_series_setup_inv _ _ _ _ Hsetup)
    as (main & regions & indices & selected & Hfiles & Hne & _).
  split; [exact Hne|]. split; [exact Hfiles|].
  unfold Legacy.print_reading_files.
  destruct (py_index_ok (Shared.inputFiles s) 0) as [x ->].
  { destruct (Shared.inputFiles s); [congruence|simpl; lia]. }
  destruct (py_index_ok (Shared.inputFiles s) (-1)) as [y ->].
  { destruct (Shared.inputFiles s); [congruence|simpl; lia]. }
  reflexivity.
Qed.

Lemma take_serves {A : Type} (l : list A) (indices : list Z) (out : list A) :
  take l indices = Ok out ->
  forall i, In i indices -> exists x, In x out /\ py_index l i = Ok x.
Proof.
  revert out. induction indices as [|j rest IH]; intros out; simpl.
  - intros _ i [].
  - destruct (py_index l j) as [x|] eqn:Ex; [|discriminate]. cbn [bindR].
    destruct (take l rest) as [xs|]; [|discriminate]. cbn [bindR].
    intros [= <-] i [<-|Hi].
    + exists x. split; [now left|exact Ex].
    + destruct (IH xs eq_refl i Hi) as (y & Hy & Hpy).
      exists y. split; [now right|exact Hpy].
Qed.

Lemma time_series_setup_serves (t : Shared.AnalysisTask) (taskSection tag : string)
    (s : Shared.TaskSetup) :
  Shared.time_series_setup t taskSection tag = Ok s ->
  exists mainRunName regions indices,
    Shared.get (Shared.config t) "runs" "mainRunName" = Ok mainRunName /\
    Shared.getNames (Shared.config t) "regions" "regions" = Ok regions /\
    Shared.getIndices (Shared.config t) taskSection "regionIndicesToPlot" =
      Ok indices /\
    length (Shared.xmlFileNames s) = length indices /\
    forall i, In i indices ->
      exists region,
        py_index regions i = Ok region /\
        Shared.filePrefixes s !! region =
          Some (tag ++ region ++ "_" ++ mainRunName ++ ".png")%string /\
        In (Shared.plotsDirectory t ++ "/" ++
            (tag ++ region ++ "_" ++ mainRunName ++ ".png") ++ ".xml")%string
           (Shared.xmlFileNames s).
Proof.
  intros H.
  destruct (time_series_setup_inv _ _ _ _ H)
    as (main & regions & indices & selected & _ & _ & Hmain & Hregions & Hind &
        Htake & Hfiles).
  destruct (region_files_spec tag main (Shared.plotsDirectory t) selected [] ∅)
    as (Hxml & Hin & _).
  rewrite <- Hfiles in Hxml, Hin. simpl in Hxml, Hin.
  exists main, regions, indices. repeat split; auto.
  - rewrite Hxml, length_map. apply take_length in Htake. exact Htake.
  - intros i Hi. destruct (take_serves _ _ _ Htake i Hi) as (region & Hsel & Hpy).
    exists region. split; [exact Hpy|]. split; [now apply Hin|].
    rewrite Hxml. apply in_map_iff. exists region. auto.
Qed.

(** X2.  After a set-up that succeeds, every region index the task is
    configured to plot names a region, [filePrefixes] holds the file prefix
    of that region ([ohc_<region>_<run>.png], [sst_<region>_<run>.png]) and
    [xmlFileNames] its XML file; there is one XML file per index.  The
    look-ups [regions[regionIndex]] and [self.filePrefixes[region]] of [run]
    are served. *)
Theorem setup_serves_run (t : Shared.AnalysisTask) (s : Shared.TaskSetup)
    (taskSection tag : string) :
  (OHC.setup_and_check t = Ok s /\ taskSection = "timeSeriesOHC"%string /\
   tag = "ohc_"%string) \/
  (SST.setup_and_check t = Ok s /\ taskSection = "timeSeriesSST"%string /\
   tag = "sst_"%string) ->
  exists mainRunName regions indices,
    Shared.get (Shared.config t) "runs" "mainRunName" = Ok mainRunName /\
    Shared.getNames (Shared.config t) "regions" "regions" = Ok regions /\
    Shared.getIndices (Shared.config t) taskSection "regionIndicesToPlot" =
      Ok indices /\
    length (Shared.xmlFileNames s) = length indices /\
    forall i, In i indices ->
      exists region,
        py_index regions i = Ok region /\
        Python.dict_get (Shared.filePrefixes s) region =
          Ok (tag ++ region ++ "_" ++ mainRunName ++ ".png")%string /\
        In (Shared.plotsDirectory t ++ "/" ++
            (tag ++ region ++ "_" ++ mainRunName ++ ".png") ++ ".xml")%string
           (Shared.xmlFileNames s).
Proof.
  intros H.
  assert (Hsetup : Shared.time_series_setup t taskSection tag = Ok s).
  { destruct H as [(H & -> & ->)|(H & -> & ->)];
      unfold OHC.setup_and_check, SST.setup_and_check in H; bind_inv H; exact H. }
  destruct (time_series_setup_serves _ _ _ _ Hsetup)
    as (main & regions & indices & Hmain & Hregions & Hind & Hlen & Hserve).
  exists main, regions, indices. repeat split; auto.
  intros i Hi. destruct (Hserve i Hi) as (region & Hpy & Hprefix & Hxml).
  exists region. unfold Python.dict_get. rewrite Hprefix. auto.
Qed.

Lemma ohc_setup_of_task : OHC.setup_and_check Cases.task = Ok Cases.ohc_setup.
Proof. vm_compute. reflexivity. Qed.

(** The task of [Cases]: two regions, [global] and [arctic]. *)
Lemma setup_serves_run_witness :
  exists mainRunName regions indices,
    Shared.get (Shared.config Cases.task) "runs" "mainRunName" = Ok mainRunName /\
    Shared.getNames (Shared.config Cases.task) "regions" "regions" = Ok regions /\
    Shared.getIndices (Shared.config Cases.task) "timeSeriesOHC"
      "regionIndicesToPlot" = Ok indices /\
    length (Shared.xmlFileNames Cases.ohc_setup) = length indices /\
    forall i, In i indices ->
      exists region,
        py_index regions i = Ok region /\
        Python.dict_get (Shared.filePrefixes Cases.ohc_setup) region =
          Ok ("ohc_" ++ region ++ "_" ++ mainRunName ++ ".png")%string /\
        In (Shared.plotsDirectory Cases.task ++ "/" ++
            ("ohc_" ++ region ++ "_" ++ mainRunName ++ ".png") ++ ".xml")%string
           (Shared.xmlFileNames Cases.ohc_setup).
Proof.
  apply (setup_serves_run Cases.task Cases.ohc_setup "timeSeriesOHC" "ohc_").
  left. split; [exact ohc_setup_of_task|]. split; reflexivity.
Defined.

Lemma setup_keeps_input_files_witness :
  Shared.inputFiles Cases.ohc_setup <> [] /\
  Shared.readpath_between (Shared.historyStreams Cases.task)
    "timeSeriesStatsMonthlyOutput" (Shared.startDate Cases.ohc_setup)
    (Shared.endDate Cases.ohc_setup) (Shared.calendar Cases.task) =
    Ok (Shared.inputFiles Cases.ohc_setup) /\
  Legacy.print_reading_files (Shared.inputFiles Cases.ohc_setup) = Ok tt.
Proof.
  apply (setup_keeps_input_files Cases.task Cases.ohc_setup).
  left. exact ohc_setup_of_task.
Defined.

(** ** The plotting loops *)

Lemma for_each_counts {A : Type} (body : A -> Res (list Plots.Output))
    (items : list A) (p x : nat) :
  (forall item outs, body item = Ok outs -> Plots.plots_in outs = p /\ Plots.xml_in outs = x) ->
  exists done,
    (done <= length items)%nat /\
    (snd (Plots.for_each body items) = Ok tt -> done = length items) /\
    Plots.plots_in (fst (Plots.for_each body items)) = (done * p)%nat /\
    Plots.xml_in (fst (Plots.for_each body items)) = (done * x)%nat.
Proof.
  intros Hbody. induction items as [|item rest IH]; simpl.
  - exists 0%nat. repeat split; auto.
  - destruct (body item) as [outs|e] eqn:E.
    + destruct (Plots.for_each body rest) as [more r].
      destruct IH as (done & Hle & Hok & Hp & Hx). simpl in *.
      destruct (Hbody item outs E) as [Hp1 Hx1].
      exists (S done). unfold Plots.plots_in, Plots.xml_in in *.
      rewrite !List.filter_app, !length_app, Hp, Hx, Hp1, Hx1.
      repeat split; try lia. intros Hr. rewrite (Hok Hr). reflexivity.
    + exists 0%nat. simpl. repeat split; try lia. discriminate.
Qed.

Lemma for_each_all_ok {A : Type} (body : A -> Res (list Plots.Output))
    (items : list A) :
  (forall item, In item items -> is_ok (body item)) ->
  snd (Plots.for_each body items) = Ok tt.
Proof.
  induction items as [|item rest IH]; intros H; simpl; [reflexivity|].
  pose proof (H item (or_introl eq_refl)) as Hitem.
  destruct (body item) as [outs|e]; [|destruct Hitem].
  destruct (Plots.for_each body rest) as [more r] eqn:E. simpl in *.
  apply IH. intros i Hi. apply H. now right.
Qed.

(** X3.  The loop of [TimeSeriesOHC.run] draws a figure for a region only
    if there is a reference run to plot or [compareWithObservations] is
    off.  With [compareWithObservations] on and no reference run (none
    configured, or one that ends before the time series starts), it draws
    nothing at all, and still writes the XML entry of every region; in every
    other case it draws one figure per region. *)
Theorem ohc_plots_counts (l : Plots.Loop) (compareWithObservations : bool)
    (preprocessedReferenceRunName : string) (yearStart yearEndPreprocessed : Z)
    (regionIndicesToPlot : list Z) :
  let reference :=
    Plots.reference_to_plot preprocessedReferenceRunName yearStart
      yearEndPreprocessed in
  let outputs :=
    fst (Plots.ohc_plots l compareWithObservations reference regionIndicesToPlot) in
  let ended :=
    snd (Plots.ohc_plots l compareWithObservations reference regionIndicesToPlot) in
  (compareWithObservations = true ->
   (preprocessedReferenceRunName = "None"%string \/
    yearEndPreprocessed < yearStart) ->
   Plots.plots_in outputs = 0%nat) /\
  (ended = Ok tt ->
   Plots.xml_in outputs = length regionIndicesToPlot /\
   Plots.plots_in outputs =
     if compareWithObservations && String.eqb reference "None" then 0%nat
     else length regionIndicesToPlot).
Proof.
  intros reference outputs ended.
  set (p := if compareWithObservations && String.eqb reference "None"
            then 0%nat else 1%nat).
  destruct (for_each_counts
              (Plots.ohc_region l compareWithObservations reference)
              regionIndicesToPlot p 1) as (done & Hle & Hok & Hp & Hx).
  { intros i outs H. unfold Plots.ohc_region in H. bind_inv H.
    injection H as <-. unfold Plots.plots_in, Plots.xml_in, p.
    rewrite !List.filter_app, !length_app.
    destruct compareWithObservations, (String.eqb reference "None"); simpl; auto. }
  fold (Plots.ohc_plots l compareWithObservations reference regionIndicesToPlot)
    in Hok, Hp, Hx.
  fold outputs in Hp, Hx. fold ended in Hok.
  split.
  - intros -> Href. rewrite Hp. unfold p.
    assert (E : String.eqb reference "None" = true).
    { unfold reference, Plots.reference_to_plot.
      destruct Href as [->|Hlt]; [reflexivity|].
      destruct (String.eqb preprocessedReferenceRunName "None") eqn:E;
        [exact E|]. simpl.
      destruct (Z.leb_spec yearStart yearEndPreprocessed); [lia|reflexivity]. }
    rewrite E. simpl. lia.
  - intros Hended. rewrite Hp, Hx, (Hok Hended). unfold p.
    destruct (compareWithObservations && String.eqb reference "None"); lia.
Qed.

(** Observations compared and no reference run: no figure, two XML
    entries. *)
Lemma ohc_plots_counts_witness :
  Plots.plots_in (fst (Plots.ohc_plots Cases.ohc_loop true "None" [6; 0])) = 0%nat /\
  Plots.xml_in (fst (Plots.ohc_plots Cases.ohc_loop true "None" [6; 0])) = 2%nat.
Proof.
  destruct (ohc_plots_counts Cases.ohc_loop true "None" 1 0 [6; 0]) as [Hnone Hok].
  split; [apply Hnone; [reflexivity|now left]|].
  apply Hok. vm_compute. reflexivity.
Defined.

(** X4.  The loop of [TimeSeriesSST.run] draws exactly one figure and
    writes one XML entry for every region it gets through, with or without
    a reference run. *)
Theorem sst_plots_counts (l : Plots.Loop) (preprocessedReferenceRunName : string)
    (regionIndicesToPlot : list Z) :
  Plots.plots_in (fst (Plots.sst_plots l preprocessedReferenceRunName regionIndicesToPlot)) =
    Plots.xml_in (fst (Plots.sst_plots l preprocessedReferenceRunName regionIndicesToPlot)) /\
  (snd (Plots.sst_plots l preprocessedReferenceRunName regionIndicesToPlot) = Ok tt ->
   Plots.plots_in (fst (Plots.sst_plots l preprocessedReferenceRunName
                    regionIndicesToPlot)) = length regionIndicesToPlot).
Proof.
  destruct (for_each_counts (Plots.sst_region l preprocessedReferenceRunName)
              regionIndicesToPlot 1 1) as (done & Hle & Hok & Hp & Hx).
  { intros i outs H. unfold Plots.sst_region in H. bind_inv H.
    injection H as <-. unfold Plots.plots_in, Plots.xml_in.
    destruct (String.eqb preprocessedReferenceRunName "None"); simpl; auto. }
  fold (Plots.sst_plots l preprocessedReferenceRunName regionIndicesToPlot)
    in Hok, Hp, Hx.
  split; [lia|]. intros Hended. rewrite Hp, (Hok Hended). lia.
Qed.

(** Three indices, the last one out of range: two figures and two XML
    entries before the loop stops. *)
Lemma sst_plots_counts_witness :
  Plots.plots_in (fst (Plots.sst_plots Cases.ohc_loop "None" [6; -1; 9])) =
  Plots.xml_in (fst (Plots.sst_plots Cases.ohc_loop "None" [6; -1; 9])).
Proof.
  exact (proj1 (sst_plots_counts Cases.ohc_loop "None" [6; -1; 9])).
Defined.

(** X5.  Set-up and run fit together: after [TimeSeriesOHC.setup_and_check]
    has succeeded, the plotting loop of [run] over the configured region
    indices gets through all of them (no [KeyError] on [filePrefixes], no
    [IndexError] on [regions]) provided [plotTitles] and the region dimension
    of the data reach as far as the indices. *)
Theorem ohc_plots_after_setup (t : Shared.AnalysisTask) (s : Shared.TaskSetup)
    (regions plotTitles : list string) (regionsInData : nat)
    (regionIndicesToPlot : list Z) (compareWithObservations : bool)
    (reference : string) :
  OHC.setup_and_check t = Ok s ->
  Shared.getNames (Shared.config t) "regions" "regions" = Ok regions ->
  Shared.getIndices (Shared.config t) "timeSeriesOHC" "regionIndicesToPlot" =
    Ok regionIndicesToPlot ->
  valid_indices (length plotTitles) regionIndicesToPlot ->
  valid_indices regionsInData regionIndicesToPlot ->
  snd (Plots.ohc_plots
         {| Plots.task := t; Plots.setup := s; Plots.regions := regions;
            Plots.plotTitles := plotTitles; Plots.regionsInData := regionsInData |}
         compareWithObservations reference regionIndicesToPlot) = Ok tt.
Proof.
  intros Hsetup Hregions Hindices Htitles Hdata.
  assert (Hts : Shared.time_series_setup t "timeSeriesOHC" "ohc_" = Ok s).
  { unfold OHC.setup_and_check in Hsetup. bind_inv Hsetup. exact Hsetup. }
  destruct (time_series_setup_serves _ _ _ _ Hts)
    as (main & regions' & indices' & _ & Hregions' & Hindices' & _ & Hserve).
  rewrite Hregions in Hregions'. injection Hregions' as <-.
  rewrite Hindices in Hindices'. injection Hindices' as <-.
  apply for_each_all_ok. intros i Hi.
  destruct (Hserve i Hi) as (region & Hpy & Hprefix & _).
  unfold Plots.ohc_region. simpl. rewrite Hpy. cbn [bindR].
  unfold valid_indices in Htitles, Hdata.
  rewrite List.Forall_forall in Htitles, Hdata.
  destruct (norm_index_ok regionsInData i (Hdata i Hi)) as [n [-> _]]. cbn [bindR].
  destruct (py_index_ok plotTitles i (Htitles i Hi)) as [title ->]. cbn [bindR].
  unfold Python.dict_get. rewrite Hprefix. exact I.
Qed.

Lemma ohc_plots_after_setup_witness :
  snd (Plots.ohc_plots Cases.ohc_loop true "None" [6; 0]) = Ok tt /\
  fst (Plots.ohc_plots Cases.ohc_loop true "None" [6; 0]) =
    [Plots.ImageXml "ohc_global_runA.png"; Plots.ImageXml "ohc_arctic_runA.png"] /\
  fst (Plots.ohc_plots Cases.ohc_loop false "None" [6; 0]) =
    [Plots.Plot "/plots/ohc_global_runA.png.png" 4 4 4;
     Plots.ImageXml "ohc_global_runA.png";
     Plots.Plot "/plots/ohc_arctic_runA.png.png" 4 4 4;
     Plots.ImageXml "ohc_arctic_runA.png"].
Proof.
  split; [|split; vm_compute; reflexivity].
  apply (ohc_plots_after_setup Cases.task Cases.ohc_setup Cases.region_names
           Cases.region_titles 7 [6; 0] true "None").
  - exact ohc_setup_of_task.
  - reflexivity.
  - reflexivity.
  - repeat constructor; simpl; lia.
  - repeat constructor; lia.
Defined.

(** X6.  The figure a region gets from [TimeSeriesOHC.run] is named after
    the file prefix [setup_and_check] stored, which already ends in [.png]:
    the figure is [<plotsDirectory>/ohc_<region>_<run>.png.png], and the XML
    entry carries the prefix [ohc_<region>_<run>.png]. *)
Theorem ohc_figure_names (t : Shared.AnalysisTask) (s : Shared.TaskSetup)
    (regions plotTitles : list string) (regionsInData : nat)
    (mainRunName : string) (compareWithObservations : bool) (reference : string)
    (regionIndex : Z) (outputs : list Plots.Output) :
  OHC.setup_and_check t = Ok s ->
  Shared.get (Shared.config t) "runs" "mainRunName" = Ok mainRunName ->
  Plots.ohc_region
    {| Plots.task := t; Plots.setup := s; Plots.regions := regions;
       Plots.plotTitles := plotTitles; Plots.regionsInData := regionsInData |}
    compareWithObservations reference regionIndex = Ok outputs ->
  exists region,
    py_index regions regionIndex = Ok region /\
    forall o, In o outputs ->
      o = Plots.ImageXml ("ohc_" ++ region ++ "_" ++ mainRunName ++ ".png") \/
      exists n,
        o = Plots.Plot
              (Shared.plotsDirectory t ++ "/" ++
               ("ohc_" ++ region ++ "_" ++ mainRunName ++ ".png") ++ ".png") n n n.
Proof.
  intros Hsetup Hmain Hregion.
  unfold OHC.setup_and_check in Hsetup. bind_inv Hsetup.
  destruct (time_series_setup_inv _ _ _ _ Hsetup)
    as (main & regs & indices & selected & _ & _ & Hmain' & _ & _ & _ & Hfiles).
  rewrite Hmain in Hmain'. injection Hmain' as <-.
  destruct (region_files_spec "ohc_" mainRunName (Shared.plotsDirectory t)
              selected [] ∅) as (_ & Hin & Hout).
  rewrite <- Hfiles in Hin, Hout. simpl in Hin, Hout.
  unfold Plots.ohc_region in Hregion. simpl in Hregion.
  destruct (py_index regions regionIndex) as [region|] eqn:Epy; [|discriminate].
  cbn [bindR] in Hregion. bind_inv Hregion. injection Hregion as <-.
  exists region. split; [reflexivity|].
  match goal with
  | E : Python.dict_get _ region = Ok ?p |- _ =>
      assert (Hp : p = ("ohc_" ++ region ++ "_" ++ mainRunName ++ ".png")%string)
  end.
  { unfold Python.dict_get in *.
    destruct (in_dec string_dec region selected) as [Hsel|Hsel].
    - rewrite (Hin region Hsel) in *. congruence.
    - rewrite (Hout region Hsel), lookup_empty in *. discriminate. }
  subst. intros o Ho.
  apply in_app_or in Ho as [Ho|Ho]; [|apply in_app_or in Ho as [Ho|Ho]].
  - destruct (negb _); [|destruct Ho]. destruct Ho as [<-|[]]. right. eauto.
  - destruct (_ && _); [|destruct Ho]. destruct Ho as [<-|[]]. right. eauto.
  - destruct Ho as [<-|[]]. now left.
Qed.

Lemma ohc_figure_names_witness :
  exists region,
    py_index Cases.region_names 6 = Ok region /\
    forall o,
      In o [Plots.Plot "/plots/ohc_global_runA.png.png" 4 4 4;
            Plots.ImageXml "ohc_global_runA.png"] ->
      o = Plots.ImageXml ("ohc_" ++ region ++ "_" ++ "runA" ++ ".png") \/
      exists n,
        o = Plots.Plot
              (Shared.plotsDirectory Cases.task ++ "/" ++
               ("ohc_" ++ region ++ "_" ++ "runA" ++ ".png") ++ ".png") n n n.
Proof.
  apply (ohc_figure_names Cases.task Cases.ohc_setup Cases.region_names
           Cases.region_titles 7 "runA" false "None" 6).
  - exact ohc_setup_of_task.
  - reflexivity.
  - vm_compute. reflexivity.
Defined.

(** ** Set-up without input files, and of the heat-transport task *)

(** The tasks of [Examples] and [Cases] whose discovery finds nothing. *)
Lemma ohc_sst_setup_no_files_witness :
  OHC.setup_and_check Examples.no_input_task =
    Raise (IOError (Shared.no_files_message "timeSeriesStatsMonthlyOutput"
                      "0001-01-01_00:00:00" "0010-12-31_23:59:59")) /\
  SST.setup_and_check Examples.no_input_task =
    Raise (IOError (Shared.no_files_message "timeSeriesStatsMonthlyOutput"
                      "0001-01-01_00:00:00" "0010-12-31_23:59:59")).
Proof.
  apply (ohc_sst_setup_no_files Examples.no_input_task).
  - reflexivity.
  - reflexivity.
  - split; [|split; reflexivity].
    exists "None"%string. split; reflexivity.
  - reflexivity.
Defined.

Lemma mht_setup_no_files_witness :
  MHT.setup_and_check Cases.mht_collaborators Cases.no_input_task =
    Raise (IOError (Shared.no_files_message "timeSeriesStatsMonthlyOutput"
                      "0001-01-01_00:00:00" "0001-12-31_23:59:59")).
Proof.
  apply (mht_setup_no_files Cases.mht_collaborators Cases.no_input_task);
    reflexivity.
Defined.

(** X9.  [MeridionalHeatTransport.setup_and_check] also stops, with its
    own [IOError], when input files exist but the stream
    [meridionalHeatTransportOutput] holds no file. *)
Theorem mht_setup_no_history_file (co : MHT.Collaborators) (t : Shared.AnalysisTask)
    (startDate endDate : string) (inputFiles : list string)
    (bounds : bool * Z * Z * string * string) :
  Shared.base_setup_and_check t = Ok tt ->
  Shared.check_analysis_enabled t "config_am_timeseriesstatsmonthly_enable" = Ok tt ->
  Shared.check_analysis_enabled t "config_am_meridionalheattransport_enable" = Ok tt ->
  Shared.get (Shared.config t) "climatology" "startDate" = Ok startDate ->
  Shared.get (Shared.config t) "climatology" "endDate" = Ok endDate ->
  Shared.readpath_between (Shared.historyStreams t) "timeSeriesStatsMonthlyOutput"
    startDate endDate (Shared.calendar t) = Ok inputFiles ->
  inputFiles <> [] ->
  MHT.update_climatology_bounds_from_file_names co inputFiles (Shared.config t) =
    Ok bounds ->
  Shared.readpath (Shared.historyStreams t) "meridionalHeatTransportOutput" = Ok [] ->
  MHT.setup_and_check co t =
    Raise (IOError "No MPAS-O MHT history file found: need at least one ").
Proof.
  intros Hbase H1 H2 Hs He Hfiles Hne Hbounds Hmht.
  unfold MHT.setup_and_check.
  rewrite Hbase. cbn [bindR]. rewrite H1. cbn [bindR]. rewrite H2. cbn [bindR].
  rewrite Hs. cbn [bindR]. rewrite He. cbn [bindR]. rewrite Hfiles. cbn [bindR].
  destruct inputFiles as [|f fs]; [congruence|]. cbn [length Nat.eqb].
  rewrite Hbounds. cbn [bindR].
  destruct bounds as [[[[changed sy] ey] sd] ed].
  rewrite Hmht. reflexivity.
Qed.

Lemma mht_setup_no_history_file_witness :
  MHT.setup_and_check Cases.mht_collaborators Cases.no_history_task =
    Raise (IOError "No MPAS-O MHT history file found: need at least one ").
Proof.
  apply (mht_setup_no_history_file Cases.mht_collaborators Cases.no_history_task
           "0001-01-01_00:00:00" "0001-12-31_23:59:59" ["ts.0001-01.nc"%string]
           (false, 1, 1, "0001-01-01_00:00:00"%string,
            "0001-12-31_23:59:59"%string));
    try reflexivity.
  discriminate.
Defined.

Ltac exists_vertical main vertical H E1 E2 Hne :=
  destruct vertical; cbv zeta in H; cbn [MHT.prefix_files] in H;
  injection H as <-; cbn [MHT.inputFiles MHT.startYear MHT.endYear
    MHT.startDate MHT.endDate MHT.mhtFile MHT.filePrefixes MHT.xmlFileNames];
  (split; [exact Hne|]); (split; [eauto|]); (split; [eauto|]);
  eexists main, _; (split; [reflexivity|]); (split; [reflexivity|]).

(** X10.  What a set-up of the heat-transport task that succeeds has
    stored: a non-empty list of input files; the years and dates returned by
    the bounds update (not the configured dates); the first history file;
    the file prefix [mht_<run>_years<start>-<end>] under ["mht"], and one
    under ["mhtZ"] exactly when [plotVerticalSection] is set, so that the
    look-ups of [run] are served. *)
Theorem mht_setup_serves_run (co : MHT.Collaborators) (t : Shared.AnalysisTask)
    (s : MHT.Setup) :
  MHT.setup_and_check co t = Ok s ->
  MHT.inputFiles s <> [] /\
  (exists changed,
     MHT.update_climatology_bounds_from_file_names co (MHT.inputFiles s)
       (Shared.config t) =
     Ok (changed, MHT.startYear s, MHT.endYear s, MHT.startDate s, MHT.endDate s)) /\
  (exists others,
     Shared.readpath (Shared.historyStreams t) "meridionalHeatTransportOutput" =
       Ok (MHT.mhtFile s :: others)) /\
  exists mainRunName vertical,
    Shared.get (Shared.config t) "runs" "mainRunName" = Ok mainRunName /\
    Shared.getboolean (Shared.config t) "meridionalHeatTransport"
      "plotVerticalSection" = Ok vertical /\
    Python.dict_get (MHT.filePrefixes s) "mht" =
      Ok ("mht" ++ "_" ++ mainRunName ++ "_years" ++
          MHT.format_04d co (MHT.startYear s) ++ "-" ++
          MHT.format_04d co (MHT.endYear s))%string /\
    if vertical then
      Python.dict_get (MHT.filePrefixes s) "mhtZ" =
        Ok ("mhtZ" ++ "_" ++ mainRunName ++ "_years" ++
            MHT.format_04d co (MHT.startYear s) ++ "-" ++
            MHT.format_04d co (MHT.endYear s))%string /\
      length (MHT.xmlFileNames s) = 2%nat
    else
      Python.dict_get (MHT.filePrefixes s) "mhtZ" = Raise (KeyError "mhtZ") /\
      length (MHT.xmlFileNames s) = 1%nat.
Proof.
  unfold MHT.setup_and_check. intros H. bind_inv H.
  destruct (length _ =? 0)%nat eqn:Elen in H; [discriminate|].
  bind_inv H.
  match goal with
  | b : (bool * Z * Z * string * string)%type |- _ =>
      destruct b as [[[[changed sy] ey] sd] ed]
  end.
  bind_inv H.
  destruct (length _ =? 0)%nat eqn:Emht in H; [discriminate|].
  bind_inv H.
  match goal with
  | E : item0 ?files = Ok ?f |- _ =>
      destruct files as [|f0 others]; [discriminate E|];
      simpl in E; injection E as <-
  end.
  match goal with
  | E1 : Shared.get _ "runs" "mainRunName" = Ok ?main,
    E2 : Shared.getboolean _ _ "plotVerticalSection" = Ok ?vertical,
    E3 : Shared.readpath_between _ _ _ _ _ = Ok ?files |- _ =>
      assert (Hne : files <> [])
        by (intros ->; simpl in Elen; discriminate Elen);
      exists_vertical main vertical H E1 E2 Hne
  end.
  - cbv iota. unfold Python.dict_get.
    rewrite lookup_insert_ne by discriminate.
    rewrite !lookup_insert_eq. repeat split.
  - cbv iota. unfold Python.dict_get.
    rewrite lookup_insert_eq.
    rewrite lookup_insert_ne by discriminate. rewrite lookup_empty.
    repeat split.
Qed.

Lemma mht_setup_of_task :
  MHT.setup_and_check Cases.mht_collaborators Cases.task = Ok Cases.mht_setup.
Proof. vm_compute. reflexivity. Qed.

(** The task of [Cases], whose configuration asks for the vertical section. *)
Lemma mht_setup_serves_run_witness :
  Python.dict_get (MHT.filePrefixes Cases.mht_setup) "mht" =
    Ok "mht_runA_years0001-0001"%string /\
  Python.dict_get (MHT.filePrefixes Cases.mht_setup) "mhtZ" =
    Ok "mhtZ_runA_years0001-0001"%string /\
  length (MHT.xmlFileNames Cases.mht_setup) = 2%nat.
Proof.
  destruct (mht_setup_serves_run Cases.mht_collaborators Cases.task
              Cases.mht_setup mht_setup_of_task)
    as (_ & _ & _ & main & vertical & Hmain & Hvert & Hmht & HmhtZ).
  assert (main = "runA"%string) as -> by (vm_compute in Hmain; congruence).
  assert (vertical = true) as -> by (vm_compute in Hvert; congruence).
  destruct HmhtZ as [HmhtZ Hlen].
  split; [exact Hmht|]. split; [exact HmhtZ|exact Hlen].
Defined.

(** ** Depth indices and depth ranges of the heat-content task *)

Lemma first_above_bound (thr : Q) (depth : list Q) (i : nat) :
  OHC.first_above thr depth i -> (i < length depth)%nat.
Proof.
  intros [[d [Hd _]] _]. apply nth_error_Some. congruence.
Qed.

Lemma first_above_mono (lo hi : Q) (depth : list Q) (i j : nat) :
  (lo <= hi)%Q ->
  OHC.first_above lo depth i -> OHC.first_above hi depth j -> (i <= j)%nat.
Proof.
  intros Hle [_ Hbelow] [[d [Hd Hgt]] _].
  destruct (Nat.le_gt_cases i j) as [H|H]; [exact H|].
  specialize (Hbelow j d H Hd).
  exfalso. apply (Qlt_irrefl hi).
  apply Qlt_le_trans with d; [exact Hgt|].
  apply Qle_trans with lo; assumption.
Qed.

Lemma depth_indices_inv (depth : list Q) (k : OHC.DepthIndices) :
  OHC.depth_indices depth = Ok k ->
  exists i j,
    OHC.first_above 700 depth i /\ OHC.first_above 2000 depth j /\
    OHC.k700m k = Z.of_nat i - 1 /\ OHC.k2000m k = Z.of_nat j - 1 /\
    OHC.kbtm k = Z.of_nat (length depth) - 1.
Proof.
  unfold OHC.depth_indices. intros H. bind_inv H. injection H as <-. simpl.
  match goal with
  | E7 : OHC.depth_index 700 depth = Ok _,
    E20 : OHC.depth_index 2000 depth = Ok _ |- _ =>
      destruct (depth_index_value _ _ _ E7) as (i & Hi & ->);
      destruct (depth_index_value _ _ _ E20) as (j & Hj & ->)
  end.
  exists i, j. auto.
Qed.

(** X11.  The depth indices of [TimeSeriesOHC.run], when they are defined,
    are ordered: [-1 <= k700m <= k2000m < kbtm], and [kbtm] is the last
    level. *)
Theorem depth_indices_ordered (depth : list Q) (k : OHC.DepthIndices) :
  OHC.depth_indices depth = Ok k ->
  -1 <= OHC.k700m k <= OHC.k2000m k /\
  OHC.k2000m k < OHC.kbtm k /\
  OHC.kbtm k = Z.of_nat (length depth) - 1.
Proof.
  intros H.
  destruct (depth_indices_inv depth k H) as (i & j & Hi & Hj & -> & -> & ->).
  assert (Hij : (i <= j)%nat).
  { apply (first_above_mono 700 2000 depth); [discriminate|assumption..]. }
  pose proof (first_above_bound _ _ _ Hj).
  lia.
Qed.

Lemma depth_indices_ordered_witness :
  -1 <= 1 <= 3 /\ 3 < 4 /\ 4 = Z.of_nat (length Cases.depths) - 1.
Proof.
  apply (depth_indices_ordered Cases.depths
           {| OHC.k700m := 1; OHC.k2000m := 3; OHC.kbtm := 4 |}).
  reflexivity.
Defined.

Lemma slice_inside {A : Type} (l : list A) (a b : nat) :
  (a <= b <= length l)%nat ->
  Python.slice l (Z.of_nat a) (Z.of_nat b) = firstn (b - a) (skipn a l).
Proof.
  intros H. unfold Python.slice, Python.slice_bound.
  destruct (Z.ltb_spec (Z.of_nat a) 0); [lia|].
  destruct (Z.ltb_spec (Z.of_nat b) 0); [lia|].
  rewrite !Z.min_l by lia.
  replace (Z.to_nat (Z.of_nat b - Z.of_nat a)) with (b - a)%nat by lia.
  now rewrite Nat2Z.id.
Qed.

Lemma skipn_split {A : Type} (l : list A) (a b : nat) :
  (a <= b)%nat -> skipn a l = firstn (b - a) (skipn a l) ++ skipn b l.
Proof.
  intros H. rewrite <- (firstn_skipn (b - a) (skipn a l)) at 1.
  f_equal. rewrite skipn_skipn. f_equal. lia.
Qed.

Lemma py_index_nth {A : Type} (l : list A) (n : nat) (x : A) :
  nth_error l n = Some x -> py_index l (Z.of_nat n) = Ok x.
Proof.
  intros H. assert (Hn : (n < length l)%nat) by (apply nth_error_Some; congruence).
  unfold py_index, norm_index.
  destruct (Z.leb_spec 0 (Z.of_nat n)); [|lia].
  destruct (Z.ltb_spec (Z.of_nat n) (Z.of_nat (length l))); [|lia].
  cbn [andb bindR]. now rewrite Nat2Z.id, H.
Qed.

Lemma skipn_level {A : Type} (l : list A) (n : nat) :
  (n < length l)%nat ->
  exists x, py_index l (Z.of_nat n) = Ok x /\ skipn n l = x :: skipn (S n) l.
Proof.
  intros H. destruct (nth_error l n) as [x|] eqn:E;
    [|apply nth_error_None in E; lia].
  exists x. split; [now apply py_index_nth|].
  clear H. revert n E. induction l as [|y l IH]; intros [|n] E;
    simpl in E; try discriminate.
  - now injection E as ->.
  - simpl. now apply IH.
Qed.

(** X12.  The partial sums of [TimeSeriesOHC.run] leave three levels out:
    for indices [0 <= k700m < k2000m], the column of a region is the levels
    of [ohc700m], level [k700m], the levels of [ohc2000m], level [k2000m],
    the levels of [ohcBottom] and the last level [kbtm], in this order; only
    [ohcTotal] holds the three levels in between. *)
Theorem depth_ranges_skip_levels {A : Type} (ohc : list A) (depth : list Q)
    (k : OHC.DepthIndices) :
  OHC.depth_indices depth = Ok k ->
  length ohc = length depth ->
  0 <= OHC.k700m k < OHC.k2000m k ->
  let r := Plots.depth_ranges ohc k in
  exists a b c,
    py_index ohc (OHC.k700m k) = Ok a /\
    py_index ohc (OHC.k2000m k) = Ok b /\
    py_index ohc (OHC.kbtm k) = Ok c /\
    Plots.ohcTotal r =
      Plots.ohc700m r ++ [a] ++ Plots.ohc2000m r ++ [b] ++
      Plots.ohcBottom r ++ [c].
Proof.
  intros Hk Hlen Hpos r.
  destruct (depth_indices_inv depth k Hk) as (i' & j' & _ & Hj' & _ & E20' & Hbtm).
  pose proof (first_above_bound _ _ _ Hj') as Hj.
  assert (Hlt : OHC.k2000m k < OHC.kbtm k) by lia.
  clear i' j' Hj' E20' Hj.
  destruct k as [k7 k20 kb]. simpl in *.
  assert (E7 : k7 = Z.of_nat (Z.to_nat k7)) by lia.
  assert (E20 : k20 = Z.of_nat (Z.to_nat k20)) by lia.
  assert (Eb : kb = Z.of_nat (Z.to_nat kb)) by lia.
  set (i := Z.to_nat k7) in *. set (j := Z.to_nat k20) in *.
  set (n := Z.to_nat kb) in *.
  assert (Hn : length ohc = S n) by lia.
  destruct (skipn_level ohc i) as (a & Ha & Sa); [lia|].
  destruct (skipn_level ohc j) as (b & Hb & Sb); [lia|].
  destruct (skipn_level ohc n) as (c & Hc & Sc); [lia|].
  exists a, b, c. rewrite E7, E20, Eb.
  split; [exact Ha|]. split; [exact Hb|]. split; [exact Hc|].
  subst r. unfold Plots.depth_ranges. simpl.
  change 0 with (Z.of_nat 0).
  replace (Z.of_nat i + 1) with (Z.of_nat (S i)) by lia.
  replace (Z.of_nat j + 1) with (Z.of_nat (S j)) by lia.
  rewrite !slice_inside by lia.
  rewrite (skipn_all2 (n := S n) ohc) in Sc by lia.
  rewrite <- Sc.
  rewrite <- (skipn_split ohc (S j) n) by lia.
  rewrite <- Sb.
  rewrite <- (skipn_split ohc (S i) j) by lia.
  rewrite <- Sa.
  rewrite <- (skipn_split ohc 0 i) by lia.
  reflexivity.
Qed.

Lemma depth_ranges_skip_levels_witness :
  let r := Plots.depth_ranges Cases.column
             {| OHC.k700m := 1; OHC.k2000m := 3; OHC.kbtm := 4 |} in
  exists a b c,
    py_index Cases.column 1 = Ok a /\
    py_index Cases.column 3 = Ok b /\
    py_index Cases.column 4 = Ok c /\
    Plots.ohcTotal r =
      Plots.ohc700m r ++ [a] ++ Plots.ohc2000m r ++ [b] ++
      Plots.ohcBottom r ++ [c].
Proof.
  apply (depth_ranges_skip_levels Cases.column Cases.depths
           {| OHC.k700m := 1; OHC.k2000m := 3; OHC.kbtm := 4 |}).
  - reflexivity.
  - reflexivity.
  - simpl. lia.
Defined.

(** X13.  On a grid whose first level already ends below 700 m, [k700m]
    is [-1] and the slice [0:k700m] counts from the end: the range meant
    for 0-700 m takes every level but the last. *)
Theorem depth_ranges_shallow_first_level {A : Type} (ohc : list A)
    (d : Q) (deeper : list Q) (k : OHC.DepthIndices) :
  OHC.depth_indices (d :: deeper) = Ok k ->
  (700 < d)%Q ->
  OHC.k700m k = -1 /\
  Plots.ohc700m (Plots.depth_ranges ohc k) = removelast ohc.
Proof.
  intros Hk Hd.
  assert (E : OHC.k700m k = -1).
  { unfold OHC.depth_indices in Hk. bind_inv Hk. injection Hk as <-. simpl.
    match goal with
    | E7 : OHC.depth_index 700 _ = Ok _ |- _ =>
        unfold OHC.depth_index in E7; simpl in E7;
        unfold OHC.Qgtb in E7;
        destruct (Qle_bool d 700) eqn:Ele;
        [apply Qle_bool_iff in Ele; exfalso;
         apply (Qlt_irrefl 700); now apply Qlt_le_trans with d|];
        simpl in E7; now injection E7 as <-
    end. }
  split; [exact E|].
  unfold Plots.depth_ranges. simpl. rewrite E.
  unfold Python.slice, Python.slice_bound.
  change (-1 <? 0) with true. change (0 <? 0) with false. cbv iota.
  rewrite Z.min_l by lia. change (Z.to_nat 0) with 0%nat.
  rewrite removelast_firstn_len. cbn [skipn]. f_equal. lia.
Qed.

Lemma depth_ranges_shallow_first_level_witness :
  OHC.k700m {| OHC.k700m := -1; OHC.k2000m := 1; OHC.kbtm := 3 |} = -1 /\
  Plots.ohc700m (Plots.depth_ranges [10; 20; 30; 40]
                   {| OHC.k700m := -1; OHC.k2000m := 1; OHC.kbtm := 3 |}) =
    removelast [10; 20; 30; 40].
Proof.
  apply (depth_ranges_shallow_first_level [10; 20; 30; 40] (800#1)%Q
           [1600#1; 2400#1; 3200#1]%Q
           {| OHC.k700m := -1; OHC.k2000m := 1; OHC.kbtm := 3 |}).
  - reflexivity.
  - reflexivity.
Defined.

(** ** What the reduction callbacks return, and when they raise *)

Lemma py_index_invalid {A : Type} (l : list A) (i : Z) :
  ~ (- Z.of_nat (length l) <= i < Z.of_nat (length l)) ->
  py_index l i = Raise (IndexError "index out of range").
Proof.
  intros H. unfold py_index, norm_index.
  destruct (Z.leb_spec 0 i), (Z.ltb_spec i (Z.of_nat (length l))),
    (Z.leb_spec (- Z.of_nat (length l)) i), (Z.ltb_spec i 0);
    cbn [andb bindR]; try reflexivity; lia.
Qed.

Lemma take_invalid {A : Type} (l : list A) (indices : list Z) :
  ~ valid_indices (length l) indices ->
  take l indices = Raise (IndexError "index out of range").
Proof.
  unfold valid_indices.
  induction indices as [|i rest IH]; intros H; [destruct H; constructor|].
  simpl.
  destruct (Z_le_dec (- Z.of_nat (length l)) i) as [H1|H1];
    [destruct (Z_lt_dec i (Z.of_nat (length l))) as [H2|H2]|].
  - destruct (py_index_ok l i (conj H1 H2)) as [x ->]. cbn [bindR].
    rewrite IH; [reflexivity|].
    intros Hrest. apply H. constructor; [lia|exact Hrest].
  - rewrite py_index_invalid by lia. reflexivity.
  - rewrite py_index_invalid by lia. reflexivity.
Qed.

Lemma take_app {A : Type} (l : list A) (a b : list Z) (xa xb : list A) :
  take l a = Ok xa -> take l b = Ok xb -> take l (a ++ b) = Ok (xa ++ xb).
Proof.
  revert xa. induction a as [|i a IH]; intros xa; simpl.
  - now intros [= <-].
  - destruct (py_index l i) as [x|]; [|discriminate]. cbn [bindR].
    destruct (take l a) as [xs|]; [|discriminate]. cbn [bindR].
    intros [= <-] Hb. now rewrite (IH xs eq_refl Hb).
Qed.

Section CallbackFacts.

Variable Slab : Type.

Lemma isel_vars_app (vars va vb : list (string * XArray.DataArray Slab))
    (a b : list Z) :
  XArray.isel_vars Slab vars a = Ok va ->
  XArray.isel_vars Slab vars b = Ok vb ->
  exists v,
    XArray.isel_vars Slab vars (a ++ b) = Ok v /\
    (forall name x y,
       XArray.getitem_vars Slab va name = Ok (XArray.AlongTime x) ->
       XArray.getitem_vars Slab vb name = Ok (XArray.AlongTime y) ->
       XArray.getitem_vars Slab v name = Ok (XArray.AlongTime (x ++ y))) /\
    (forall name dim names,
       XArray.getitem_vars Slab va name = Ok (XArray.Labels dim names) ->
       XArray.getitem_vars Slab v name = Ok (XArray.Labels dim names)).
Proof.
  revert va vb. induction vars as [|[n v] rest IH]; intros va vb; simpl.
  - intros [= <-] [= <-]. exists []. repeat split; intros; discriminate.
  - destruct (XArray.isel_var Slab v a) as [v1|] eqn:E1; [|discriminate].
    cbn [bindR].
    destruct (XArray.isel_vars Slab rest a) as [r1|] eqn:R1; [|discriminate].
    cbn [bindR]. intros [= <-].
    destruct (XArray.isel_var Slab v b) as [v2|] eqn:E2; [|discriminate].
    cbn [bindR].
    destruct (XArray.isel_vars Slab rest b) as [r2|] eqn:R2; [|discriminate].
    cbn [bindR]. intros [= <-].
    destruct (IH r1 r2 eq_refl eq_refl) as (r & -> & Hr & Hl).
    destruct v as [vs|d ns]; simpl in E1, E2.
    + destruct (take vs a) as [x1|] eqn:T1; [|discriminate].
      destruct (take vs b) as [x2|] eqn:T2; [|discriminate].
      injection E1 as <-. injection E2 as <-.
      simpl. rewrite (take_app _ _ _ _ _ T1 T2). cbn [bindR].
      eexists. split; [reflexivity|]. simpl. split.
      * intros name x y. destruct (String.eqb n name); [|apply Hr].
        now intros [= <-] [= <-].
      * intros name dim names. destruct (String.eqb n name); [|apply Hl].
        discriminate.
    + injection E1 as <-. injection E2 as <-. simpl.
      eexists. split; [reflexivity|]. simpl. split.
      * intros name x y. destruct (String.eqb n name); [|apply Hr].
        discriminate.
      * intros name dim names. destruct (String.eqb n name); [|apply Hl].
        auto.
Qed.

Lemma sst_part_isel (self_ds : XArray.Dataset Slab) (timeIndices : list Z)
    (firstCall : bool) :
  SST._compute_sst_part self_ds timeIndices firstCall =
    XArray.isel Slab self_ds timeIndices.
Proof.
  unfold SST._compute_sst_part.
  now destruct (XArray.isel Slab self_ds timeIndices).
Qed.

(** X14.  The chunks of [_compute_sst_part] compose: when the callback
    returns for two sequences of time indices, it returns for the two in a
    row, whatever [firstCall] is, and its result there is the two results
    put end to end along [Time]: the coordinate, every variable with a
    [Time] dimension, and the other variables unchanged. *)
Theorem sst_part_chunks (self_ds first second : XArray.Dataset Slab)
    (indices1 indices2 : list Z) (firstCall1 firstCall2 firstCall : bool) :
  SST._compute_sst_part self_ds indices1 firstCall1 = Ok first ->
  SST._compute_sst_part self_ds indices2 firstCall2 = Ok second ->
  exists out,
    SST._compute_sst_part self_ds (indices1 ++ indices2) firstCall = Ok out /\
    XArray.Time out = XArray.Time first ++ XArray.Time second /\
    XArray.sizes out = XArray.sizes self_ds /\
    (forall name x y,
       XArray.getitem Slab first name = Ok (XArray.AlongTime x) ->
       XArray.getitem Slab second name = Ok (XArray.AlongTime y) ->
       XArray.getitem Slab out name = Ok (XArray.AlongTime (x ++ y))) /\
    (forall name dim names,
       XArray.getitem Slab first name = Ok (XArray.Labels dim names) ->
       XArray.getitem Slab out name = Ok (XArray.Labels dim names)).
Proof.
  rewrite !sst_part_isel. unfold XArray.isel, XArray.getitem. intros H1 H2.
  bind_inv H1. bind_inv H2. injection H1 as <-. injection H2 as <-.
  match goal with
  | T1 : take _ indices1 = Ok _, T2 : take _ indices2 = Ok _,
    V1 : XArray.isel_vars _ _ indices1 = Ok _,
    V2 : XArray.isel_vars _ _ indices2 = Ok _ |- _ =>
      rewrite (take_app _ _ _ _ _ T1 T2);
      destruct (isel_vars_app _ _ _ _ _ V1 V2) as (v & -> & Hv & Hl)
  end.
  cbn [bindR]. eexists. split; [reflexivity|]. simpl. auto.
Qed.

(** X15.  An index outside the [Time] dimension makes
    [_compute_sst_part] raise [IndexError]. *)
Theorem sst_part_index_error (self_ds : XArray.Dataset Slab)
    (timeIndices : list Z) (firstCall : bool) :
  ~ valid_indices (length (XArray.Time self_ds)) timeIndices ->
  SST._compute_sst_part self_ds timeIndices firstCall =
    Raise (IndexError "index out of range").
Proof.
  intros H. rewrite sst_part_isel. unfold XArray.isel.
  now rewrite (take_invalid _ _ H).
Qed.

Lemma getitem_set_var_same (vars : list (string * XArray.DataArray Slab))
    (name : string) (v : XArray.DataArray Slab) :
  XArray.getitem_vars Slab (XArray.set_var Slab vars name v) name = Ok v.
Proof.
  induction vars as [|[n old] rest IH]; simpl.
  - now rewrite String.eqb_refl.
  - destruct (String.eqb n name) eqn:E; simpl; rewrite E; [reflexivity|exact IH].
Qed.

Lemma getitem_set_var_other (vars : list (string * XArray.DataArray Slab))
    (name other : string) (v : XArray.DataArray Slab) :
  name <> other ->
  XArray.getitem_vars Slab (XArray.set_var Slab vars name v) other =
    XArray.getitem_vars Slab vars other.
Proof.
  intros Hne. induction vars as [|[n old] rest IH]; simpl.
  - destruct (String.eqb_spec name other); [contradiction|reflexivity].
  - destruct (String.eqb_spec n name) as [->|Hn]; simpl.
    + destruct (String.eqb_spec name other); [contradiction|reflexivity].
    + destruct (String.eqb n other); [reflexivity|exact IH].
Qed.

Lemma setitem_spec (ds out : XArray.Dataset Slab) (name : string)
    (v : XArray.DataArray Slab) :
  XArray.setitem Slab ds name v = Ok out ->
  XArray.getitem Slab out name = Ok v /\
  (forall other, name <> other ->
     XArray.getitem Slab out other = XArray.getitem Slab ds other) /\
  match v with
  | XArray.AlongTime values =>
      XArray.sizes out = XArray.sizes ds /\
      length values = length (XArray.Time ds)
  | XArray.Labels dim names =>
      XArray.sizes out !! dim = Some (length names) /\
      (forall n, XArray.sizes ds !! dim = Some n -> n = length names)
  end.
Proof.
  unfold XArray.setitem, XArray.getitem. destruct v as [vs|d ns].
  - destruct (Nat.eqb_spec (length vs) (length (XArray.Time ds))); [|discriminate].
    intros [= <-]. simpl. split; [apply getitem_set_var_same|].
    split; [intros; now apply getitem_set_var_other|auto].
  - destruct (XArray.sizes ds !! d) as [n|] eqn:E.
    + destruct (Nat.eqb_spec n (length ns)); [|discriminate].
      intros [= <-]. simpl. split; [apply getitem_set_var_same|].
      split; [intros; now apply getitem_set_var_other|].
      split; [congruence|]. intros n' [= <-]. assumption.
    + intros [= <-]. simpl. split; [apply getitem_set_var_same|].
      split; [intros; now apply getitem_set_var_other|].
      split; [apply lookup_insert_eq|discriminate].
Qed.

Lemma isel_vars_getitem_inv (vars vars' : list (string * XArray.DataArray Slab))
    (timeIndices : list Z) (name : string) (v' : XArray.DataArray Slab) :
  XArray.isel_vars Slab vars timeIndices = Ok vars' ->
  XArray.getitem_vars Slab vars' name = Ok v' ->
  exists v, XArray.getitem_vars Slab vars name = Ok v /\
    XArray.isel_var Slab v timeIndices = Ok v'.
Proof.
  revert vars'. induction vars as [|[n v] rest IH]; intros vars'; simpl.
  - intros [= <-]. discriminate.
  - destruct (XArray.isel_var Slab v timeIndices) as [w|] eqn:Ev; [|discriminate].
    cbn [bindR].
    destruct (XArray.isel_vars Slab rest timeIndices) as [rest'|]; [|discriminate].
    cbn [bindR]. intros [= <-]. simpl.
    destruct (String.eqb n name).
    + intros [= <-]. eauto.
    + now apply IH.
Qed.

End CallbackFacts.

Section OHCContent.

Variable F : Type.
Variable Slab : Type.
Variable fmul : F -> F -> F.
Variable scale : F -> Slab -> Slab.
Variable mul : Slab -> Slab -> Slab.

Lemma isel_selected (self : OHC.Task F Slab) (timeIndices : list Z)
    (dsLocal : XArray.Dataset Slab) (name : string) (v : XArray.DataArray Slab) :
  XArray.isel Slab (OHC.ds self) timeIndices = Ok dsLocal ->
  XArray.getitem Slab dsLocal name = Ok v ->
  OHC.selected F Slab self timeIndices name = Ok v.
Proof.
  intros Hisel Hget.
  destruct (isel_spec Slab _ _ _ Hisel) as (_ & _ & _ & Hvars).
  destruct (isel_vars_getitem_inv Slab _ _ _ _ _ Hvars Hget) as (w & Hw & Hsel).
  unfold OHC.selected, XArray.getitem. now rewrite Hw.
Qed.

(** X16.  What [_compute_ohc_part] returns: the variable [ohc] is, entry
    by entry along the chosen times, the product of [rho*cp], the layer
    mask, the layer area, the layer thickness and the temperature anomaly
    of [self.ds]; [regionNames] holds the names of the task along
    [nOceanRegionsTmp], whose size they agree with; [Time] is the chosen
    times; every other variable is the one [isel] selected. *)
Theorem ohc_part_content (self : OHC.Task F Slab) (timeIndices : list Z)
    (firstCall : bool) (out : XArray.Dataset Slab) :
  OHC._compute_ohc_part F Slab fmul scale mul self timeIndices firstCall = Ok out ->
  exists cp rho mask area thickness anomaly,
    OHC.getfloat F Slab self "config_specific_heat_sea_water" = Ok cp /\
    OHC.getfloat F Slab self "config_density0" = Ok rho /\
    OHC.selected F Slab self timeIndices OHC.sumMaskVarName = Ok (XArray.AlongTime mask) /\
    OHC.selected F Slab self timeIndices OHC.avgAreaVarName = Ok (XArray.AlongTime area) /\
    OHC.selected F Slab self timeIndices OHC.avgThickVarName = Ok (XArray.AlongTime thickness) /\
    OHC.selected F Slab self timeIndices "avgLayTemperatureAnomaly" =
      Ok (XArray.AlongTime anomaly) /\
    XArray.getitem Slab out "ohc" =
      Ok (XArray.AlongTime
            (zip_with mul
               (zip_with mul
                  (zip_with mul (map (scale (fmul rho cp)) mask) area)
                  thickness)
               anomaly)) /\
    XArray.getitem Slab out "regionNames" =
      Ok (XArray.Labels "nOceanRegionsTmp" (OHC.regionNames self)) /\
    XArray.sizes out !! "nOceanRegionsTmp"%string =
      Some (length (OHC.regionNames self)) /\
    (forall n, XArray.sizes (OHC.ds self) !! "nOceanRegionsTmp"%string = Some n ->
       n = length (OHC.regionNames self)) /\
    take (XArray.Time (OHC.ds self)) timeIndices = Ok (XArray.Time out) /\
    (forall name, name <> "ohc"%string -> name <> "regionNames"%string ->
       forall v, XArray.getitem Slab out name = Ok v ->
         OHC.selected F Slab self timeIndices name = Ok v).
Proof.
  unfold OHC._compute_ohc_part. intros H. bind_inv H. injection H as <-.
  match goal with
  | E : XArray.scale_array _ _ ?v = Ok _ |- _ =>
      destruct v; simpl in E; [injection E as <-|discriminate E]
  end.
  repeat match goal with
  | E : XArray.times_array _ _ _ ?b = Ok _ |- _ =>
      destruct b; simpl in E; [injection E as <-|discriminate E]
  end.
  match goal with
  | Eisel : XArray.isel _ _ _ = Ok ?dsLocal,
    Eohc : XArray.setitem _ ?dsLocal "ohc" _ = Ok ?ds1,
    Ereg : XArray.setitem _ ?ds1 "regionNames" _ = Ok ?ds2 |- _ =>
      destruct (setitem_spec Slab _ _ _ _ Eohc) as (Gohc & Kohc & Sohc & _);
      destruct (setitem_spec Slab _ _ _ _ Ereg) as (Greg & Kreg & Sreg & Nreg);
      pose proof (setitem_Time Slab _ _ _ _ Eohc) as Tohc;
      pose proof (setitem_Time Slab _ _ _ _ Ereg) as Treg;
      destruct (isel_spec Slab _ _ _ Eisel) as (_ & _ & Hsizes & _);
      pose proof Eisel as Etime
  end.
  do 6 eexists.
  split; [reflexivity|]. split; [reflexivity|].
  split; [eapply isel_selected; eassumption|].
  split; [eapply isel_selected; eassumption|].
  split; [eapply isel_selected; eassumption|].
  split; [eapply isel_selected; eassumption|].
  split; [rewrite Kreg by discriminate; exact Gohc|].
  split; [exact Greg|]. split; [exact Sreg|].
  split; [intros n Hn; apply Nreg; rewrite Sohc, Hsizes; exact Hn|].
  split.
  - rewrite Treg, Tohc. unfold XArray.isel in Etime. bind_inv Etime.
    injection Etime as <-. simpl. reflexivity.
  - intros name Hohc Hreg v Hv.
    rewrite Kreg in Hv by congruence. rewrite Kohc in Hv by congruence.
    eapply isel_selected; eassumption.
Qed.

(** X17.  [_compute_ohc_part] reads the two constants of the namelist
    before it touches the data: a missing constant raises [KeyError]
    whatever the indices are, and with both constants an index outside the
    [Time] dimension raises [IndexError]. *)
Theorem ohc_part_raises (self : OHC.Task F Slab) (timeIndices : list Z)
    (firstCall : bool) :
  (OHC.namelist self !! "config_specific_heat_sea_water"%string = None ->
   OHC._compute_ohc_part F Slab fmul scale mul self timeIndices firstCall =
     Raise (KeyError "config_specific_heat_sea_water")) /\
  (is_Some (OHC.namelist self !! "config_specific_heat_sea_water"%string) ->
   OHC.namelist self !! "config_density0"%string = None ->
   OHC._compute_ohc_part F Slab fmul scale mul self timeIndices firstCall =
     Raise (KeyError "config_density0")) /\
  (is_Some (OHC.namelist self !! "config_specific_heat_sea_water"%string) ->
   is_Some (OHC.namelist self !! "config_density0"%string) ->
   ~ valid_indices (length (XArray.Time (OHC.ds self))) timeIndices ->
   OHC._compute_ohc_part F Slab fmul scale mul self timeIndices firstCall =
     Raise (IndexError "index out of range")).
Proof.
  unfold OHC._compute_ohc_part, OHC.getfloat. repeat split.
  - intros ->. reflexivity.
  - intros [cp ->] ->. reflexivity.
  - intros [cp ->] [rho ->] H. cbn [bindR]. unfold XArray.isel.
    now rewrite (take_invalid _ _ H).
Qed.

End OHCContent.

(** The first entry, then the last two, of three monthly entries. *)
Lemma sst_part_chunks_witness :
  exists out,
    SST._compute_sst_part Examples.sst_dataset ([0] ++ [1; -1]) false = Ok out /\
    XArray.Time out = XArray.Time Cases.sst_first ++ XArray.Time Cases.sst_second /\
    XArray.sizes out = XArray.sizes Examples.sst_dataset /\
    (forall name x y,
       XArray.getitem Z Cases.sst_first name = Ok (XArray.AlongTime x) ->
       XArray.getitem Z Cases.sst_second name = Ok (XArray.AlongTime y) ->
       XArray.getitem Z out name = Ok (XArray.AlongTime (x ++ y))) /\
    (forall name dim names,
       XArray.getitem Z Cases.sst_first name = Ok (XArray.Labels dim names) ->
       XArray.getitem Z out name = Ok (XArray.Labels dim names)).
Proof.
  apply (sst_part_chunks Z Examples.sst_dataset Cases.sst_first Cases.sst_second
           [0] [1; -1] true false false); reflexivity.
Defined.

Lemma sst_part_index_error_witness :
  SST._compute_sst_part Examples.sst_dataset [0; 3] true =
    Raise (IndexError "index out of range").
Proof.
  apply (sst_part_index_error Z Examples.sst_dataset [0; 3] true).
  unfold valid_indices. intros H.
  apply Forall_cons_iff in H as [_ H]. apply Forall_cons_iff in H as [H _].
  simpl in H. lia.
Defined.

Lemma ohc_part_content_witness :
  exists cp rho mask area thickness anomaly,
    OHC.getfloat Z Z Examples.ohc_task "config_specific_heat_sea_water" = Ok cp /\
    OHC.getfloat Z Z Examples.ohc_task "config_density0" = Ok rho /\
    OHC.selected Z Z Examples.ohc_task [1; 2] OHC.sumMaskVarName =
      Ok (XArray.AlongTime mask) /\
    OHC.selected Z Z Examples.ohc_task [1; 2] OHC.avgAreaVarName =
      Ok (XArray.AlongTime area) /\
    OHC.selected Z Z Examples.ohc_task [1; 2] OHC.avgThickVarName =
      Ok (XArray.AlongTime thickness) /\
    OHC.selected Z Z Examples.ohc_task [1; 2] "avgLayTemperatureAnomaly" =
      Ok (XArray.AlongTime anomaly) /\
    XArray.getitem Z Cases.ohc_part "ohc" =
      Ok (XArray.AlongTime
            (zip_with Z.mul
               (zip_with Z.mul
                  (zip_with Z.mul (map (Z.mul (Z.mul rho cp)) mask) area)
                  thickness)
               anomaly)) /\
    XArray.getitem Z Cases.ohc_part "regionNames" =
      Ok (XArray.Labels "nOceanRegionsTmp" (OHC.regionNames Examples.ohc_task)) /\
    XArray.sizes Cases.ohc_part !! "nOceanRegionsTmp"%string =
      Some (length (OHC.regionNames Examples.ohc_task)) /\
    (forall n,
       XArray.sizes (OHC.ds Examples.ohc_task) !! "nOceanRegionsTmp"%string =
         Some n ->
       n = length (OHC.regionNames Examples.ohc_task)) /\
    take (XArray.Time (OHC.ds Examples.ohc_task)) [1; 2] =
      Ok (XArray.Time Cases.ohc_part) /\
    (forall name, name <> "ohc"%string -> name <> "regionNames"%string ->
       forall v, XArray.getitem Z Cases.ohc_part name = Ok v ->
         OHC.selected Z Z Examples.ohc_task [1; 2] name = Ok v).
Proof.
  apply (ohc_part_content Z Z Z.mul Z.mul Z.mul Examples.ohc_task [1; 2] false
           Cases.ohc_part).
  reflexivity.
Defined.

(** Three monthly entries, index 5. *)
Lemma ohc_part_raises_witness :
  OHC._compute_ohc_part Z Z Z.mul Z.mul Z.mul Examples.ohc_task [5] true =
    Raise (IndexError "index out of range").
Proof.
  apply (proj2 (proj2 (ohc_part_raises Z Z Z.mul Z.mul Z.mul Examples.ohc_task
                         [5] true))).
  - eexists. vm_compute. reflexivity.
  - eexists. vm_compute. reflexivity.
  - unfold valid_indices. intros H. apply Forall_cons_iff in H as [H _].
    simpl in H. lia.
Defined.

(** ** The replicated cycle of the sea-ice time series *)

Lemma fold_min_le (l : list Z) (a : Z) :
  fold_left Z.min l a <= a /\ (forall x, In x l -> fold_left Z.min l a <= x) /\
  In (fold_left Z.min l a) (a :: l).
Proof.
  revert a. induction l as [|y l IH]; intros a; simpl.
  - split; [lia|]. split; [intros x []|now left].
  - destruct (IH (Z.min a y)) as [H1 [H2 H3]].
    split; [lia|]. split.
    + intros x [<-|Hx]; [lia|now apply H2].
    + destruct H3 as [H3|H3]; [|now right; right].
      rewrite <- H3. destruct (Z.min_spec a y) as [[_ E]|[_ E]]; rewrite E; auto.
Qed.

Lemma Time_min_spec (times : list Z) :
  times <> [] ->
  exists m, SeaIce.Time_min times = Ok m /\ In m times /\
    forall x, In x times -> m <= x.
Proof.
  destruct times as [|t rest]; [congruence|]. intros _.
  destruct (fold_min_le rest t) as [H1 [H2 H3]].
  exists (fold_left Z.min rest t). split; [reflexivity|]. split; [exact H3|].
  intros x [<-|Hx]; [exact H1|now apply H2].
Qed.

Lemma second_time {V : Type} (dsToReplicate : list (SeaIce.Sample V)) :
  (2 <= length dsToReplicate)%nat ->
  exists t, py_index (map SeaIce.time dsToReplicate) 1 = Ok t /\
    In t (map SeaIce.time dsToReplicate).
Proof.
  destruct dsToReplicate as [|s1 [|s2 rest]]; simpl; try lia. intros _.
  exists (SeaIce.time s2). split; [|auto].
  apply (py_index_nth _ 1%nat). reflexivity.
Qed.

(** What [replicate_cycle] reads, when it gets as far as its loops. *)
Lemma replicate_cycle_inv {V : Type} (fuel : nat) (ds : list Z)
    (dsToReplicate out : list (SeaIce.Sample V)) :
  SeaIce.replicate_cycle fuel ds dsToReplicate = Some (Ok out) ->
  exists dsStart dsEnd repStart repEnd repSecond startIndex endIndex,
    SeaIce.Time_min ds = Ok dsStart /\ SeaIce.Time_max ds = Ok dsEnd /\
    SeaIce.Time_min (map SeaIce.time dsToReplicate) = Ok repStart /\
    SeaIce.Time_max (map SeaIce.time dsToReplicate) = Ok repEnd /\
    py_index (map SeaIce.time dsToReplicate) 1 = Ok repSecond /\
    let period := SeaIce.cycle_period repStart repEnd repSecond in
    SeaIce.start_loop fuel dsStart repStart period 0 = Some startIndex /\
    SeaIce.end_loop fuel dsEnd repEnd period 0 = Some endIndex /\
    out = SeaIce.replicate_loop dsToReplicate period
            (SeaIce.range startIndex endIndex)
            (SeaIce.shifted dsToReplicate period startIndex).
Proof.
  unfold SeaIce.replicate_cycle.
  destruct (SeaIce.Time_min ds) as [dsStart|]; [|discriminate].
  destruct (SeaIce.Time_max ds) as [dsEnd|]; [|discriminate].
  destruct (SeaIce.Time_min (map SeaIce.time dsToReplicate)) as [repStart|];
    [|discriminate].
  destruct (SeaIce.Time_max (map SeaIce.time dsToReplicate)) as [repEnd|];
    [|discriminate].
  destruct (py_index (map SeaIce.time dsToReplicate) 1) as [repSecond|];
    [|discriminate].
  destruct (SeaIce.start_loop _ _ _ _ _) as [startIndex|] eqn:Es; [|discriminate].
  destruct (SeaIce.end_loop _ _ _ _ _) as [endIndex|] eqn:Ee; [|discriminate].
  intros [= <-]. exists dsStart, dsEnd, repStart, repEnd, repSecond, startIndex, endIndex.
  repeat split; assumption.
Qed.

(** X18.  [replicate_cycle] raises exactly on a model series without a
    time ([ValueError] of the reduction of an empty array) or a cycle of
    fewer than two times ([ValueError] when it is empty, [IndexError] of
    [isel(Time=1)] when it holds one time); otherwise it raises nothing. *)
Theorem replicate_cycle_raises {V : Type} (fuel : nat) (ds : list Z)
    (dsToReplicate : list (SeaIce.Sample V)) :
  (ds = [] \/ dsToReplicate = [] ->
   exists msg,
     SeaIce.replicate_cycle fuel ds dsToReplicate = Some (Raise (ValueError msg))) /\
  (ds <> [] -> length dsToReplicate = 1%nat ->
   exists msg,
     SeaIce.replicate_cycle fuel ds dsToReplicate = Some (Raise (IndexError msg))) /\
  (ds <> [] -> (2 <= length dsToReplicate)%nat ->
   forall e, SeaIce.replicate_cycle fuel ds dsToReplicate <> Some (Raise e)).
Proof.
  unfold SeaIce.replicate_cycle. repeat split.
  - intros [->| ->].
    + simpl. eauto.
    + destruct ds as [|t rest]; simpl; eauto.
  - intros Hds Hlen. destruct ds as [|t rest]; [congruence|].
    destruct dsToReplicate as [|s [|s' more]]; try discriminate. simpl. eauto.
  - intros Hds Hlen e.
    destruct (Time_min_ok ds Hds) as [dsStart ->].
    destruct (Time_max_spec ds Hds) as (dsEnd & -> & _).
    assert (Hrep : map SeaIce.time dsToReplicate <> []).
    { destruct dsToReplicate; simpl in *; [lia|discriminate]. }
    destruct (Time_min_ok _ Hrep) as [repStart ->].
    destruct (Time_max_spec _ Hrep) as (repEnd & -> & _).
    destruct (second_time dsToReplicate Hlen) as (repSecond & -> & _).
    destruct (SeaIce.start_loop _ _ _ _ _); [|discriminate].
    destruct (SeaIce.end_loop _ _ _ _ _); discriminate.
Qed.

(** A cycle of one time only. *)
Lemma replicate_cycle_raises_witness :
  exists msg,
    SeaIce.replicate_cycle 5 [15; 45]
      [{| SeaIce.time := 15; SeaIce.value := 1 |}] =
    Some (Raise (IndexError msg)).
Proof.
  apply (proj1 (proj2 (replicate_cycle_raises 5 [15; 45]
                         [{| SeaIce.time := 15; SeaIce.value := 1 |}]))).
  - discriminate.
  - reflexivity.
Defined.

Lemma replicate_loop_flat {V : Type} (rep : list (SeaIce.Sample V)) (period : Z)
    (cycles : list Z) (acc : list (SeaIce.Sample V)) :
  SeaIce.replicate_loop rep period cycles acc =
    acc ++ flat_map (fun c => SeaIce.shifted rep period (c + 1)) cycles.
Proof.
  revert acc. induction cycles as [|c rest IH]; intros acc; simpl.
  - now rewrite app_nil_r.
  - now rewrite IH, <- app_assoc.
Qed.

Lemma range_succ (a b : Z) :
  SeaIce.range (a + 1) (b + 1) = map (fun c => c + 1) (SeaIce.range a b).
Proof.
  unfold SeaIce.range. rewrite map_map.
  replace (b + 1 - (a + 1)) with (b - a) by lia.
  apply map_ext. intros i. lia.
Qed.

Lemma start_loop_spec (dsStartTime repStartTime period : Z) (fuel : nat)
    (k k' : Z) :
  SeaIce.start_loop fuel dsStartTime repStartTime period k = Some k' ->
  k <= k' /\ dsStartTime <= repStartTime + (k' + 1) * period /\
  (k < k' -> repStartTime + k' * period < dsStartTime).
Proof.
  revert k. induction fuel as [|fuel IH]; intros k; simpl; [discriminate|].
  destruct (Z.gtb_spec dsStartTime (repStartTime + (k + 1) * period)) as [Hgt|Hle].
  - intros H. destruct (IH _ H) as (H1 & H2 & H3).
    split; [lia|]. split; [exact H2|]. intros _.
    destruct (Z.eq_dec (k + 1) k') as [<-|Hne]; [lia|apply H3; lia].
  - intros [= <-]. split; [lia|]. split; [lia|lia].
Qed.

Lemma end_loop_spec (dsEndTime repEndTime period : Z) (fuel : nat) (k k' : Z) :
  SeaIce.end_loop fuel dsEndTime repEndTime period k = Some k' ->
  k <= k' /\ dsEndTime <= repEndTime + k' * period.
Proof.
  revert k. induction fuel as [|fuel IH]; intros k; simpl; [discriminate|].
  destruct (Z.gtb_spec dsEndTime (repEndTime + k * period)) as [Hgt|Hle].
  - intros H. destruct (IH _ H) as (H1 & H2). split; [lia|exact H2].
  - intros [= <-]. split; lia.
Qed.

(** The result of [replicate_cycle]: copies of the cycle moved by
    [startIndex], [startIndex + 1], ... periods, up to [endIndex]. *)
Lemma replicate_cycle_copies {V : Type} (fuel : nat) (ds : list Z)
    (dsToReplicate out : list (SeaIce.Sample V)) :
  SeaIce.replicate_cycle fuel ds dsToReplicate = Some (Ok out) ->
  exists period startIndex endIndex,
    SeaIce.period_of dsToReplicate = Ok period /\
    0 <= startIndex /\ 0 <= endIndex /\
    out = flat_map (SeaIce.shifted dsToReplicate period)
            (startIndex :: SeaIce.range (startIndex + 1) (endIndex + 1)).
Proof.
  intros H.
  destruct (replicate_cycle_inv _ _ _ _ H)
    as (dsStart & dsEnd & repStart & repEnd & repSecond & startIndex & endIndex &
        _ & _ & Emin & Emax & Esec & Es & Ee & ->).
  exists (SeaIce.cycle_period repStart repEnd repSecond), startIndex, endIndex.
  split; [|split; [|split]].
  - unfold SeaIce.period_of. now rewrite Emin, Emax, Esec.
  - apply start_loop_spec in Es. lia.
  - apply end_loop_spec in Ee. lia.
  - rewrite replicate_loop_flat, range_succ. cbn [flat_map]. f_equal.
    generalize (SeaIce.range startIndex endIndex) as cs. clear.
    induction cs as [|c cs IH]; [reflexivity|].
    cbn [map flat_map]. now rewrite IH.
Qed.

(** X19.  The values of the replicated cycle: [replicate_cycle] returns
    the values of [dsToReplicate] repeated a whole number of times, at least
    once (also when the model series is shorter than one cycle), so its
    length is a multiple of the length of the cycle. *)
Theorem replicate_cycle_values {V : Type} (fuel : nat) (ds : list Z)
    (dsToReplicate out : list (SeaIce.Sample V)) :
  SeaIce.replicate_cycle fuel ds dsToReplicate = Some (Ok out) ->
  exists copies,
    (1 <= copies)%nat /\
    map SeaIce.value out =
      concat (repeat (map SeaIce.value dsToReplicate) copies) /\
    length out = (copies * length dsToReplicate)%nat.
Proof.
  intros H.
  destruct (replicate_cycle_copies _ _ _ _ H)
    as (period & startIndex & endIndex & _ & _ & _ & ->).
  set (shifts := startIndex :: SeaIce.range (startIndex + 1) (endIndex + 1)).
  exists (length shifts). split; [simpl; lia|].
  assert (Hvalues : forall ks,
            map SeaIce.value (flat_map (SeaIce.shifted dsToReplicate period) ks) =
            concat (repeat (map SeaIce.value dsToReplicate) (length ks))).
  { induction ks as [|k ks IH]; [reflexivity|].
    cbn [flat_map length repeat concat]. rewrite map_app, IH. f_equal.
    unfold SeaIce.shifted. rewrite map_map. reflexivity. }
  split; [apply Hvalues|].
  rewrite <- (length_map SeaIce.value), Hvalues.
  clear. induction (length shifts) as [|n IH]; [reflexivity|].
  cbn [repeat concat]. rewrite length_app, IH, length_map. lia.
Qed.

Lemma replicate_cycle_values_witness :
  exists copies,
    (1 <= copies)%nat /\
    map SeaIce.value
      (flat_map (SeaIce.shifted Examples.yearly_cycle 360) [2; 3; 4]) =
      concat (repeat (map SeaIce.value Examples.yearly_cycle) copies) /\
    length (flat_map (SeaIce.shifted Examples.yearly_cycle 360) [2; 3; 4]) =
      (copies * length Examples.yearly_cycle)%nat.
Proof.
  apply (replicate_cycle_values 5 Examples.model_times Examples.yearly_cycle).
  vm_compute. reflexivity.
Defined.

Lemma period_of_inv {V : Type} (dsToReplicate : list (SeaIce.Sample V))
    (period : Z) :
  SeaIce.period_of dsToReplicate = Ok period ->
  exists repStart repEnd repSecond,
    SeaIce.Time_min (map SeaIce.time dsToReplicate) = Ok repStart /\
    SeaIce.Time_max (map SeaIce.time dsToReplicate) = Ok repEnd /\
    py_index (map SeaIce.time dsToReplicate) 1 = Ok repSecond /\
    period = SeaIce.cycle_period repStart repEnd repSecond.
Proof.
  unfold SeaIce.period_of.
  destruct (SeaIce.Time_min _) as [repStart|]; [|discriminate]. cbn [bindR].
  destruct (SeaIce.Time_max _) as [repEnd|]; [|discriminate]. cbn [bindR].
  destruct (py_index _ 1) as [repSecond|]; [|discriminate]. cbn [bindR].
  intros [= <-]. exists repStart, repEnd, repSecond. auto.
Qed.

Lemma py_index_In {A : Type} (l : list A) (i : Z) (x : A) :
  py_index l i = Ok x -> In x l.
Proof.
  unfold py_index. destruct (norm_index (length l) i) as [n|]; [|discriminate].
  cbn [bindR]. destruct (nth_error l n) eqn:E; [|discriminate].
  intros [= <-]. eapply nth_error_In. exact E.
Qed.

Lemma Time_min_inv (times : list Z) (m : Z) :
  SeaIce.Time_min times = Ok m -> In m times /\ forall x, In x times -> m <= x.
Proof.
  intros H. destruct (Time_min_spec times) as (m' & E & Hin & Hle).
  - intros ->. discriminate.
  - rewrite E in H. injection H as <-. auto.
Qed.

Lemma Time_max_inv (times : list Z) (m : Z) :
  SeaIce.Time_max times = Ok m -> In m times /\ forall x, In x times -> x <= m.
Proof.
  intros H. destruct (Time_max_spec times) as (m' & E & Hin & Hle).
  - intros ->. discriminate.
  - rewrite E in H. injection H as <-. auto.
Qed.

(** X21.  The period [replicate_cycle] computes is never negative, and
    it is positive exactly when the cycle holds two different times. *)
Theorem period_of_positive_iff {V : Type} (dsToReplicate : list (SeaIce.Sample V))
    (period : Z) :
  SeaIce.period_of dsToReplicate = Ok period ->
  0 <= period /\
  (0 < period <->
   exists t u, In t (map SeaIce.time dsToReplicate) /\
               In u (map SeaIce.time dsToReplicate) /\ t <> u).
Proof.
  intros H. destruct (period_of_inv _ _ H) as (a & b & c & Ea & Eb & Ec & ->).
  destruct (Time_min_inv _ _ Ea) as (Ha & Hlow).
  destruct (Time_max_inv _ _ Eb) as (Hb & Hup).
  pose proof (py_index_In _ _ _ Ec) as Hc.
  pose proof (Hlow b Hb). pose proof (Hlow c Hc).
  unfold SeaIce.cycle_period. split; [lia|]. split.
  - intros Hpos. destruct (Z.eq_dec a b) as [<-|Hab].
    + exists a, c. repeat split; try assumption. lia.
    + exists a, b. auto.
  - intros (t & u & Ht & Hu & Hne).
    pose proof (Hlow t Ht). pose proof (Hlow u Hu).
    pose proof (Hup t Ht). pose proof (Hup u Hu). lia.
Qed.

Lemma period_of_positive_iff_witness :
  0 <= 360 /\
  (0 < 360 <->
   exists t u, In t (map SeaIce.time Examples.yearly_cycle) /\
               In u (map SeaIce.time Examples.yearly_cycle) /\ t <> u).
Proof.
  apply (period_of_positive_iff Examples.yearly_cycle 360).
  vm_compute. reflexivity.
Defined.

Lemma end_loop_stuck (dsEndTime repEndTime : Z) (fuel : nat) (k : Z) :
  repEndTime < dsEndTime ->
  SeaIce.end_loop fuel dsEndTime repEndTime 0 k = None.
Proof.
  intros H. revert k. induction fuel as [|fuel IH]; intros k; simpl; [reflexivity|].
  destruct (Z.gtb_spec dsEndTime (repEndTime + k * 0)); [apply IH|lia].
Qed.

(** X22.  On a cycle whose times are all the same (period zero) and a
    model series that ends after it, [replicate_cycle] never returns: its
    second [while] loop does not advance, whatever the number of tests
    allowed. *)
Theorem replicate_cycle_never_ends {V : Type} (ds : list Z)
    (dsToReplicate : list (SeaIce.Sample V)) (dsEndTime repEndTime : Z) :
  SeaIce.period_of dsToReplicate = Ok 0 ->
  SeaIce.Time_max ds = Ok dsEndTime ->
  SeaIce.Time_max (map SeaIce.time dsToReplicate) = Ok repEndTime ->
  repEndTime < dsEndTime ->
  forall fuel, SeaIce.replicate_cycle fuel ds dsToReplicate = None.
Proof.
  intros Hperiod HdsEnd HrepEnd Hlt fuel.
  destruct (period_of_inv _ _ Hperiod) as (a & b & c & Ea & Eb & Ec & Ep).
  rewrite HrepEnd in Eb. injection Eb as <-.
  unfold SeaIce.replicate_cycle.
  destruct ds as [|t rest]; [discriminate|].
  rewrite HdsEnd, Ea, HrepEnd, Ec, <- Ep.
  cbn [SeaIce.Time_min].
  destruct (SeaIce.start_loop _ _ _ _ _); [|reflexivity].
  now rewrite end_loop_stuck.
Qed.

Lemma replicate_cycle_never_ends_witness :
  SeaIce.replicate_cycle 1000 [15; 45]
    [{| SeaIce.time := 15; SeaIce.value := 1 |};
     {| SeaIce.time := 15; SeaIce.value := 2 |}] = None.
Proof.
  generalize 1000%nat.
  apply (replicate_cycle_never_ends [15; 45]
           [{| SeaIce.time := 15; SeaIce.value := 1 |};
            {| SeaIce.time := 15; SeaIce.value := 2 |}] 45 15).
  - reflexivity.
  - reflexivity.
  - reflexivity.
  - lia.
Defined.

(** ** Layer thickness and the normalised vertical section *)

Lemma zip_with_firstn {A B C : Type} (f : A -> B -> C) (l : list A) (l' : list B) :
  zip_with f l (firstn (length l) l') = zip_with f l l'.
Proof.
  revert l'. induction l as [|x l IH]; intros [|y l']; simpl; try reflexivity.
  now rewrite IH.
Qed.

Lemma slice_tail {A : Type} (x : A) (l : list A) :
  Python.slice (x :: l) 1 (Z.of_nat (length (x :: l))) = l.
Proof.
  change 1 with (Z.of_nat 1).
  rewrite (slice_inside (x :: l) 1 (length (x :: l))) by (simpl; lia).
  simpl. rewrite Nat.sub_0_r. apply firstn_all.
Qed.

Lemma slice_init {A : Type} (x : A) (l : list A) :
  Python.slice (x :: l) 0 (Z.of_nat (length (x :: l)) - 1) =
    firstn (length l) (x :: l).
Proof.
  replace (Z.of_nat (length (x :: l)) - 1) with (Z.of_nat (length l))
    by (simpl length; lia).
  change 0 with (Z.of_nat 0).
  rewrite (slice_inside (x :: l) 0 (length l)) by (simpl; lia).
  now rewrite Nat.sub_0_r.
Qed.

Lemma set_item_head {A : Type} (x y : A) (l : list A) :
  Python.set_item (y :: l) 0 x = Ok (x :: l).
Proof.
  unfold Python.set_item, norm_index.
  destruct (Z.ltb_spec 0 (Z.of_nat (length (y :: l)))); [|simpl length in *; lia].
  reflexivity.
Qed.

Lemma set_slice_tail {A : Type} (x : A) (l xs : list A) :
  length xs = length l ->
  Python.set_slice (x :: l) 1 (Z.of_nat (length (x :: l))) xs = Ok (x :: xs).
Proof.
  intros H. unfold Python.set_slice, Python.slice_bound.
  change (1 <? 0) with false. cbv iota.
  destruct (Z.ltb_spec (Z.of_nat (length (x :: l))) 0); [lia|].
  rewrite !Z.min_l by (simpl length; lia).
  replace (Z.to_nat (Z.of_nat (length (x :: l)) - 1)) with (length l)
    by (simpl length; lia).
  rewrite H, Nat.eqb_refl. change (Z.to_nat 1) with 1%nat.
  rewrite skipn_all2 by (simpl; lia).
  cbn [firstn app]. now rewrite app_nil_r.
Qed.

Lemma refLayerThickness_levels (d0 : Q) (rest : list Q) :
  MHTRun.refLayerThickness (d0 :: rest) =
    Ok (d0 :: zip_with Qminus rest (d0 :: rest)).
Proof.
  unfold MHTRun.refLayerThickness.
  rewrite slice_tail, slice_init, zip_with_firstn.
  change (py_index (d0 :: rest) 0) with (Ok d0). cbn [bindR].
  cbn [length repeat]. rewrite set_item_head. cbn [bindR].
  pose proof (set_slice_tail d0 (repeat 0%Q (length rest))
                (zip_with Qminus rest (d0 :: rest))) as E.
  cbn [length] in E. rewrite repeat_length in E. apply E.
  rewrite length_zip_with. simpl. lia.
Qed.

(** X24.  [refLayerThickness]: an empty depth array raises [IndexError];
    otherwise the array holds one thickness per level, the first depth
    followed by the differences of each depth and the one above it. *)
Theorem refLayerThickness_spec :
  (exists msg, MHTRun.refLayerThickness [] = Raise (IndexError msg)) /\
  (forall first deeper,
     MHTRun.refLayerThickness (first :: deeper) =
       Ok (first :: zip_with Qminus deeper (first :: deeper))).
Proof.
  split; [vm_compute; eauto|]. exact refLayerThickness_levels.
Qed.

(** X25.  Depths that increase strictly from a positive first depth give
    positive thicknesses only, so the normalisation of the vertical section
    never divides by zero. *)
Theorem refLayerThickness_positive (refBottomDepth thickness : list Q) :
  MHTRun.refLayerThickness refBottomDepth = Ok thickness ->
  Sorted Qlt (0%Q :: refBottomDepth) ->
  length thickness = length refBottomDepth /\
  Forall (fun t => (0 < t)%Q) thickness.
Proof.
  intros H Hsorted. destruct refBottomDepth as [|d0 rest].
  - vm_compute in H. discriminate.
  - rewrite refLayerThickness_levels in H. injection H as <-.
    apply Sorted_inv in Hsorted as [Hsorted H0].
    apply HdRel_inv in H0.
    split; [simpl; rewrite length_zip_with; simpl; lia|].
    constructor; [exact H0|].
    clear H0. revert d0 Hsorted. induction rest as [|d1 rest IH]; intros d0 Hs.
    + constructor.
    + apply Sorted_inv in Hs as [Hs Hd]. apply HdRel_inv in Hd.
      cbn [zip_with]. constructor; [|now apply IH].
      unfold Qminus. now apply (proj1 (Qlt_minus_iff d0 d1)).
Qed.

Lemma refLayerThickness_positive_witness :
  length [100#1; 400#1; 400#1; 900#1; 700#1]%Q = length Cases.depths /\
  Forall (fun t => (0 < t)%Q) [100#1; 400#1; 400#1; 900#1; 700#1]%Q.
Proof.
  apply (refLayerThickness_positive Cases.depths
           [100#1; 400#1; 400#1; 900#1; 700#1]%Q).
  - vm_compute. reflexivity.
  - repeat constructor.
Defined.

Section NormalizeFacts.

Variable Row : Type.
Variable divide : Row -> Q -> Row.

Lemma nth_error_middle {A : Type} (done todo : list A) (x : A) :
  nth_error (done ++ x :: todo) (length done) = Some x.
Proof. induction done as [|y done IH]; simpl; auto. Qed.

Lemma set_item_middle {A : Type} (done todo : list A) (x y : A) :
  Python.set_item (done ++ x :: todo) (Z.of_nat (length done)) y =
    Ok (done ++ y :: todo).
Proof.
  unfold Python.set_item, norm_index. rewrite length_app. cbn [length].
  destruct (Z.leb_spec 0 (Z.of_nat (length done))); [|lia].
  destruct (Z.ltb_spec (Z.of_nat (length done))
              (Z.of_nat (length done + S (length todo)))); [|lia].
  cbn [andb bindR]. rewrite Nat2Z.id. f_equal. clear.
  induction done as [|z done IH]; simpl; [reflexivity|now rewrite IH].
Qed.

Lemma normalize_loop_from (later : list Q) :
  forall (earlier : list Q) (done todo : list Row),
    length earlier = length done ->
    MHTRun.normalize_loop Row divide (earlier ++ later)
      (map (fun i => Z.of_nat (length done + i)) (seq 0 (length later)))
      (done ++ todo) =
    if (length later <=? length todo)%nat
    then Ok (done ++ zip_with divide todo later ++ skipn (length later) todo)
    else Raise (IndexError "index out of range").
Proof.
  induction later as [|t later IH]; intros earlier done todo Hlen.
  - destruct todo; reflexivity.
  - cbn [length seq map MHTRun.normalize_loop]. rewrite Nat.add_0_r.
    destruct todo as [|row todo].
    + rewrite app_nil_r. rewrite py_index_invalid by lia. reflexivity.
    + rewrite (py_index_nth _ _ _ (nth_error_middle done todo row)).
      cbn [bindR]. rewrite <- Hlen.
      rewrite (py_index_nth _ _ _ (nth_error_middle earlier later t)).
      cbn [bindR]. rewrite Hlen, set_item_middle. cbn [bindR].
      replace (done ++ divide row t :: todo)
        with ((done ++ [divide row t]) ++ todo) by now rewrite <- app_assoc.
      replace (earlier ++ t :: later)
        with ((earlier ++ [t]) ++ later) by now rewrite <- app_assoc.
      rewrite <- seq_shift, map_map.
      rewrite (map_ext _ (fun i => Z.of_nat (length (done ++ [divide row t]) + i)))
        by (intros i; rewrite length_app; simpl; f_equal; lia).
      rewrite IH by (rewrite !length_app; simpl; lia).
      cbn [length skipn zip_with].
      change (S (length later) <=? S (length todo))%nat
        with (length later <=? length todo)%nat.
      destruct (length later <=? length todo)%nat; [|reflexivity].
      now rewrite <- app_assoc.
Qed.

(** X26.  The normalisation loop of the vertical section divides each of
    the first [nVertLevels] rows of [MHTLatZ] by the thickness of its own
    level and leaves the rows after them as they are; when [MHTLatZ] has
    fewer rows than the depth array has levels it raises [IndexError]. *)
Theorem normalize_spec (refLayerThickness : list Q) (MHTLatZ : list Row) :
  ((length refLayerThickness <= length MHTLatZ)%nat ->
   MHTRun.normalize Row divide (length refLayerThickness) refLayerThickness MHTLatZ =
     Ok (zip_with divide MHTLatZ refLayerThickness ++
         skipn (length refLayerThickness) MHTLatZ)) /\
  ((length MHTLatZ < length refLayerThickness)%nat ->
   MHTRun.normalize Row divide (length refLayerThickness) refLayerThickness MHTLatZ =
     Raise (IndexError "index out of range")).
Proof.
  assert (E : MHTRun.normalize Row divide (length refLayerThickness)
                refLayerThickness MHTLatZ =
              if (length refLayerThickness <=? length MHTLatZ)%nat
              then Ok (zip_with divide MHTLatZ refLayerThickness ++
                       skipn (length refLayerThickness) MHTLatZ)
              else Raise (IndexError "index out of range")).
  { unfold MHTRun.normalize, SeaIce.range.
    rewrite Z.sub_0_r, Nat2Z.id.
    exact (normalize_loop_from refLayerThickness [] [] MHTLatZ eq_refl). }
  rewrite E. split; intros H.
  - now rewrite (proj2 (Nat.leb_le _ _) H).
  - now rewrite (proj2 (Nat.leb_gt _ _) H).
Qed.

End NormalizeFacts.

(** Two levels and three rows: the third row is left as it is. *)
Lemma normalize_spec_witness :
  MHTRun.normalize Q Qdiv 2 [2#1; 4#1]%Q [10#1; 20#1; 30#1]%Q =
    Ok (zip_with Qdiv [10#1; 20#1; 30#1]%Q [2#1; 4#1]%Q ++ [30#1]%Q).
Proof.
  apply (proj1 (normalize_spec Q Qdiv [2#1; 4#1]%Q [10#1; 20#1; 30#1]%Q)).
  simpl. lia.
Defined.

(** ** The function-style analyses *)

Ltac step_binds :=
  unfold bindR;
  repeat match goal with
         | |- context [match ?x with Ok _ => _ | Raise _ => _ end] =>
             lazymatch x with
             | context [match _ with Ok _ => _ | Raise _ => _ end] => fail
             | _ => destruct x eqn:?
             end
         end.

Lemma legacy_default_stream_map_aux (env : Legacy.Env) :
  (forall analysis figures,
     Legacy.sst_timeseries env None analysis <> Ok figures) /\
  (forall analysis figures,
     Legacy.seaice_timeseries env None analysis <> Ok figures).
Proof.
  split; intros analysis figures.
  - unfold Legacy.sst_timeseries, Legacy.stream_names. step_binds; discriminate.
  - unfold Legacy.seaice_timeseries, Legacy.stream_names. step_binds; discriminate.
Qed.

(** X27.  With the default [streamMap=None] neither [sst_timeseries] nor
    [seaice_timeseries] can return: the subscript [streamMap['timeSeriesStats']]
    is not guarded, so the call ends in an exception (at the latest the
    [TypeError] of the subscript) before any data is loaded, whatever the
    rest of the function would do. *)
Theorem legacy_default_stream_map (env : Legacy.Env) :
  (forall analysis analysis' figures,
     Legacy.sst_timeseries env None analysis <> Ok figures /\
     Legacy.sst_timeseries env None analysis =
       Legacy.sst_timeseries env None analysis') /\
  (forall analysis analysis' figures,
     Legacy.seaice_timeseries env None analysis <> Ok figures /\
     Legacy.seaice_timeseries env None analysis =
       Legacy.seaice_timeseries env None analysis').
Proof.
  split; intros analysis analysis' figures.
  - unfold Legacy.sst_timeseries, Legacy.stream_names. step_binds;
      split; (discriminate || reflexivity).
  - unfold Legacy.seaice_timeseries, Legacy.stream_names. step_binds;
      split; (discriminate || reflexivity).
Qed.

(** The same run with the default stream map. *)
Lemma legacy_default_stream_map_witness :
  Legacy.sst_timeseries Cases.legacy_env None
    (fun inputs => Ok (Legacy.sst_fileNames inputs)) <> Ok [] /\
  Legacy.sst_timeseries Cases.legacy_env None
    (fun inputs => Ok (Legacy.sst_fileNames inputs)) =
  Legacy.sst_timeseries Cases.legacy_env None (fun _ => Ok []).
Proof.
  exact (proj1 (legacy_default_stream_map Cases.legacy_env)
           (fun inputs => Ok (Legacy.sst_fileNames inputs)) (fun _ => Ok []) []).
Defined.

Lemma restart_file_source (env : Legacy.Env) (streams : Shared.StreamsFile)
    (inDirectory restartFile : string) :
  Legacy.restart_file env streams inDirectory = Ok restartFile ->
  Legacy.first_restart streams = Ok restartFile \/
  Legacy.ocean_restart env inDirectory = Ok restartFile.
Proof.
  unfold Legacy.restart_file, try_except.
  destruct (Legacy.first_restart streams) as [f|e]; [now left|].
  destruct (isValueError e); [|discriminate].
  destruct (Legacy.ocean_restart env inDirectory) as [f|e']; [now right|].
  destruct (isValueError e'); discriminate.
Qed.

Lemma start_time_source (env : Legacy.Env) (streams : Shared.StreamsFile)
    (inDirectory simulationStartTime : string) :
  Legacy.simulation_start_time env streams inDirectory = Ok simulationStartTime ->
  Legacy.start_time_from env streams inDirectory simulationStartTime.
Proof.
  unfold Legacy.simulation_start_time, Legacy.start_time_from, try_except.
  destruct (Shared.get_simulation_start_time streams) as [t|e]; [now left|].
  destruct (isIOError e); [|discriminate].
  intros H. right. bind_inv H. eauto.
Qed.

(** X28.  Both function-style analyses hand the rest of their work only
    inputs they have checked.  When [sst_timeseries] returns, its result is
    that of the analysis on the files discovered in the ocean streams of the
    configuration, between the configured dates, with a stream map that was
    given, and these files are not none.  When [seaice_timeseries] returns,
    the same holds with the sea-ice streams of the configuration, and the
    restart file and the simulation start time are those of these sea-ice
    streams or of the ocean streams of the configuration. *)
Theorem legacy_analysis_inputs (env : Legacy.Env)
    (streamMap : option (gmap string (list string))) (figures : list string) :
  (forall analysis,
     Legacy.sst_timeseries env streamMap analysis = Ok figures ->
     exists inputs streams streamName,
       analysis inputs = Ok figures /\
       Legacy.sst_reaches_discovery env streamMap streams streamName
         (Legacy.sst_startDate inputs) (Legacy.sst_endDate inputs)
         (Legacy.sst_calendar inputs) /\
       Shared.readpath_between streams streamName (Legacy.sst_startDate inputs)
         (Legacy.sst_endDate inputs) (Legacy.sst_calendar inputs) =
         Ok (Legacy.sst_fileNames inputs) /\
       Legacy.sst_fileNames inputs <> []) /\
  (forall analysis,
     Legacy.seaice_timeseries env streamMap analysis = Ok figures ->
     exists inputs streams inDirectory streamName,
       analysis inputs = Ok figures /\
       Legacy.seaice_reaches_discovery env streamMap streams inDirectory streamName
         (Legacy.ice_startDate inputs) (Legacy.ice_endDate inputs)
         (Legacy.ice_calendar inputs) (Legacy.ice_simulationStartTime inputs) /\
       Shared.readpath_between streams streamName (Legacy.ice_startDate inputs)
         (Legacy.ice_endDate inputs) (Legacy.ice_calendar inputs) =
         Ok (Legacy.ice_fileNames inputs) /\
       Legacy.ice_fileNames inputs <> [] /\
       Legacy.start_time_from env streams inDirectory
         (Legacy.ice_simulationStartTime inputs) /\
       (Legacy.first_restart streams = Ok (Legacy.ice_restartFile inputs) \/
        Legacy.ocean_restart env inDirectory = Ok (Legacy.ice_restartFile inputs))).
Proof.
  split; intros analysis.
  - unfold Legacy.sst_timeseries. step_binds; try discriminate.
    intros H.
    match goal with
    | E : Shared.readpath_between ?streams ?streamName _ _ _ = Ok ?files,
      P : Legacy.print_reading_files ?files = Ok _ |- _ =>
        eexists _, streams, streamName; split; [exact H|];
        cbn [Legacy.sst_startDate Legacy.sst_endDate Legacy.sst_calendar
             Legacy.sst_fileNames];
        split; [|split; [exact E|intros ->; discriminate P]]
    end.
    unfold Legacy.sst_reaches_discovery. do 5 eexists.
    repeat (split; [eassumption|]). eassumption.
  - unfold Legacy.seaice_timeseries. step_binds; try discriminate.
    intros H.
    match goal with
    | E : Shared.readpath_between ?streams ?streamName _ _ _ = Ok ?files,
      P : Legacy.print_reading_files ?files = Ok _,
      R : Legacy.restart_file _ ?streams ?inDirectory = Ok _,
      T : Legacy.simulation_start_time _ ?streams ?inDirectory = Ok _ |- _ =>
        eexists _, streams, inDirectory, streamName; split; [exact H|];
        cbn [Legacy.ice_startDate Legacy.ice_endDate Legacy.ice_calendar
             Legacy.ice_fileNames Legacy.ice_simulationStartTime
             Legacy.ice_restartFile];
        split; [|split; [exact E|split; [intros ->; discriminate P|
          split; [exact (start_time_source _ _ _ _ T)|
                  exact (restart_file_source _ _ _ _ R)]]]]
    end.
    unfold Legacy.seaice_reaches_discovery. do 4 eexists.
    repeat (split; [eassumption|]). eassumption.
Qed.

(** The ocean analysis on the run of [Cases]; the sea-ice analysis on a run
    whose sea-ice streams hold no restart file: the restart file and the
    start time come from the ocean streams. *)
Lemma legacy_analysis_inputs_witness :
  (exists inputs streams streamName,
     Ok (Legacy.sst_fileNames inputs) =
       Ok ["ts.0001-01.nc"; "ts.0001-02.nc"; "ts.0001-03.nc"]%string /\
     Legacy.sst_reaches_discovery Cases.legacy_env (Some Examples.stream_map)
       streams streamName (Legacy.sst_startDate inputs) (Legacy.sst_endDate inputs)
       (Legacy.sst_calendar inputs) /\
     Shared.readpath_between streams streamName (Legacy.sst_startDate inputs)
       (Legacy.sst_endDate inputs) (Legacy.sst_calendar inputs) =
       Ok (Legacy.sst_fileNames inputs) /\
     Legacy.sst_fileNames inputs <> []) /\
  (exists inputs streams inDirectory streamName,
     Ok [Legacy.ice_restartFile inputs; Legacy.ice_simulationStartTime inputs] =
       Ok ["mpaso.rst.0002-01-01.nc"; "0001-01-01_00:00:00"]%string /\
     Legacy.seaice_reaches_discovery Cases.sea_ice_env (Some Examples.stream_map)
       streams inDirectory streamName (Legacy.ice_startDate inputs)
       (Legacy.ice_endDate inputs) (Legacy.ice_calendar inputs)
       (Legacy.ice_simulationStartTime inputs) /\
     Shared.readpath_between streams streamName (Legacy.ice_startDate inputs)
       (Legacy.ice_endDate inputs) (Legacy.ice_calendar inputs) =
       Ok (Legacy.ice_fileNames inputs) /\
     Legacy.ice_fileNames inputs <> [] /\
     Legacy.start_time_from Cases.sea_ice_env streams inDirectory
       (Legacy.ice_simulationStartTime inputs) /\
     (Legacy.first_restart streams = Ok (Legacy.ice_restartFile inputs) \/
      Legacy.ocean_restart Cases.sea_ice_env inDirectory =
        Ok (Legacy.ice_restartFile inputs))).
Proof.
  split.
  - apply (proj1 (legacy_analysis_inputs Cases.legacy_env (Some Examples.stream_map)
                    ["ts.0001-01.nc"; "ts.0001-02.nc"; "ts.0001-03.nc"]%string)
             (fun inputs => Ok (Legacy.sst_fileNames inputs))).
    reflexivity.
  - apply (proj2 (legacy_analysis_inputs Cases.sea_ice_env (Some Examples.stream_map)
                    ["mpaso.rst.0002-01-01.nc"; "0001-01-01_00:00:00"]%string)
             (fun inputs => Ok [Legacy.ice_restartFile inputs;
                                Legacy.ice_simulationStartTime inputs])).
    vm_compute. reflexivity.
Defined.

(** ** The plotting loop of the sea-ice time series *)

Lemma obs_lookup_other (inputs : Legacy.SeaIceInputs) (variableName : string) :
  variableName <> "iceAreaCell"%string ->
  variableName <> "iceVolumeCell"%string ->
  Python.dict_get (SeaIcePlots.obsFileNames inputs) variableName =
    Raise (KeyError variableName).
Proof.
  intros Ha Hv. unfold Python.dict_get, SeaIcePlots.obsFileNames.
  rewrite lookup_insert_ne by congruence.
  rewrite lookup_insert_ne by congruence.
  now rewrite lookup_empty.
Qed.

(** X29.  In the loop of [seaice_timeseries], a variable other than
    [iceAreaCell] and [iceVolumeCell] raises [KeyError] at the first
    statement of the body: the branch for [iceThickCell] and the final
    [ValueError] ("not supported for plotting") cannot be reached. *)
Theorem seaice_other_variable (inputs : Legacy.SeaIceInputs)
    (d : SeaIcePlots.Data) (ref variableName : string) :
  variableName <> "iceAreaCell"%string ->
  variableName <> "iceVolumeCell"%string ->
  SeaIcePlots.plot_variable inputs d ref variableName =
    Raise (KeyError variableName).
Proof.
  intros Ha Hv. unfold SeaIcePlots.plot_variable.
  now rewrite (obs_lookup_other inputs variableName Ha Hv).
Qed.

Ltac seaice_steps :=
  repeat match goal with
         | |- context [bindR ?c _] =>
             lazymatch c with
             | context [bindR _ _] => fail
             | _ => destruct c; cbn [bindR]
             end
         end.

(** X30.  The figures of [seaice_timeseries].  Every call of
    [timeseries_analysis_plot] gets as many line styles and line widths as
    series.  When the loop ends normally it has drawn four figures (one per
    hemisphere and variable) if observations or a reference run are
    compared, and two otherwise.  With [compareWithObservations] the
    southern-hemisphere volume figure is given [None] as its second series;
    without it no series is [None]. *)
Theorem seaice_plot_calls (inputs : Legacy.SeaIceInputs) (d : SeaIcePlots.Data)
    (ref : string) :
  let calls := fst (SeaIcePlots.plots inputs d ref) in
  let compareWithObservations := Legacy.ice_compareWithObservations inputs in
  Forall SeaIcePlots.consistent calls /\
  (snd (SeaIcePlots.plots inputs d ref) = Ok tt ->
   length calls =
     (if compareWithObservations || negb (String.eqb ref "None") then 4 else 2)%nat /\
   (compareWithObservations = true ->
    exists nh sh, nth_error calls 2 = Some nh /\ nth_error calls 3 = Some sh /\
      ~ In None (SeaIcePlots.vars nh) /\
      nth_error (SeaIcePlots.vars sh) 1 = Some None) /\
   (compareWithObservations = false ->
    forall c, In c calls -> ~ In None (SeaIcePlots.vars c))).
Proof.
  cbv zeta.
  unfold SeaIcePlots.plots, SeaIcePlots.variableNames, SeaIcePlots.plot_loop,
    SeaIcePlots.plot_variable.
  unfold Python.dict_get, SeaIcePlots.obsFileNames, SeaIcePlots.plotTitles,
    SeaIcePlots.unitsDictionary.
  repeat (rewrite lookup_insert_eq || (rewrite lookup_insert_ne by discriminate)).
  cbn [bindR].
  change ("iceAreaCell" =? "iceAreaCell")%string with true.
  change ("iceVolumeCell" =? "iceVolumeCell")%string with true.
  change ("iceAreaCell" =? "iceVolumeCell")%string with false.
  change ("iceVolumeCell" =? "iceAreaCell")%string with false.
  change ("iceAreaCell" =? "iceThickCell")%string with false.
  change ("iceVolumeCell" =? "iceThickCell")%string with false.
  destruct (Legacy.ice_compareWithObservations inputs);
    destruct (ref =? "None")%string;
    cbn [negb orb SeaIcePlots.when];
    seaice_steps; cbn [fst snd app length];
    (split; [repeat constructor|]);
    try (intros H; discriminate H);
    (intros _; split; [reflexivity|]; split;
     [first [ intros H; discriminate H
            | intros _; eexists _, _; split; [reflexivity|];
              split; [reflexivity|]; split; [|reflexivity];
              cbn; intuition discriminate ]
     | first [ intros H; discriminate H
             | intros _ c Hc; cbn in Hc;
               repeat (destruct Hc as [<-|Hc]; [cbn; intuition discriminate|]);
               destruct Hc ]]).
Qed.

Lemma seaice_other_variable_witness :
  SeaIcePlots.plot_variable Cases.sea_ice_inputs Cases.sea_ice_data "None"
    "iceThickCell" = Raise (KeyError "iceThickCell").
Proof.
  apply (seaice_other_variable Cases.sea_ice_inputs Cases.sea_ice_data "None"
           "iceThickCell"); discriminate.
Defined.

(** Observations compared, no reference run: four figures, the last one
    with [None] as second series. *)
Lemma seaice_plot_calls_witness :
  length (fst (SeaIcePlots.plots Cases.sea_ice_inputs Cases.sea_ice_data "None")) =
    4%nat /\
  exists nh sh,
    nth_error (fst (SeaIcePlots.plots Cases.sea_ice_inputs Cases.sea_ice_data "None"))
      2 = Some nh /\
    nth_error (fst (SeaIcePlots.plots Cases.sea_ice_inputs Cases.sea_ice_data "None"))
      3 = Some sh /\
    ~ In None (SeaIcePlots.vars nh) /\
    nth_error (SeaIcePlots.vars sh) 1 = Some None.
Proof.
  destruct (seaice_plot_calls Cases.sea_ice_inputs Cases.sea_ice_data "None")
    as [_ H].
  destruct (H eq_refl) as (Hlen & Hnone & _).
  split; [exact Hlen|exact (Hnone eq_refl)].
Defined.
